(** * PainPoint research pipeline: a shallow embedding

    The development follows the three TypeScript sources of the
    application:

    - [services/geminiService.ts]: the credential check [getAI] and the
      three stage functions [generateResearchPlan], [executeResearch] and
      [analyzeSignals];
    - [types.ts]: the run states, the two artefact shapes and the two
      response schemas handed to the generation backend;
    - [services/supabase.ts] and [App.tsx]: the profile store accessors
      and the [startResearch] handler that drives one pipeline run.

    JavaScript strings are modelled by [string], read as the UTF-8 bytes
    of the text.  Searching for an ASCII needle gives the same answer on
    the bytes as on the UTF-16 code units the engine works with. *)

From Stdlib Require Import String Ascii List Bool Arith ZArith Lia.
Import ListNotations.

Set Warnings "-register-all".

Local Open Scope string_scope.
Local Open Scope list_scope.

(** ** Strings as the engine sees them *)

Module Js.

(** The double quote, which a string literal of this file cannot hold. *)
Definition dq : string := String (ascii_of_nat 34) EmptyString.

(** Line feed, as it occurs inside the multi-line template literals. *)
Definition lf : string := String (ascii_of_nat 10) EmptyString.

(** [s.includes(needle)]. *)
Fixpoint includes (s needle : string) : bool :=
  if String.prefix needle s then true
  else match s with
       | EmptyString => false
       | String _ rest => includes rest needle
       end.

(** A value of type [string | undefined]. *)
Definition optstr := option string.

(** Truthiness of a [string | undefined]: [undefined] and the empty string
    are falsy. *)
Definition truthy (s : optstr) : bool :=
  match s with
  | None => false
  | Some EmptyString => false
  | Some _ => true
  end.

(** [s === lit] for a [string | undefined] against a string literal. *)
Definition strict_eq (s : optstr) (lit : string) : bool :=
  match s with
  | None => false
  | Some v => String.eqb v lit
  end.

(** [s?.includes(needle)], read as a condition: [undefined] is falsy. *)
Definition opt_includes (s : optstr) (needle : string) : bool :=
  match s with
  | None => false
  | Some v => includes v needle
  end.

(** A [string | undefined] interpolated into a template literal. *)
Definition interpolate (s : optstr) : string :=
  match s with
  | None => "undefined"
  | Some v => v
  end.

(** [a || b] on [string | undefined] with a string fallback. *)
Definition or_else (s : optstr) (fallback : string) : string :=
  match s with
  | None => fallback
  | Some EmptyString => fallback
  | Some v => v
  end.

(** Decimal rendering of a natural number, as [String(n)] gives it. *)
Definition digit_of (n : nat) : ascii := ascii_of_nat (48 + n).

Fixpoint decimal_aux (fuel n : nat) (acc : string) : string :=
  match fuel with
  | O => acc
  | S fuel' =>
      let acc' := String (digit_of (n mod 10)) acc in
      if Nat.eqb (n / 10) 0 then acc' else decimal_aux fuel' (n / 10) acc'
  end.

Definition decimal (n : nat) : string := decimal_aux (S n) n EmptyString.

(** *** [String.prototype.trim]

    The characters removed are ECMAScript's WhiteSpace and LineTerminator
    code points, listed here by their UTF-8 encodings. *)
Definition bytes (l : list nat) : list ascii := map ascii_of_nat l.

Definition white_space : list (list ascii) :=
  map bytes
    [ [9]; [10]; [11]; [12]; [13]; [32];
      [194; 160];                      (* U+00A0 *)
      [225; 154; 128];                 (* U+1680 *)
      [226; 128; 128]; [226; 128; 129]; [226; 128; 130]; [226; 128; 131];
      [226; 128; 132]; [226; 128; 133]; [226; 128; 134]; [226; 128; 135];
      [226; 128; 136]; [226; 128; 137]; [226; 128; 138];   (* U+2000..200A *)
      [226; 128; 168]; [226; 128; 169]; (* U+2028, U+2029 *)
      [226; 128; 175];                 (* U+202F *)
      [226; 129; 159];                 (* U+205F *)
      [227; 128; 128];                 (* U+3000 *)
      [239; 187; 191] ].               (* U+FEFF *)

Fixpoint strip_prefix (p l : list ascii) : option (list ascii) :=
  match p, l with
  | [], _ => Some l
  | a :: p', b :: l' => if Ascii.eqb a b then strip_prefix p' l' else None
  | _ :: _, [] => None
  end.

(** Removes one leading white-space character, if there is one. *)
Fixpoint strip_one (ws : list (list ascii)) (l : list ascii)
  : option (list ascii) :=
  match ws with
  | [] => None
  | w :: ws' =>
      match strip_prefix w l with
      | Some rest => Some rest
      | None => strip_one ws' l
      end
  end.

Fixpoint trim_left (ws : list (list ascii)) (fuel : nat) (l : list ascii)
  : list ascii :=
  match fuel with
  | O => l
  | S fuel' =>
      match strip_one ws l with
      | Some rest => trim_left ws fuel' rest
      | None => l
      end
  end.

Definition trimStart (l : list ascii) : list ascii :=
  trim_left white_space (List.length l) l.

(** Trailing white space is removed on the reversed bytes, against the
    reversed encodings. *)
Definition trimEnd (l : list ascii) : list ascii :=
  rev (trim_left (map (@rev ascii) white_space) (List.length l) (rev l)).

Definition trim (s : string) : string :=
  string_of_list_ascii (trimEnd (trimStart (list_ascii_of_string s))).

End Js.

(** ** JSON values

    What [JSON.parse] builds and [JSON.stringify] prints.  A number keeps
    the text of its literal; the members of an object are kept in
    insertion order. *)

Module Json.

Inductive value : Type :=
| JNull
| JBool (b : bool)
| JNumber (literal : string)
| JString (s : string)
| JArray (elements : list value)
| JObject (members : list (string * value)).

(** Own-property lookup [o.k] on the members of an object. *)
Fixpoint lookup (k : string) (ms : list (string * value)) : option value :=
  match ms with
  | [] => None
  | (k', v) :: rest => if String.eqb k' k then Some v else lookup k rest
  end.

(** Defining a property the way the parser does: a repeated name
    overwrites the earlier value and keeps its place. *)
Fixpoint set_member (k : string) (v : value) (ms : list (string * value))
  : list (string * value) :=
  match ms with
  | [] => [(k, v)]
  | (k', v') :: rest =>
      if String.eqb k' k then (k, v) :: rest
      else (k', v') :: set_member k v rest
  end.

(** [v.k] for a value that is known not to be [null]: only objects have
    own data properties named by the schemas. *)
Definition get (k : string) (v : value) : option value :=
  match v with
  | JObject ms => lookup k ms
  | _ => None
  end.

(** *** A reference reader for the JSON grammar

    One pass over the characters with an explicit stack of the arrays and
    objects that are still open, so the reader is total by structural
    recursion on its input. *)

Inductive frame : Type :=
| FArr (done : list value)
| FObj (done : list (string * value)) (pending : string).

Inductive expect : Type :=
| XValue
| XValueOrEnd
| XKeyOrEnd
| XKey
| XColon
| XCommaOrEnd
| XDone (v : value).

Inductive num_phase : Type :=
| NMinus | NZero | NInt | NDot | NFrac | NE | NESign | NExp.

Inductive lexing : Type :=
| LIdle
| LStr (acc : list ascii) (hi : option N)
| LEsc (acc : list ascii) (hi : option N)
| LHex (acc : list ascii) (hi : option N) (seen : nat) (code : N)
| LNum (ph : num_phase) (acc : list ascii)
| LLit (rest : list ascii) (v : value).

Record reader : Type := mkReader {
  stack : list frame;
  expecting : expect;
  lex : lexing
}.

Definition code (c : ascii) : nat := nat_of_ascii c.

Definition is_digit (c : ascii) : bool :=
  (48 <=? code c)%nat && (code c <=? 57)%nat.

Definition is_json_space (c : ascii) : bool :=
  match code c with
  | 9 | 10 | 13 | 32 => true
  | _ => false
  end.

Definition hex_value (c : ascii) : option N :=
  let n := code c in
  if (48 <=? n)%nat && (n <=? 57)%nat then Some (N.of_nat (n - 48))
  else if (65 <=? n)%nat && (n <=? 70)%nat then Some (N.of_nat (n - 55))
  else if (97 <=? n)%nat && (n <=? 102)%nat then Some (N.of_nat (n - 87))
  else None.

(** UTF-8 bytes of a code point, last byte first (the accumulators are
    reversed).  A lone surrogate is written the same way on three bytes. *)
Definition utf8_rev (cp : N) : list ascii :=
  let b (n : N) := ascii_of_N n in
  if (cp <? 128)%N then [b cp]
  else if (cp <? 2048)%N then
    [b (128 + cp mod 64); b (192 + cp / 64)]%N
  else if (cp <? 65536)%N then
    [b (128 + cp mod 64); b (128 + (cp / 64) mod 64); b (224 + cp / 4096)]%N
  else
    [b (128 + cp mod 64); b (128 + (cp / 64) mod 64);
     b (128 + (cp / 4096) mod 64); b (240 + cp / 262144)]%N.

Definition is_high (u : N) : bool := (55296 <=? u)%N && (u <=? 56319)%N.
Definition is_low (u : N) : bool := (56320 <=? u)%N && (u <=? 57343)%N.

(** Writes out a high surrogate that found no partner. *)
Definition flush (hi : option N) (acc : list ascii) : list ascii :=
  match hi with
  | Some h => utf8_rev h ++ acc
  | None => acc
  end.

(** Appends the UTF-16 code unit of a [\uXXXX] escape, pairing surrogates. *)
Definition push_unit (hi : option N) (u : N) (acc : list ascii)
  : list ascii * option N :=
  match hi with
  | Some h =>
      if is_low u
      then (utf8_rev (65536 + (h - 55296) * 1024 + (u - 56320))%N ++ acc, None)
      else if is_high u then (utf8_rev h ++ acc, Some u)
      else (utf8_rev u ++ utf8_rev h ++ acc, None)
  | None =>
      if is_high u then (acc, Some u) else (utf8_rev u ++ acc, None)
  end.

Definition num_step (ph : num_phase) (c : ascii) : option num_phase :=
  let d := is_digit c in
  let e := Ascii.eqb c "e" || Ascii.eqb c "E" in
  match ph with
  | NMinus => if Ascii.eqb c "0" then Some NZero
              else if d then Some NInt else None
  | NZero => if Ascii.eqb c "." then Some NDot
             else if e then Some NE else None
  | NInt => if d then Some NInt
            else if Ascii.eqb c "." then Some NDot
            else if e then Some NE else None
  | NDot => if d then Some NFrac else None
  | NFrac => if d then Some NFrac else if e then Some NE else None
  | NE => if Ascii.eqb c "+" || Ascii.eqb c "-" then Some NESign
          else if d then Some NExp else None
  | NESign => if d then Some NExp else None
  | NExp => if d then Some NExp else None
  end.

Definition can_end (ph : num_phase) : bool :=
  match ph with
  | NZero | NInt | NFrac | NExp => true
  | _ => false
  end.

Definition text_of (acc : list ascii) : string :=
  string_of_list_ascii (rev acc).

(** A value is complete: it goes to the innermost open container, or it is
    the result. *)
Definition complete_value (stk : list frame) (v : value) : reader :=
  match stk with
  | [] => mkReader [] (XDone v) LIdle
  | FArr done :: below => mkReader (FArr (v :: done) :: below) XCommaOrEnd LIdle
  | FObj done k :: below =>
      mkReader (FObj (set_member k v done) k :: below) XCommaOrEnd LIdle
  end.

Definition complete_string (r : reader) (s : string) : option reader :=
  match expecting r with
  | XKeyOrEnd | XKey =>
      match stack r with
      | FObj done _ :: below => Some (mkReader (FObj done s :: below) XColon LIdle)
      | _ => None
      end
  | _ => Some (complete_value (stack r) (JString s))
  end.

Definition close_array (r : reader) : option reader :=
  match stack r with
  | FArr done :: below => Some (complete_value below (JArray (rev done)))
  | _ => None
  end.

Definition close_object (r : reader) : option reader :=
  match stack r with
  | FObj done _ :: below => Some (complete_value below (JObject done))
  | _ => None
  end.

Definition start_string (r : reader) : option reader :=
  Some (mkReader (stack r) (expecting r) (LStr [] None)).

Definition start_value (r : reader) (c : ascii) : option reader :=
  let lexing_with l := Some (mkReader (stack r) (expecting r) l) in
  if Ascii.eqb c "{" then Some (mkReader (FObj [] "" :: stack r) XKeyOrEnd LIdle)
  else if Ascii.eqb c "[" then Some (mkReader (FArr [] :: stack r) XValueOrEnd LIdle)
  else if (code c =? 34)%nat then start_string r
  else if Ascii.eqb c "-" then lexing_with (LNum NMinus [c])
  else if Ascii.eqb c "0" then lexing_with (LNum NZero [c])
  else if is_digit c then lexing_with (LNum NInt [c])
  else if Ascii.eqb c "t" then
    lexing_with (LLit (list_ascii_of_string "rue") (JBool true))
  else if Ascii.eqb c "f" then
    lexing_with (LLit (list_ascii_of_string "alse") (JBool false))
  else if Ascii.eqb c "n" then
    lexing_with (LLit (list_ascii_of_string "ull") JNull)
  else None.

(** One character while no token is in progress. *)
Definition idle (r : reader) (c : ascii) : option reader :=
  if is_json_space c then Some r
  else
    match expecting r with
    | XValue => start_value r c
    | XValueOrEnd => if Ascii.eqb c "]" then close_array r else start_value r c
    | XKeyOrEnd =>
        if Ascii.eqb c "}" then close_object r
        else if (code c =? 34)%nat then start_string r
        else None
    | XKey => if (code c =? 34)%nat then start_string r else None
    | XColon =>
        if Ascii.eqb c ":" then Some (mkReader (stack r) XValue LIdle) else None
    | XCommaOrEnd =>
        match stack r with
        | FArr _ :: _ =>
            if Ascii.eqb c "," then Some (mkReader (stack r) XValue LIdle)
            else if Ascii.eqb c "]" then close_array r
            else None
        | FObj _ _ :: _ =>
            if Ascii.eqb c "," then Some (mkReader (stack r) XKey LIdle)
            else if Ascii.eqb c "}" then close_object r
            else None
        | [] => None
        end
    | XDone _ => None
    end.

Definition unescape (c : ascii) : option ascii :=
  match code c with
  | 34 | 92 | 47 => Some c
  | 98 => Some (ascii_of_nat 8)
  | 102 => Some (ascii_of_nat 12)
  | 110 => Some (ascii_of_nat 10)
  | 114 => Some (ascii_of_nat 13)
  | 116 => Some (ascii_of_nat 9)
  | _ => None
  end.

(** One character of the input; [None] when it cannot continue the text. *)
Definition step (r : reader) (c : ascii) : option reader :=
  let lexing_with l := Some (mkReader (stack r) (expecting r) l) in
  match lex r with
  | LIdle => idle r c
  | LStr acc hi =>
      if (code c =? 34)%nat then complete_string r (text_of (flush hi acc))
      else if (code c =? 92)%nat then lexing_with (LEsc acc hi)
      else if (code c <? 32)%nat then None
      else lexing_with (LStr (c :: flush hi acc) None)
  | LEsc acc hi =>
      if Ascii.eqb c "u" then lexing_with (LHex acc hi 0 0%N)
      else match unescape c with
           | Some c' => lexing_with (LStr (c' :: flush hi acc) None)
           | None => None
           end
  | LHex acc hi seen cp =>
      match hex_value c with
      | None => None
      | Some d =>
          let cp' := (cp * 16 + d)%N in
          if (seen =? 3)%nat
          then let '(acc', hi') := push_unit hi cp' acc in
               lexing_with (LStr acc' hi')
          else lexing_with (LHex acc hi (S seen) cp')
      end
  | LNum ph acc =>
      match num_step ph c with
      | Some ph' => lexing_with (LNum ph' (c :: acc))
      | None =>
          if can_end ph
          then idle (complete_value (stack r) (JNumber (text_of acc))) c
          else None
      end
  | LLit rest v =>
      match rest with
      | x :: rest' =>
          if Ascii.eqb c x
          then match rest' with
               | [] => Some (complete_value (stack r) v)
               | _ => lexing_with (LLit rest' v)
               end
          else None
      | [] => None
      end
  end.

(** The end of the input: a number may end here, nothing else may be open. *)
Definition finish (r : reader) : option value :=
  let r' :=
    match lex r with
    | LIdle => Some r
    | LNum ph acc =>
        if can_end ph
        then Some (complete_value (stack r) (JNumber (text_of acc)))
        else None
    | _ => None
    end in
  match r' with
  | Some (mkReader [] (XDone v) LIdle) => Some v
  | _ => None
  end.

(** Where reading stopped: the offset and the character found there, or
    no character at the end of the input. *)
Definition stuck : Type := (nat * option ascii)%type.

Fixpoint read (r : reader) (pos : nat) (input : list ascii) : value + stuck :=
  match input with
  | [] =>
      match finish r with
      | Some v => inl v
      | None => inr (pos, None)
      end
  | c :: rest =>
      match step r c with
      | Some r' => read r' (S pos) rest
      | None => inr (pos, Some c)
      end
  end.

Definition read_text (text : string) : value + stuck :=
  read (mkReader [] XValue LIdle) 0 (list_ascii_of_string text).

(** *** A reference printer: [JSON.stringify(v, null, 2)] *)

Definition hex_digit (n : N) : ascii :=
  ascii_of_N (if (n <? 10)%N then 48 + n else 87 + n)%N.

(** [\uXXXX] for a code unit. *)
Definition escape_unit (u : N) : list ascii :=
  [ascii_of_nat 92; "u"%char;
   hex_digit (u / 4096); hex_digit ((u / 256) mod 16);
   hex_digit ((u / 16) mod 16); hex_digit (u mod 16)].

Fixpoint quote_chars (l : list ascii) : list ascii :=
  match l with
  | [] => []
  | c :: rest =>
      let n := code c in
      let bs x := [ascii_of_nat 92; x] in
      match n, rest with
      | 237, c2 :: c3 :: rest' =>
          (* a surrogate standing alone is escaped *)
          if (160 <=? code c2)%nat
          then escape_unit (53248 + N.of_nat (code c2 mod 64) * 64
                            + N.of_nat (code c3 mod 64))%N ++ quote_chars rest'
          else c :: quote_chars rest
      | _, _ =>
          if (n =? 34)%nat || (n =? 92)%nat then bs c ++ quote_chars rest
          else if (n =? 8)%nat then bs "b"%char ++ quote_chars rest
          else if (n =? 12)%nat then bs "f"%char ++ quote_chars rest
          else if (n =? 10)%nat then bs "n"%char ++ quote_chars rest
          else if (n =? 13)%nat then bs "r"%char ++ quote_chars rest
          else if (n =? 9)%nat then bs "t"%char ++ quote_chars rest
          else if (n <? 32)%nat then escape_unit (N.of_nat n) ++ quote_chars rest
          else c :: quote_chars rest
      end
  end.

Definition quote (s : string) : string :=
  (Js.dq ++ string_of_list_ascii (quote_chars (list_ascii_of_string s))
   ++ Js.dq)%string.

Fixpoint join (sep : string) (parts : list string) : string :=
  match parts with
  | [] => ""
  | [x] => x
  | x :: rest => (x ++ sep ++ join sep rest)%string
  end.

Local Open Scope string_scope.

Fixpoint print (indent : string) (v : value) : string :=
  let inner := indent ++ "  " in
  match v with
  | JNull => "null"
  | JBool true => "true"
  | JBool false => "false"
  | JNumber literal => literal
  | JString s => quote s
  | JArray [] => "[]"
  | JArray elements =>
      "[" ++ Js.lf
      ++ join ("," ++ Js.lf) (map (fun e => inner ++ print inner e) elements)
      ++ Js.lf ++ indent ++ "]"
  | JObject [] => "{}"
  | JObject members =>
      "{" ++ Js.lf
      ++ join ("," ++ Js.lf)
           (map (fun m => inner ++ quote (fst m) ++ ": " ++ print inner (snd m))
                members)
      ++ Js.lf ++ indent ++ "}"
  end.

Definition stringify_2 (v : value) : string := print "" v.

(** *** The text of the reference reader's [SyntaxError]

    The wording quotes the character that could not be read and the
    source around it. *)

Definition syntax_error_message (text : string) (at_ : stuck) : string :=
  match at_ with
  | (_, None) => "Unexpected end of JSON input"
  | (pos, Some c) =>
      let len := String.length text in
      let head := "Unexpected token '" ++ String c "" ++ "', " in
      let tail := " is not valid JSON" in
      if (len <? 21)%nat then head ++ Js.dq ++ text ++ Js.dq ++ tail
      else if (pos <? 10)%nat then
        head ++ Js.dq ++ substring 0 (pos + 10) text ++ Js.dq ++ "..." ++ tail
      else if (pos <? len - 10)%nat then
        head ++ "..." ++ Js.dq ++ substring (pos - 10) 20 text ++ Js.dq
        ++ "..." ++ tail
      else
        head ++ "..." ++ Js.dq ++ substring (pos - 10) (len - (pos - 10)) text
        ++ Js.dq ++ tail
  end.

(** [JSON.parse] of the reference host: the value, or the message of the
    [SyntaxError] it throws. *)
Definition parse (text : string) : value + string :=
  match read_text text with
  | inl v => inl v
  | inr at_ => inr (syntax_error_message text at_)
  end.

End Json.

(** ** [types.ts] *)

Module Types.

Import Json.

Record UserProfile : Type := {
  id : string;
  first_name : option string;
  last_name : option string;
  email : string;
  credits_used : Z;
  is_pro : bool;
  created_at : string
}.

Inductive ResearchStage : Type :=
| IDLE | PLANNING | RESEARCHING | ANALYZING | COMPLETED | ERROR.

Definition ResearchStage_eqb (a b : ResearchStage) : bool :=
  match a, b with
  | IDLE, IDLE | PLANNING, PLANNING | RESEARCHING, RESEARCHING
  | ANALYZING, ANALYZING | COMPLETED, COMPLETED | ERROR, ERROR => true
  | _, _ => false
  end.

Record Subreddit : Type := {
  name : string;
  queries : list string
}.

Record ResearchPlan : Type := {
  subreddits : list Subreddit;
  softwareCategories : list string;
  competitorApps : list string;
  searchStrings : list string;
  nicheForums : list string
}.

(** The schema language of the generation backend, as far as the two
    schemas use it: [Type.STRING], [Type.NUMBER], [Type.ARRAY] with
    [items], [Type.OBJECT] with [properties] and [required]. *)
Inductive Schema : Type :=
| STRING
| NUMBER
| ARRAY (items : Schema)
| OBJECT (properties : list (string * Schema)) (required : list string).

Definition RESEARCH_PLAN_SCHEMA : Schema :=
  OBJECT
    [ ("subreddits",
       ARRAY (OBJECT [ ("name", STRING); ("queries", ARRAY STRING) ]
                     [ "name"; "queries" ]));
      ("softwareCategories", ARRAY STRING);
      ("competitorApps", ARRAY STRING);
      ("searchStrings", ARRAY STRING);
      ("nicheForums", ARRAY STRING) ]
    [ "subreddits"; "softwareCategories"; "competitorApps"; "searchStrings";
      "nicheForums" ].

Definition SIGNAL_REPORT_SCHEMA : Schema :=
  OBJECT
    [ ("executiveSummary", STRING);
      ("patterns",
       ARRAY
         (OBJECT
            [ ("id", STRING);
              ("title", STRING);
              ("description", STRING);
              ("scores",
               OBJECT [ ("frequency", NUMBER); ("desperation", NUMBER);
                        ("willingnessToPay", NUMBER); ("trend", NUMBER) ]
                      [ "frequency"; "desperation"; "willingnessToPay";
                        "trend" ]);
              ("classification", STRING);
              ("quotes",
               ARRAY
                 (OBJECT [ ("text", STRING); ("source", STRING);
                           ("date", STRING); ("url", STRING) ]
                         [ "text"; "source"; "date"; "url" ])) ]
            [ "id"; "title"; "description"; "scores"; "classification";
              "quotes" ]));
      ("nextSteps", ARRAY STRING) ]
    [ "executiveSummary"; "patterns"; "nextSteps" ].

(** When a JSON value matches a schema: the value has the schema's type,
    every element of an array matches [items], every required property
    of an object is present and every declared property that is present
    matches its own schema. *)
Fixpoint conforms (s : Schema) (v : value) : bool :=
  match s, v with
  | STRING, JString _ => true
  | NUMBER, JNumber _ => true
  | ARRAY items, JArray elements => forallb (conforms items) elements
  | OBJECT properties required, JObject members =>
      forallb (fun k => match lookup k members with
                        | Some _ => true
                        | None => false
                        end) required
      && forallb (fun p => match lookup (fst p) members with
                           | Some v' => conforms (snd p) v'
                           | None => true
                           end) properties
  | _, _ => false
  end.

(** *** The parsed value read at type [ResearchPlan]

    The cast [as ResearchPlan] leaves the value as it is; these readers
    say what the fields of that type are on a JSON value. *)

Definition as_string (v : value) : option string :=
  match v with
  | JString s => Some s
  | _ => None
  end.

Fixpoint all_some {A B : Type} (f : A -> option B) (l : list A)
  : option (list B) :=
  match l with
  | [] => Some []
  | x :: rest =>
      match f x, all_some f rest with
      | Some y, Some ys => Some (y :: ys)
      | _, _ => None
      end
  end.

Definition as_array {B : Type} (f : value -> option B) (v : value)
  : option (list B) :=
  match v with
  | JArray elements => all_some f elements
  | _ => None
  end.

Definition field {B : Type} (k : string) (f : value -> option B) (v : value)
  : option B :=
  match get k v with
  | Some x => f x
  | None => None
  end.

Definition as_Subreddit (v : value) : option Subreddit :=
  match field "name" as_string v, field "queries" (as_array as_string) v with
  | Some n, Some qs => Some {| name := n; queries := qs |}
  | _, _ => None
  end.

Definition as_ResearchPlan (v : value) : option ResearchPlan :=
  match field "subreddits" (as_array as_Subreddit) v,
        field "softwareCategories" (as_array as_string) v,
        field "competitorApps" (as_array as_string) v,
        field "searchStrings" (as_array as_string) v,
        field "nicheForums" (as_array as_string) v with
  | Some a, Some b, Some c, Some d, Some e =>
      Some {| subreddits := a; softwareCategories := b; competitorApps := c;
              searchStrings := d; nicheForums := e |}
  | _, _, _, _, _ => None
  end.

End Types.

(** ** The runtime around the application

    What the sources take from outside: the engine's [JSON] object, the
    process configuration, the generation backend behind the SDK client
    and the profile store behind the storage client. *)

Module Runtime.

Import Json Types.

(** The error object of the storage client. *)
Record PostgrestError : Type := {
  code : string;
  pg_message : string
}.

(** Values that are thrown.  The handlers only ever read [.message], so a
    value rejected by a remote call is kept as that property, [None] when
    the value has none.  The libraries reject with error objects; a
    rejection with [null] or [undefined] itself is not modelled. *)
Inductive thrown : Type :=
| Error_ (message : string)
| SyntaxError_ (message : string)
| TypeError_ (message : string)
| Rejection (message : Js.optstr)
| Postgrest (e : PostgrestError).

(** [e.message] *)
Definition message_of (e : thrown) : Js.optstr :=
  match e with
  | Error_ m | SyntaxError_ m | TypeError_ m => Some m
  | Rejection m => m
  | Postgrest e => Some (pg_message e)
  end.

Inductive outcome (A : Type) : Type :=
| Resolved (a : A)
| Rejected (e : thrown).
Arguments Resolved {A} a.
Arguments Rejected {A} e.

(** [config] of a generation request: structured output against a
    schema, or the search tool. *)
Inductive GenerateContentConfig : Type :=
| Structured (responseMimeType : string) (responseSchema : Schema)
| Tools_googleSearch.

Record GoogleGenAI : Type := { apiKey : Js.optstr }.

Record GenerateContentParameters : Type := {
  model : string;
  contents : string;
  config : GenerateContentConfig
}.

Record GenerateContentResponse : Type := { text : Js.optstr }.

Record SingleResult : Type := {
  data : option UserProfile;
  error_of_single : option PostgrestError
}.

Record Platform (W : Type) : Type := {
  (** [process.env.GEMINI_API_KEY] *)
  GEMINI_API_KEY : Js.optstr;
  (** [JSON.parse]: the value, or the message of the [SyntaxError] *)
  JSON_parse : string -> value + string;
  (** [JSON.stringify(v, null, 2)] *)
  JSON_stringify : value -> string;
  (** the message of the [TypeError] for reading a property of [null] or
      [undefined]: the base is [null] or not, then the property name *)
  cannot_read : bool -> string -> string;
  (** [ai.models.generateContent(params)] *)
  generateContent :
    GoogleGenAI -> GenerateContentParameters -> W
    -> outcome GenerateContentResponse * W;
  (** [supabase.from('profiles').select('*').eq('id', userId).single()] *)
  profiles_single : string -> W -> outcome SingleResult * W;
  (** [supabase.rpc('increment_credits', { user_id })] *)
  rpc_increment_credits : string -> W -> outcome (option PostgrestError) * W
}.
Arguments GEMINI_API_KEY {W} _.
Arguments JSON_parse {W} _ _.
Arguments JSON_stringify {W} _ _.
Arguments cannot_read {W} _ _ _.
Arguments generateContent {W} _ _ _ _.
Arguments profiles_single {W} _ _ _.
Arguments rpc_increment_credits {W} _ _ _.

Record Session : Type := {
  user_id : string;
  user_email : string
}.

(** The component state of [App] that the run handler reads or writes.
    [plan] and [report] are [None] after the reset by [setPlan(null)] and
    [setReport(null)], and [Some v] once the value [v] of a stage is
    stored.  A stored value can itself be [JNull], when the answer is the
    text null: [Some JNull] and [None] are then the same [null] of the
    component. *)
Record AppState : Type := mkApp {
  market : string;
  stage : ResearchStage;
  plan : option value;
  report : option value;
  error : option string;
  progressText : string;
  session : option Session;
  profile : option UserProfile;
  showAuthModal : bool
}.

Record AuthDetails : Type := {
  hasKey : bool;
  isPlaceholder : bool;
  isEmpty : bool;
  isUndefinedString : bool
}.

(** What a run does that can be observed from outside. *)
Inductive event : Type :=
| ConsoleErrorDetails (label : string) (details : AuthDetails)
| ConsoleError (label : string) (e : thrown)
| GenerateContent (ai : GoogleGenAI) (params : GenerateContentParameters)
| ProfilesSingle (userId : string)
| RpcIncrementCredits (userId : string)
| StageSet (s : ResearchStage).

Definition is_GenerateContent (ev : event) : bool :=
  match ev with
  | GenerateContent _ _ => true
  | _ => false
  end.

Record state (W : Type) : Type := mkState {
  world : W;
  ui : AppState;
  trace : list event
}.
Arguments mkState {W} _ _ _.
Arguments world {W} _.
Arguments ui {W} _.
Arguments trace {W} _.

Inductive completion (A : Type) : Type :=
| Normal (a : A)
| Throw (e : thrown).
Arguments Normal {A} a.
Arguments Throw {A} e.

(** Computations: state passing with exceptions; the state survives a
    throw. *)
Definition M (W A : Type) : Type := state W -> completion A * state W.

Definition ret {W A} (a : A) : M W A := fun s => (Normal a, s).

Definition bind {W A B} (m : M W A) (k : A -> M W B) : M W B :=
  fun s =>
    match m s with
    | (Normal a, s') => k a s'
    | (Throw e, s') => (Throw e, s')
    end.

Definition throw {W A} (e : thrown) : M W A := fun s => (Throw e, s).

Definition try_catch {W A} (body : M W A) (handler : thrown -> M W A)
  : M W A :=
  fun s =>
    match body s with
    | (Normal a, s') => (Normal a, s')
    | (Throw e, s') => handler e s'
    end.

Definition emit {W} (ev : event) : M W unit :=
  fun s => (Normal tt, mkState (world s) (ui s) (trace s ++ [ev])).

(** A call that crosses to a remote service: it is recorded, the service
    moves on, and a rejection is thrown at the [await]. *)
Definition remote {W A} (ev : event) (call : W -> outcome A * W) : M W A :=
  fun s =>
    let '(r, w') := call (world s) in
    let s' := mkState w' (ui s) (trace s ++ [ev]) in
    match r with
    | Resolved a => (Normal a, s')
    | Rejected e => (Throw e, s')
    end.

Definition modify_ui {W} (f : AppState -> AppState) : M W unit :=
  fun s => (Normal tt, mkState (world s) (f (ui s)) (trace s)).

End Runtime.

Declare Scope js_scope.
Delimit Scope js_scope with js.
Notation "x <- m ;; k" := (Runtime.bind m (fun x => k))
  (at level 61, m at next level, right associativity) : js_scope.
Notation "m ;; k" := (Runtime.bind m (fun _ => k))
  (at level 61, right associativity) : js_scope.

(** ** [services/geminiService.ts] *)

Module GeminiService.

Import Json Types Runtime.
Local Open Scope js_scope.

Definition missing_key_message : string :=
  "Gemini API Key is missing or empty. Please ensure you have added 'GEMINI_API_KEY' to the Secrets panel and restarted the app.".

Definition empty_response_message : string :=
  "The model returned an empty response. This can happen if the prompt was blocked or the model is unavailable.".

Definition invalid_key_message : string :=
  "Invalid API Key. Please check your GEMINI_API_KEY in the Secrets panel.".

Definition rate_limit_message : string :=
  "Rate limit exceeded. Please wait a moment before trying again.".

Definition no_analysis_message : string :=
  "No analysis received from Gemini.".

Definition no_research_data : string := "No research data found.".

Definition planning_prompt (market : string) : string :=
  "You are a world-class market research planner. " ++ Js.lf ++
  "      Create a structured research plan for the following market: " ++
  Js.dq ++ market ++ Js.dq ++ "." ++ Js.lf ++
  "      Focus on finding real, validated problems and complaints." ++
  Js.lf ++
  "      The plan should include subreddits, software categories (G2/Capterra), competitor apps (App Store), search strings, and niche forums.".

Definition research_prompt (market plan_json : string) : string :=
  "Perform deep market research for " ++ Js.dq ++ market ++ Js.dq ++
  " based on this plan:" ++ Js.lf ++ "    " ++
  plan_json ++ Js.lf ++ "    " ++ Js.lf ++
  "    Search for:" ++ Js.lf ++
  "    1. Reddit threads with complaints and frustrations." ++ Js.lf ++
  "    2. Negative reviews on G2, Capterra, and App Store." ++ Js.lf ++
  "    3. Discussions in niche forums." ++ Js.lf ++ "    " ++ Js.lf ++
  "    Extract specific quotes, dates, and URLs. Look for " ++ Js.dq ++
  "desperation language" ++ Js.dq ++ " (e.g., " ++ Js.dq ++
  "nothing works" ++ Js.dq ++ ", " ++ Js.dq ++ "losing money" ++ Js.dq ++
  ", " ++ Js.dq ++ "I hate that" ++ Js.dq ++ ")." ++ Js.lf ++
  "    Focus on recurring patterns of frustration." ++ Js.lf ++ "    " ++
  Js.lf ++
  "    Return a detailed summary of your findings, including raw text snippets and their sources.".

Definition analysis_prompt (market rawResearch : string) : string :=
  "Analyze the following market research data for " ++ Js.dq ++ market ++
  Js.dq ++ " and extract Problem Patterns." ++ Js.lf ++ "      " ++ Js.lf ++
  "      Research Data:" ++ Js.lf ++ "      " ++ rawResearch ++ Js.lf ++
  "      " ++ Js.lf ++ "      For each pattern:" ++ Js.lf ++
  "      - Score Frequency (1-5): How widespread is this?" ++ Js.lf ++
  "      - Score Desperation (1-5): How intense is the language?" ++ Js.lf ++
  "      - Score Willingness to Pay (1-5): Are they losing money or paying for workarounds?" ++
  Js.lf ++
  "      - Score Trend (1-5): Is this a recent and growing problem?" ++
  Js.lf ++ "      " ++ Js.lf ++ "      Classify as " ++ Js.dq ++
  "Strong Signal" ++ Js.dq ++ ", " ++ Js.dq ++ "Weak Signal" ++ Js.dq ++
  ", or " ++ Js.dq ++ "Noise" ++ Js.dq ++ "." ++ Js.lf ++
  "      A complaint only qualifies as signal if there is an implied or explicit desired alternative." ++
  Js.lf ++ "      " ++ Js.lf ++
  "      Provide 3-5 direct quotes per pattern with source links." ++
  Js.lf ++ "      Include an executive summary and next steps.".

Definition planning_prefix : string := "Research Planning failed: ".
Definition execution_prefix : string := "Research Execution failed: ".
Definition analysis_prefix : string := "Signal Analysis failed: ".

Section Service.

Context {W : Type} (P : Platform W).

Definition getAI : M W GoogleGenAI :=
  let apiKey := GEMINI_API_KEY P in
  if negb (Js.truthy apiKey)
     || Js.strict_eq apiKey "MY_GEMINI_API_KEY"
     || Js.strict_eq apiKey ""
     || Js.strict_eq apiKey "undefined"
  then
    let details :=
      {| hasKey := Js.truthy apiKey;
         isPlaceholder := Js.strict_eq apiKey "MY_GEMINI_API_KEY";
         isEmpty := Js.strict_eq apiKey "";
         isUndefinedString := Js.strict_eq apiKey "undefined" |} in
    emit (ConsoleErrorDetails "Gemini Auth Check Failed:" details) ;;
    throw (Error_ missing_key_message)
  else ret {| apiKey := apiKey |}.

(** [await ai.models.generateContent(params)] *)
Definition models_generateContent (ai : GoogleGenAI)
    (params : GenerateContentParameters) : M W GenerateContentResponse :=
  remote (GenerateContent ai params) (generateContent P ai params).

(** [JSON.parse(text)], throwing the engine's [SyntaxError]. *)
Definition parse_json (text : string) : M W value :=
  match JSON_parse P text with
  | inl v => ret v
  | inr m => throw (SyntaxError_ m)
  end.

(** Each stage is a [try] block and a [catch] block; the two are named so
    that the error the [try] block raises can be spoken of. *)

Definition planning_attempt (market : string) : M W value :=
  ai <- getAI ;;
  response <- models_generateContent ai
    {| model := "gemini-3-flash-preview";
       contents := planning_prompt market;
       config := Structured "application/json" RESEARCH_PLAN_SCHEMA |} ;;
  if negb (Js.truthy (text response))
  then throw (Error_ empty_response_message)
  else parse_json (Js.interpolate (text response)).

Definition planning_failure (error : thrown) : M W value :=
  emit (ConsoleError "Detailed Planning Error:" error) ;;
  if Js.opt_includes (message_of error) "403"
     || Js.opt_includes (message_of error) "401"
  then throw (Error_ invalid_key_message)
  else if Js.opt_includes (message_of error) "429"
  then throw (Error_ rate_limit_message)
  else throw (Error_ (planning_prefix ++ Js.interpolate (message_of error))).

Definition generateResearchPlan (market : string) : M W value :=
  try_catch (planning_attempt market) planning_failure.

Definition research_attempt (market : string) (plan : value) : M W string :=
  ai <- getAI ;;
  let prompt := research_prompt market (JSON_stringify P plan) in
  response <- models_generateContent ai
    {| model := "gemini-3-flash-preview";
       contents := prompt;
       config := Tools_googleSearch |} ;;
  ret (Js.or_else (text response) no_research_data).

Definition research_failure (error : thrown) : M W string :=
  emit (ConsoleError "Error in executeResearch:" error) ;;
  throw (Error_ (execution_prefix ++ Js.interpolate (message_of error))).

Definition executeResearch (market : string) (plan : value) : M W string :=
  try_catch (research_attempt market plan) research_failure.

Definition analysis_attempt (market rawResearch : string) : M W value :=
  ai <- getAI ;;
  response <- models_generateContent ai
    {| model := "gemini-3-flash-preview";
       contents := analysis_prompt market rawResearch;
       config := Structured "application/json" SIGNAL_REPORT_SCHEMA |} ;;
  if negb (Js.truthy (text response))
  then throw (Error_ no_analysis_message)
  else parse_json (Js.interpolate (text response)).

Definition analysis_failure (error : thrown) : M W value :=
  emit (ConsoleError "Error in analyzeSignals:" error) ;;
  throw (Error_ (analysis_prefix ++ Js.interpolate (message_of error))).

Definition analyzeSignals (market rawResearch : string) : M W value :=
  try_catch (analysis_attempt market rawResearch) analysis_failure.

End Service.

End GeminiService.

(** ** [services/supabase.ts] *)

Module Supabase.

Import Types Runtime.
Local Open Scope js_scope.

Section Store.

Context {W : Type} (P : Platform W).

Definition getProfile (userId : string) : M W (option UserProfile) :=
  try_catch
    (r <- remote (ProfilesSingle userId) (profiles_single P userId) ;;
     match error_of_single r with
     | Some error =>
         if String.eqb (code error) "PGRST116" then ret None
         else
           emit (ConsoleError "Error fetching profile:" (Postgrest error)) ;;
           throw (Postgrest error)
     | None => ret (data r)
     end)
    (fun err =>
       emit (ConsoleError "Supabase getProfile failed:" err) ;;
       ret None).

Definition incrementCredits (userId : string) : M W unit :=
  try_catch
    (r <- remote (RpcIncrementCredits userId) (rpc_increment_credits P userId) ;;
     match r with
     | Some error =>
         emit (ConsoleError "Error incrementing credits:" (Postgrest error)) ;;
         throw (Postgrest error)
     | None => ret tt
     end)
    (fun err =>
       emit (ConsoleError "Supabase incrementCredits failed:" err) ;;
       ret tt).

End Store.

End Supabase.

(** ** [App.tsx]: the run handler *)

Module App.

Import Json Types Runtime.
Local Open Scope js_scope.

Definition credit_limit_message : string :=
  "Free credit limit reached. Please upgrade to Pro.".

Definition unexpected_error_message : string :=
  "An unexpected error occurred during research.".

(** What a property read can give besides a JSON value. *)
Inductive jsval : Type :=
| Undefined
| Number_ (n : nat)
| Value (v : value).

(** Length of a string in UTF-16 code units, counted on its UTF-8 bytes:
    one per character, two for a character of four bytes. *)
Fixpoint utf16_length (l : list ascii) : nat :=
  match l with
  | [] => 0
  | c :: rest =>
      let n := nat_of_ascii c in
      (if (n <? 128)%nat || (192 <=? n)%nat then 1 else 0)
      + (if (240 <=? n)%nat then 1 else 0)
      + utf16_length rest
  end.

(** [String(x)], as a template literal applies it.  Exact for a count,
    for [undefined], [null], booleans, strings and arrays of those, which
    covers every length of a plan that matches the schema.  A number is
    printed by its literal, which is the engine's text when the literal
    is in the engine's own form; an object is printed as the engine
    prints an object without a member named toString (with one, the
    conversion throws in the engine). *)
Definition element_text (v : value) : string :=
  match v with
  | JNull => ""
  | JBool true => "true"
  | JBool false => "false"
  | JNumber literal => literal
  | JString s => s
  | JArray _ => ""
  | JObject _ => "[object Object]"
  end.

Fixpoint array_text (v : value) : string :=
  match v with
  | JArray elements => Json.join "," (map array_text elements)
  | other => element_text other
  end.

Definition to_text (x : jsval) : string :=
  match x with
  | Undefined => "undefined"
  | Number_ n => Js.decimal n
  | Value JNull => "null"
  | Value v => array_text v
  end.

(** The setters of the component state. *)
Section Setters.

Context {W : Type}.

Definition setStage (v : ResearchStage) : M W unit :=
  emit (StageSet v) ;;
  modify_ui (fun a =>
    mkApp (market a) v (plan a) (report a) (error a) (progressText a)
          (session a) (profile a) (showAuthModal a)).

Definition setPlan (v : option value) : M W unit :=
  modify_ui (fun a =>
    mkApp (market a) (stage a) v (report a) (error a) (progressText a)
          (session a) (profile a) (showAuthModal a)).

Definition setReport (v : option value) : M W unit :=
  modify_ui (fun a =>
    mkApp (market a) (stage a) (plan a) v (error a) (progressText a)
          (session a) (profile a) (showAuthModal a)).

Definition setError (v : option string) : M W unit :=
  modify_ui (fun a =>
    mkApp (market a) (stage a) (plan a) (report a) v (progressText a)
          (session a) (profile a) (showAuthModal a)).

Definition setProgressText (v : string) : M W unit :=
  modify_ui (fun a =>
    mkApp (market a) (stage a) (plan a) (report a) (error a) v
          (session a) (profile a) (showAuthModal a)).

Definition setProfile (v : option UserProfile) : M W unit :=
  modify_ui (fun a =>
    mkApp (market a) (stage a) (plan a) (report a) (error a) (progressText a)
          (session a) v (showAuthModal a)).

Definition setShowAuthModal (v : bool) : M W unit :=
  modify_ui (fun a =>
    mkApp (market a) (stage a) (plan a) (report a) (error a) (progressText a)
          (session a) (profile a) v).

(** The state of the render whose handler is running. *)
Definition captured : M W AppState := fun s => (Normal (ui s), s).

(** A promise that is started and not awaited: its outcome is dropped. *)
Definition detached {A : Type} (m : M W A) : M W unit :=
  fun s => (Normal tt, snd (m s)).

End Setters.

Section Handler.

Context {W : Type} (P : Platform W).

(** [o.k] on a parsed value, for a name [k] that no prototype defines. *)
Definition member (o : value) (k : string) : M W jsval :=
  match o with
  | JNull => throw (TypeError_ (cannot_read P true k))
  | JObject members =>
      ret (match lookup k members with
           | Some v => Value v
           | None => Undefined
           end)
  | JArray elements =>
      ret (if String.eqb k "length" then Number_ (List.length elements)
           else Undefined)
  | JString str =>
      ret (if String.eqb k "length"
           then Number_ (utf16_length (list_ascii_of_string str))
           else Undefined)
  | JBool _ | JNumber _ => ret Undefined
  end.

(** [x.k] on the result of a property read. *)
Definition member_of (x : jsval) (k : string) : M W jsval :=
  match x with
  | Undefined => throw (TypeError_ (cannot_read P false k))
  | Number_ _ => ret Undefined
  | Value v => member v k
  end.

Definition fetchProfile (userId : string) : M W unit :=
  p <- Supabase.getProfile P userId ;;
  setProfile p.

(** [profile && !profile.is_pro && profile.credits_used >= 3] *)
Definition credit_limit_reached (profile : option UserProfile) : bool :=
  match profile with
  | Some p => negb (is_pro p) && (3 <=? credits_used p)%Z
  | None => false
  end.

(** The three stages in order, as the [try] block of the handler has
    them. *)
Definition pipeline (now : AppState) : M W unit :=
  researchPlan <- GeminiService.generateResearchPlan P (market now) ;;
  setPlan (Some researchPlan) ;;
  setStage RESEARCHING ;;
  subs <- member researchPlan "subreddits" ;;
  n_subs <- member_of subs "length" ;;
  cats <- member researchPlan "softwareCategories" ;;
  n_cats <- member_of cats "length" ;;
  setProgressText ("Scanning " ++ to_text n_subs ++ " subreddits and "
                   ++ to_text n_cats ++ " software categories...") ;;
  rawData <- GeminiService.executeResearch P (market now) researchPlan ;;
  setStage ANALYZING ;;
  setProgressText "Analyzing signals and extracting problem patterns..." ;;
  finalReport <- GeminiService.analyzeSignals P (market now) rawData ;;
  setReport (Some finalReport) ;;
  setStage COMPLETED ;;
  match session now with
  | Some sess =>
      Supabase.incrementCredits P (user_id sess) ;;
      detached (fetchProfile (user_id sess))
  | None => ret tt
  end.

(** The [catch] block of the handler. *)
Definition report_failure (err : thrown) : M W unit :=
  emit (ConsoleError "Research Error Details:" err) ;;
  setError (Some (Js.or_else (message_of err) unexpected_error_message)) ;;
  setStage ERROR.

Definition startResearch : M W unit :=
  now <- captured ;;
  if negb (Js.truthy (Some (Js.trim (market now)))) then ret tt
  else
    match session now with
    | None => setShowAuthModal true
    | Some _ =>
        if credit_limit_reached (profile now)
        then setError (Some credit_limit_message)
        else
          setStage PLANNING ;;
          setError None ;;
          setPlan None ;;
          setReport None ;;
          setProgressText "Planning your research strategy..." ;;
          try_catch (pipeline now) report_failure
    end.

End Handler.

End App.

(** ** A reference platform

    The grammar reader and printer above as the engine's [JSON] object,
    and remote services that answer from a fixed table.  It serves to run
    the embedding on concrete inputs; the theorems below hold for every
    platform. *)

Module Reference.

Import Json Types Runtime.

(** Turns every apostrophe into a double quote, to write JSON texts. *)
Definition dquoted (s : string) : string :=
  string_of_list_ascii
    (map (fun c => if Ascii.eqb c "'" then ascii_of_nat 34 else c)
         (list_ascii_of_string s)).

Definition cannot_read (base_is_null : bool) (k : string) : string :=
  "Cannot read properties of "
  ++ (if base_is_null then "null" else "undefined")
  ++ " (reading '" ++ k ++ "')".

Definition platform (key : Js.optstr)
    (backend : GenerateContentParameters -> outcome GenerateContentResponse)
    (single : string -> outcome SingleResult)
    (rpc : string -> outcome (option PostgrestError)) : Platform unit :=
  {| GEMINI_API_KEY := key;
     JSON_parse := Json.parse;
     JSON_stringify := Json.stringify_2;
     Runtime.cannot_read := cannot_read;
     generateContent := fun _ params w => (backend params, w);
     profiles_single := fun userId w => (single userId, w);
     rpc_increment_credits := fun userId w => (rpc userId, w) |}.

(** A backend that answers every request with the same text. *)
Definition answers (t : Js.optstr) (_ : GenerateContentParameters)
  : outcome GenerateContentResponse :=
  Resolved {| text := t |}.

(** A backend that rejects every request. *)
Definition rejects (m : Js.optstr) (_ : GenerateContentParameters)
  : outcome GenerateContentResponse :=
  Rejected (Rejection m).

(** A backend that tells the three stages apart by their configuration. *)
Definition staged (planning research analysis : outcome GenerateContentResponse)
    (params : GenerateContentParameters) : outcome GenerateContentResponse :=
  match config params with
  | Tools_googleSearch => research
  | Structured _ (OBJECT (("subreddits", _) :: _) _) => planning
  | Structured _ _ => analysis
  end.

Definition says (t : string) : outcome GenerateContentResponse :=
  Resolved {| text := Some t |}.

Definition fails_with (m : string) : outcome GenerateContentResponse :=
  Rejected (Rejection (Some m)).

Definition no_profile (_ : string) : outcome SingleResult :=
  Resolved {| data := None;
              error_of_single :=
                Some {| code := "PGRST116"; pg_message := "no rows" |} |}.

Definition rpc_ok (_ : string) : outcome (option PostgrestError) :=
  Resolved None.

Definition idle_app (m : string) (sess : option Session)
    (prof : option UserProfile) : AppState :=
  mkApp m IDLE None None None "" sess prof false.

Definition start (a : AppState) : state unit := mkState tt a [].

Definition alice : Session :=
  {| user_id := "u-1"; user_email := "alice@example.com" |}.

Definition free_profile (used : Z) : UserProfile :=
  {| id := "u-1"; first_name := Some "Alice"; last_name := None;
     email := "alice@example.com"; credits_used := used; is_pro := false;
     created_at := "2024-01-01T00:00:00Z" |}.

Definition gym_plan_text : string :=
  dquoted "{'subreddits':[{'name':'r/gymowners','queries':['software frustrations']}],'softwareCategories':[],'competitorApps':[],'searchStrings':[],'nicheForums':[]}".

Definition gym_findings : string :=
  "Owners repeatedly complain about scheduling software losing bookings.".

Definition gym_report_text : string :=
  dquoted "{'executiveSummary':'Scheduling tools lose bookings.','patterns':[{'id':'p1','title':'Lost bookings','description':'Bookings vanish.','scores':{'frequency':4,'desperation':4,'willingnessToPay':3,'trend':3},'classification':'Strong Signal','quotes':[{'text':'It lost my bookings again','source':'reddit','date':'2024-03-01','url':'https://example.com/t/1'}]}],'nextSteps':[]}".

End Reference.


(** * The vocabulary of the properties *)

Import Json Types Runtime GeminiService.

Section Vocabulary.

Context {W : Type} (P : Platform W).

Local Open Scope string_scope.

(** The four credentials the check turns away. *)
Definition key_unusable (k : Js.optstr) : Prop :=
  k = None \/ k = Some "" \/ k = Some "MY_GEMINI_API_KEY"
  \/ k = Some "undefined".

Definition key_usable (k : Js.optstr) : Prop :=
  exists v, k = Some v /\ v <> "" /\ v <> "MY_GEMINI_API_KEY"
            /\ v <> "undefined".

Definition auth_details (k : Js.optstr) : AuthDetails :=
  {| hasKey := Js.truthy k;
     isPlaceholder := Js.strict_eq k "MY_GEMINI_API_KEY";
     isEmpty := Js.strict_eq k "";
     isUndefinedString := Js.strict_eq k "undefined" |}.

Definition calls_backend (evs : list event) : bool :=
  existsb is_GenerateContent evs.


(** A JSON value and a typed plan agree field by field. *)
Definition subreddit_matches (j : value) (r : Subreddit) : Prop :=
  get "name" j = Some (JString (name r))
  /\ get "queries" j = Some (JArray (map JString (queries r))).

Definition plan_matches (v : value) (p : ResearchPlan) : Prop :=
  (exists subs, get "subreddits" v = Some (JArray subs)
                /\ Forall2 subreddit_matches subs (subreddits p))
  /\ get "softwareCategories" v
     = Some (JArray (map JString (softwareCategories p)))
  /\ get "competitorApps" v = Some (JArray (map JString (competitorApps p)))
  /\ get "searchStrings" v = Some (JArray (map JString (searchStrings p)))
  /\ get "nicheForums" v = Some (JArray (map JString (nicheForums p))).

Definition SUBREDDIT_SCHEMA : Schema :=
  OBJECT [ ("name", STRING); ("queries", ARRAY STRING) ] [ "name"; "queries" ].

(** The client the credential check hands out. *)
Definition client : GoogleGenAI := {| apiKey := GEMINI_API_KEY P |}.

(** The three requests, as the stage functions build them. *)
Definition planning_params (market : string) : GenerateContentParameters :=
  {| model := "gemini-3-flash-preview";
     contents := planning_prompt market;
     config := Structured "application/json" RESEARCH_PLAN_SCHEMA |}.

Definition research_params (market : string) (plan : value)
  : GenerateContentParameters :=
  {| model := "gemini-3-flash-preview";
     contents := research_prompt market (JSON_stringify P plan);
     config := Tools_googleSearch |}.

Definition analysis_params (market rawResearch : string)
  : GenerateContentParameters :=
  {| model := "gemini-3-flash-preview";
     contents := analysis_prompt market rawResearch;
     config := Structured "application/json" SIGNAL_REPORT_SCHEMA |}.

(** The backend answers a request with a response, from the state [s]. *)
Definition backend_answers (params : GenerateContentParameters)
    (s : state W) (r : GenerateContentResponse) (w' : W) : Prop :=
  generateContent P client params (world s) = (Resolved r, w').

(** The backend rejects a request with a value, from the state [s]. *)
Definition backend_rejects (params : GenerateContentParameters)
    (s : state W) (e : thrown) (w' : W) : Prop :=
  generateContent P client params (world s) = (Rejected e, w').

(** The state after one request. *)
Definition requested (params : GenerateContentParameters) (s : state W)
    (w' : W) : state W :=
  mkState w' (ui s) (trace s ++ [GenerateContent client params]).

(** The state after one further console report of an error. *)
Definition logged (label : string) (e : thrown) (s : state W) : state W :=
  mkState (world s) (ui s) (trace s ++ [ConsoleError label e]).

(** The marks the planning stage looks for in an error message. *)
Definition credential_mark (m : Js.optstr) : bool :=
  Js.opt_includes m "401" || Js.opt_includes m "403".

Definition rate_mark (m : Js.optstr) : bool := Js.opt_includes m "429".

Definition unmarked (m : Js.optstr) : Prop :=
  credential_mark m = false /\ rate_mark m = false.

(** The message the planning stage reports for an underlying message: the
    credential message has priority over the rate-limit message, and
    both over the stage's own wrapper. *)
Definition planning_message (underlying : Js.optstr) (msg : string) : Prop :=
  (credential_mark underlying = true -> msg = invalid_key_message)
  /\ (credential_mark underlying = false -> rate_mark underlying = true ->
      msg = rate_limit_message)
  /\ (unmarked underlying ->
      msg = (planning_prefix ++ Js.interpolate underlying)%string).




(** A computation only ever appends to the record of events. *)
Definition appends {A : Type} (m : M W A) : Prop :=
  forall s, exists evs, trace (snd (m s)) = (trace s ++ evs)%list.

(** A computation appends at least one event. *)
Definition observable {A : Type} (m : M W A) : Prop :=
  forall s, exists ev evs, trace (snd (m s)) = (trace s ++ ev :: evs)%list.

(** What the storage call does from a state. *)
Definition store_gives (userId : string) (s : state W)
    (r : outcome SingleResult) : Prop :=
  fst (profiles_single P userId (world s)) = r.

(** The component state with the credit-limit error set. *)
Definition refused (a : AppState) : AppState :=
  mkApp (market a) (stage a) (plan a) (report a)
        (Some App.credit_limit_message) (progressText a) (session a)
        (profile a) (showAuthModal a).

(** The state in which the first stage is entered. *)
Definition started (s : state W) : state W :=
  let a := ui s in
  mkState (world s)
    (mkApp (market a) PLANNING None None None
           "Planning your research strategy..." (session a) (profile a)
           (showAuthModal a))
    (trace s ++ [StageSet PLANNING]).

End Vocabulary.

(** * The runs used as examples

    Platforms built on the reference platform, one for each situation the
    properties speak of. *)

Import Reference.

(** A signed-in visitor without a loaded profile, about to ask for gym
    owners. *)
Definition s0 : state unit := start (idle_app "gym owners" (Some alice) None).

(** The scenario of the description: a plan, findings and a report. *)
Definition P_gym : Platform unit :=
  platform (Some "k-1")
    (staged (says gym_plan_text) (says gym_findings) (says gym_report_text))
    no_profile rpc_ok.

Definition gym_plan : value :=
  JObject
    [ ("subreddits",
       JArray [ JObject [ ("name", JString "r/gymowners");
                          ("queries", JArray [JString "software frustrations"]) ] ]);
      ("softwareCategories", JArray []);
      ("competitorApps", JArray []);
      ("searchStrings", JArray []);
      ("nicheForums", JArray []) ].

(** The placeholder credential of a fresh deployment. *)
Definition P_placeholder : Platform unit :=
  platform (Some "MY_GEMINI_API_KEY")
    (staged (says gym_plan_text) (says gym_findings) (says gym_report_text))
    no_profile rpc_ok.

(** The search-augmented request comes back without text. *)
Definition P_silent : Platform unit :=
  platform (Some "k-1") (answers None) no_profile rpc_ok.

(** A structured answer that is cut off after its first member. *)
Definition P_cut : Platform unit :=
  platform (Some "k-1") (answers (Some (dquoted "{'subreddits': [")))
    no_profile rpc_ok.

(** A structured answer that is the four characters x403. *)
Definition P_x403 : Platform unit :=
  platform (Some "k-1") (answers (Some "x403")) no_profile rpc_ok.

(** The backend refuses every request with a 403. *)
Definition P_403 : Platform unit :=
  platform (Some "k-1") (rejects (Some "403 Forbidden")) no_profile rpc_ok.

(** Each stage meets a different refusal. *)
Definition P_refusing : Platform unit :=
  platform (Some "k-1")
    (staged (fails_with "429 Too Many Requests") (fails_with "fetch failed")
            (Rejected (Rejection None)))
    no_profile rpc_ok.

(** A free profile that has used its three credits. *)
Definition s_spent : state unit :=
  start (idle_app "gym owners" (Some alice) (Some (free_profile 3))).

(** The store is unreachable, and the store answers with an error that
    is not the not-found code. *)
Definition unreachable (_ : string) : outcome SingleResult :=
  Rejected (Rejection (Some "Failed to fetch")).

Definition denied (_ : string) : outcome SingleResult :=
  Resolved {| data := None;
              error_of_single :=
                Some {| code := "42501"; pg_message := "permission denied" |} |}.

Definition P_offline : Platform unit :=
  platform (Some "k-1") (answers None) unreachable rpc_ok.

(** Only the planning request comes back without text; the two other
    requests are answered as in the scenario. *)
Definition P_no_plan : Platform unit :=
  platform (Some "k-1")
    (staged (Resolved {| text := None |}) (says gym_findings)
            (says gym_report_text))
    no_profile rpc_ok.

Definition P_denied : Platform unit :=
  platform (Some "k-1") (answers None) denied rpc_ok.

(** * More of the application

    The parts of the three sources that the stage functions and the run
    handler sit between: the build-time resolution of the configuration,
    the creation of the storage client, the session callbacks of the
    component and the conditions under which it shows its panels. *)

(** ** [vite.config.ts] and the head of [services/supabase.ts] *)

Module Config.

(** [env.K || process.env.K || ''], the value the build defines for
    [process.env.K], from the two values the expression reads: what
    [loadEnv] returned for [K] and what the process environment holds
    for [K].  [loadEnv] is the build tool's and is taken by its result;
    called with the empty prefix it reads the process environment
    itself, so the two values are not independent of each other. *)
Definition resolve (from_loadEnv from_process : Js.optstr) : string :=
  Js.or_else from_loadEnv (Js.or_else from_process "").

(** The expression the bundle holds in place of [process.env.K]: the
    string literal of the resolved value. *)
Definition defined (from_loadEnv from_process : Js.optstr) : Js.optstr :=
  Some (resolve from_loadEnv from_process).

Definition placeholder_url : string := "https://placeholder.supabase.co".

(** The condition of the warning printed when the storage module loads. *)
Definition warns (supabaseUrl supabaseAnonKey : Js.optstr) : bool :=
  negb (Js.truthy supabaseUrl)
  || negb (Js.truthy supabaseAnonKey)
  || Js.strict_eq supabaseUrl placeholder_url.

(** The two arguments of [createClient]. *)
Definition client_url (supabaseUrl : Js.optstr) : string :=
  Js.or_else supabaseUrl placeholder_url.

Definition client_key (supabaseAnonKey : Js.optstr) : string :=
  Js.or_else supabaseAnonKey "placeholder".

(** [configStatus] and [isConfigured] of the component. *)
Record ConfigStatus : Type := {
  gemini : bool;
  supabaseUrl : bool;
  supabaseKey : bool
}.

Definition configStatus (geminiKey url anonKey : Js.optstr) : ConfigStatus :=
  {| gemini := Js.truthy geminiKey;
     supabaseUrl := Js.truthy url;
     supabaseKey := Js.truthy anonKey |}.

Definition isConfigured (c : ConfigStatus) : bool :=
  gemini c && supabaseUrl c && supabaseKey c.

End Config.

(** ** [App.tsx]: the conditions of the markup

    The text of the credits badge, and the conditions under which the
    markup of the main area is evaluated.  Only the conditions: the
    markup behind them reads members of the plan and of the report, and
    throws while rendering when a value lacks them, which is not
    modelled.  So a condition that is false says that its markup is not
    evaluated and not on screen; a condition that is true says only that
    its markup is evaluated. *)

Module View.

Import Json Types Runtime.

(** An integer in a template literal. *)
Definition number_text (z : Z) : string :=
  if (z <? 0)%Z then "-" ++ Js.decimal (Z.to_nat (- z))
  else Js.decimal (Z.to_nat z).

(** The credits badge of the header, shown when a profile is loaded. *)
Definition creditsLabel (p : UserProfile) : string :=
  if is_pro p then "Unlimited"
  else number_text (3 - credits_used p) ++ " left".

(** The branches of the conditional of the main area: the input form,
    the progress display, or [null]. *)
Inductive panel : Type := Hero | Loading | NoPanel.

(** [stage === IDLE || stage === ERROR ? ... : stage !== COMPLETED ? ...
    : null]: the branch that is taken. *)
Definition main_branch (a : AppState) : panel :=
  if ResearchStage_eqb (stage a) IDLE || ResearchStage_eqb (stage a) ERROR
  then Hero
  else if negb (ResearchStage_eqb (stage a) COMPLETED) then Loading
  else NoPanel.

(** [error && ...] inside the input form: the text for which the error
    line is evaluated, if it is. *)
Definition error_line (a : AppState) : option string :=
  match main_branch a with
  | Hero => if Js.truthy (error a) then error a else None
  | _ => None
  end.

Section Truthiness.

(** Whether the literal of a number denotes zero is the engine's to say
    (the literal is read as a double). *)
Variable denotes_zero : string -> bool.

(** Truthiness of a parsed value. *)
Definition truthy_value (v : value) : bool :=
  match v with
  | JNull => false
  | JBool b => b
  | JNumber literal => negb (denotes_zero literal)
  | JString s => Js.truthy (Some s)
  | JArray _ | JObject _ => true
  end.

(** [stage === COMPLETED && report], the condition of the report
    section.  The state holds [null] before a report is set, and a
    report that parsed to [null] is the same [null]. *)
Definition report_condition (a : AppState) : bool :=
  ResearchStage_eqb (stage a) COMPLETED
  && match report a with
     | Some v => truthy_value v
     | None => false
     end.

End Truthiness.

End View.

(** ** [App.tsx]: the session callbacks of the mount effect *)

Module SessionEffect.

Import Types Runtime.
Local Open Scope js_scope.

Section Callbacks.

Context {W : Type} (P : Platform W).

Definition setSession (v : option Session) : M W unit :=
  modify_ui (fun a =>
    mkApp (market a) (stage a) (plan a) (report a) (error a) (progressText a)
          v (profile a) (showAuthModal a)).

(** The callback given to [supabase.auth.getSession().then]. *)
Definition sessionLoaded (session : option Session) : M W unit :=
  setSession session ;;
  match session with
  | Some sess => App.detached (App.fetchProfile P (user_id sess))
  | None => ret tt
  end.

(** The callback given to [supabase.auth.onAuthStateChange]. *)
Definition authStateChanged (session : option Session) : M W unit :=
  setSession session ;;
  match session with
  | Some sess => App.detached (App.fetchProfile P (user_id sess))
  | None => App.setProfile None
  end.

End Callbacks.

End SessionEffect.

(** ** [App.tsx]: the sign-in dialog

    The fields of the dialog are component state that [AppState] does
    not hold.  They ride in the first component of the world, beside the
    state of the remote services; the calls to the identity service and
    [alert] act on the second. *)

Module AuthDialog.

Import Types Runtime.
Local Open Scope js_scope.

Inductive AuthMode : Type := signin | signup.

Record AuthFields : Type := mkFields {
  authMode : AuthMode;
  authEmail : string;
  authPassword : string;
  authFirstName : string;
  authLastName : string;
  authLoading : bool
}.

(** The error object of the identity service. *)
Record AuthError : Type := { auth_message : string }.

Record SignUpCredentials : Type := {
  su_email : string;
  su_password : string;
  su_first_name : string;
  su_last_name : string
}.

Record SignInCredentials : Type := {
  si_email : string;
  si_password : string
}.

(** [{ data: { user }, error }] of [signUp]; the user by its id. *)
Record SignUpResult : Type := {
  user : option string;
  signUp_error : option AuthError
}.

Record AuthClient (W : Type) : Type := {
  (** [supabase.auth.signUp] *)
  signUp : SignUpCredentials -> W -> outcome SignUpResult * W;
  (** [supabase.auth.signInWithPassword], resolving to its [error] *)
  signInWithPassword : SignInCredentials -> W -> outcome (option AuthError) * W;
  (** [alert] *)
  alert : string -> W -> W
}.
Arguments signUp {W} _ _ _.
Arguments signInWithPassword {W} _ _ _.
Arguments alert {W} _ _ _.

(** An error object of the service as a thrown value: the handler reads
    its [.message]. *)
Definition thrown_error (err : AuthError) : thrown :=
  Rejection (Some (auth_message err)).

Definition confirmation_notice : string :=
  "Check your email for the confirmation link!".

Section Dialog.

Context {W : Type} (A : AuthClient W).

(** [try { body } finally { cleanup }] *)
Definition try_finally {B : Type} (body : M (AuthFields * W) B)
    (cleanup : M (AuthFields * W) unit) : M (AuthFields * W) B :=
  fun s =>
    match body s with
    | (c, s') =>
        match cleanup s' with
        | (Normal _, s'') => (c, s'')
        | (Throw e, s'') => (Throw e, s'')
        end
    end.

(** A call on the outside world; no event of the record stands for it. *)
Definition world_call {B : Type} (call : W -> outcome B * W)
  : M (AuthFields * W) B :=
  fun s =>
    let '(r, w') := call (snd (world s)) in
    let s' := mkState (fst (world s), w') (ui s) (trace s) in
    match r with
    | Resolved b => (Normal b, s')
    | Rejected e => (Throw e, s')
    end.

Definition window_alert (text : string) : M (AuthFields * W) unit :=
  fun s =>
    (Normal tt,
     mkState (fst (world s), alert A text (snd (world s))) (ui s) (trace s)).

Definition setAuthLoading (v : bool) : M (AuthFields * W) unit :=
  fun s =>
    let f := fst (world s) in
    (Normal tt,
     mkState (mkFields (authMode f) (authEmail f) (authPassword f)
                (authFirstName f) (authLastName f) v,
              snd (world s))
       (ui s) (trace s)).

(** The fields of the render whose handler is running. *)
Definition captured_fields : M (AuthFields * W) AuthFields :=
  fun s => (Normal (fst (world s)), s).

Definition handleAuth : M (AuthFields * W) unit :=
  form <- captured_fields ;;
  setAuthLoading true ;;
  App.setError None ;;
  try_finally
    (try_catch
       (match authMode form with
        | signup =>
            r <- world_call
                   (signUp A {| su_email := authEmail form;
                                su_password := authPassword form;
                                su_first_name := authFirstName form;
                                su_last_name := authLastName form |}) ;;
            match signUp_error r with
            | Some error => throw (thrown_error error)
            | None =>
                match user r with
                | Some _ =>
                    window_alert confirmation_notice ;;
                    App.setShowAuthModal false
                | None => ret tt
                end
            end
        | signin =>
            r <- world_call
                   (signInWithPassword A {| si_email := authEmail form;
                                            si_password := authPassword form |}) ;;
            match r with
            | Some error => throw (thrown_error error)
            | None => App.setShowAuthModal false
            end
        end)
       (fun err => App.setError (message_of err)))
    (setAuthLoading false).

End Dialog.

End AuthDialog.

(** ** The vocabulary of the sign-in dialog *)

Section DialogVocabulary.

Import AuthDialog.

Context {W : Type}.

(** The fields of the dialog once the handler is through: as they were,
    and not loading. *)
Definition settled (f : AuthFields) : AuthFields :=
  mkFields (authMode f) (authEmail f) (authPassword f) (authFirstName f)
    (authLastName f) false.

(** The component state with an error text and the dialog open or not. *)
Definition dialog_state (a : AppState) (err : option string) (open : bool)
  : AppState :=
  mkApp (market a) (stage a) (Runtime.plan a) (report a) err (progressText a)
    (session a) (profile a) open.

(** The state the handler leaves: the services in [w'], the error text
    and the dialog as given, the record of events as it was. *)
Definition after_auth (s : state (AuthFields * W)) (w' : W)
    (err : option string) (open : bool) : state (AuthFields * W) :=
  mkState (settled (fst (world s)), w') (dialog_state (ui s) err open)
    (trace s).

(** The credentials the handler sends. *)
Definition signUp_credentials (f : AuthFields) : SignUpCredentials :=
  {| su_email := authEmail f; su_password := authPassword f;
     su_first_name := authFirstName f; su_last_name := authLastName f |}.

Definition signIn_credentials (f : AuthFields) : SignInCredentials :=
  {| si_email := authEmail f; si_password := authPassword f |}.

End DialogVocabulary.

(** An identity service that knows one account and keeps the alerts it
    was asked to show. *)
Definition one_account : AuthDialog.AuthClient (list string) :=
  {| AuthDialog.signUp := fun c w =>
       (Resolved {| AuthDialog.user := None; AuthDialog.signUp_error := None |},
        w);
     AuthDialog.signInWithPassword := fun c w =>
       (if String.eqb (AuthDialog.si_password c) "s3cret"
        then Resolved None
        else Resolved
               (Some {| AuthDialog.auth_message := "Invalid login credentials" |}),
        w);
     AuthDialog.alert := fun text w => (w ++ [text])%list |}.

(** The dialog open in sign-in mode with a wrong password typed. *)
Definition s_dialog : state (AuthDialog.AuthFields * list string) :=
  mkState
    (AuthDialog.mkFields AuthDialog.signin "alice@example.com" "guess" "" ""
       false, [])
    (mkApp "gym owners" IDLE None None None "" None None true) [].

(** ** Further runs used as examples *)

(** Nobody is signed in. *)
Definition s_signed_out : state unit :=
  start (idle_app "gym owners" None None).

(** The market is two spaces and a line break. *)
Definition s_blank : state unit :=
  start (idle_app ("  " ++ Js.lf) None None).

(** A free profile two credits past the limit. *)
Definition s_over : state unit :=
  start (idle_app "gym owners" (Some alice) (Some (free_profile 5))).

(** Structured answers that parse but do not match the schemas. *)
Definition P_untyped : Platform unit :=
  platform (Some "k-1") (answers (Some "[]")) no_profile rpc_ok.

Definition P_empty_object : Platform unit :=
  platform (Some "k-1") (answers (Some "{}")) no_profile rpc_ok.

(** The plan of the scenario, then a research request that is refused. *)
Definition P_research_down : Platform unit :=
  platform (Some "k-1")
    (staged (says gym_plan_text) (fails_with "fetch failed")
            (says gym_report_text))
    no_profile rpc_ok.

(** The analysis answer is the JSON text of [null]. *)
Definition P_null_report : Platform unit :=
  platform (Some "k-1")
    (staged (says gym_plan_text) (says gym_findings) (says "null"))
    no_profile rpc_ok.

(** A bundle built from an environment file that still holds the
    placeholder, with no variable of that name in the process
    environment: [loadEnv] returns the placeholder. *)
Definition P_built : Platform unit :=
  platform (Config.defined (Some "MY_GEMINI_API_KEY") None)
    (staged (says gym_plan_text) (says gym_findings) (says gym_report_text))
    no_profile rpc_ok.

(** * The vocabulary of the further properties *)

Section RunVocabulary.

Context {W : Type} (P : Platform W).

Local Open Scope string_scope.

(** The requests to the backend among some events, in order. *)
Definition requests (evs : list event) : list GenerateContentParameters :=
  flat_map (fun ev => match ev with
                      | GenerateContent _ params => [params]
                      | _ => []
                      end) evs.

(** The run states entered among some events, in order. *)
Definition stages_entered (evs : list event) : list ResearchStage :=
  flat_map (fun ev => match ev with
                      | StageSet st => [st]
                      | _ => []
                      end) evs.

(** The credit increments asked of the store among some events. *)
Definition credit_calls (evs : list event) : list string :=
  flat_map (fun ev => match ev with
                      | RpcIncrementCredits userId => [userId]
                      | _ => []
                      end) evs.

(** The events of a stage function: console reports and at most the one
    request of the stage, which is there when the stage returns. *)
Definition stage_events (params : GenerateContentParameters) (returned : bool)
    (evs : list event) : Prop :=
  stages_entered evs = [] /\ credit_calls evs = []
  /\ (requests evs = [params] \/ (returned = false /\ requests evs = [])).

Definition returns {A : Type} (c : completion A) : bool :=
  match c with
  | Normal _ => true
  | Throw _ => false
  end.

(** A handler call that gets past the three guards. *)
Definition run_begins (s : state W) (sess : Session) : Prop :=
  Js.trim (market (ui s)) <> ""
  /\ session (ui s) = Some sess
  /\ App.credit_limit_reached (profile (ui s)) = false.

(** The three requests of a run, for the plan and the findings the run
    went through. *)
Definition run_requests (a : AppState) (plan : value) (rawData : string)
  : list GenerateContentParameters :=
  [ planning_params (market a);
    research_params P (market a) plan;
    analysis_params (market a) rawData ].

(** Where a run ended: in the planning stage, while reading the plan for
    the progress text, in the research stage, in the analysis stage, or
    with a report. *)
Inductive run_end : Type :=
| PlanningFailed | PlanUnreadable | ResearchFailed | AnalysisFailed
| RunCompleted.

Definition stages_of (e : run_end) : list ResearchStage :=
  match e with
  | PlanningFailed => [PLANNING; ERROR]
  | PlanUnreadable | ResearchFailed => [PLANNING; RESEARCHING; ERROR]
  | AnalysisFailed => [PLANNING; RESEARCHING; ANALYZING; ERROR]
  | RunCompleted => [PLANNING; RESEARCHING; ANALYZING; COMPLETED]
  end.

(** How many requests a run that ended there can have made. *)
Definition requests_made (e : run_end) (k : nat) : Prop :=
  match e with
  | PlanningFailed => k <= 1
  | PlanUnreadable => k = 1
  | ResearchFailed => 1 <= k <= 2
  | AnalysisFailed => 2 <= k <= 3
  | RunCompleted => k = 3
  end.

(** The component state a run leaves. *)
Definition left_failed (a' : AppState) : Prop :=
  stage a' = ERROR /\ report a' = None
  /\ exists msg, msg <> "" /\ error a' = Some msg.

Definition left_completed (a' : AppState) (researchPlan : value) : Prop :=
  stage a' = COMPLETED /\ error a' = None
  /\ Runtime.plan a' = Some researchPlan
  /\ exists finalReport, report a' = Some finalReport.

(** The shape of a run: the events it added, where it ended, the plan and
    the findings it went through and the number of requests it made. *)
Definition run_shape (s s' : state W) (sess : Session) (e : run_end)
    (new : list event) (researchPlan : value) (rawData : string) (k : nat)
  : Prop :=
  trace s' = (trace s ++ new)%list
  /\ stages_entered new = stages_of e
  /\ requests new = firstn k (run_requests (ui s) researchPlan rawData)
  /\ requests_made e k
  /\ credit_calls new = match e with
                        | RunCompleted => [user_id sess]
                        | _ => []
                        end
  /\ match e with
     | RunCompleted => left_completed (ui s') researchPlan
     | _ => left_failed (ui s')
     end.

(** The property reads of the progress text, without the state: [o.k]
    and [x.k] as [App.member] and [App.member_of] compute them. *)
Definition read_member (o : value) (k : string) : thrown + App.jsval :=
  match o with
  | JNull => inl (TypeError_ (Runtime.cannot_read P true k))
  | JObject members =>
      inr (match lookup k members with
           | Some v => App.Value v
           | None => App.Undefined
           end)
  | JArray elements =>
      inr (if String.eqb k "length" then App.Number_ (List.length elements)
           else App.Undefined)
  | JString str =>
      inr (if String.eqb k "length"
           then App.Number_ (App.utf16_length (list_ascii_of_string str))
           else App.Undefined)
  | JBool _ | JNumber _ => inr App.Undefined
  end.

Definition read_member_of (x : App.jsval) (k : string) : thrown + App.jsval :=
  match x with
  | App.Undefined => inl (TypeError_ (Runtime.cannot_read P false k))
  | App.Number_ _ => inr App.Undefined
  | App.Value v => read_member v k
  end.

(** [o.k.length] *)
Definition read_length (o : value) (k : string) : thrown + App.jsval :=
  match read_member o k with
  | inl e => inl e
  | inr x => read_member_of x "length"
  end.

(** The progress text of the research stage, or the [TypeError] that
    building it throws. *)
Definition scanning_text (researchPlan : value) : thrown + string :=
  match read_length researchPlan "subreddits" with
  | inl e => inl e
  | inr n_subs =>
      match read_length researchPlan "softwareCategories" with
      | inl e => inl e
      | inr n_cats =>
          inr ("Scanning " ++ App.to_text n_subs ++ " subreddits and "
               ++ App.to_text n_cats ++ " software categories...")
      end
  end.

(** The three stage calls of a run from [s], each in the state the
    handler has reached when it makes the call.  The planning stage is
    called in the state in which the first stage is entered. *)
Definition planned (s : state W) : completion value * state W :=
  generateResearchPlan P (market (ui s)) (started s).

(** The state in which the research stage is called, from the state [s1]
    the planning stage left: the plan is set, the run state is
    [RESEARCHING] and the progress text is the one built from the plan. *)
Definition researching (s1 : state W) (researchPlan : value)
    (progress : string) : state W :=
  let a := ui s1 in
  mkState (world s1)
    (mkApp (market a) RESEARCHING (Some researchPlan) (report a)
       (Runtime.error a) progress (session a) (profile a) (showAuthModal a))
    (trace s1 ++ [StageSet RESEARCHING])%list.

Definition researched (s : state W) (researchPlan : value)
    (progress : string) : completion string * state W :=
  executeResearch P (market (ui s)) researchPlan
    (researching (snd (planned s)) researchPlan progress).

(** The state in which the analysis stage is called, from the state [s2]
    the research stage left. *)
Definition analyzing (s2 : state W) : state W :=
  let a := ui s2 in
  mkState (world s2)
    (mkApp (market a) ANALYZING (Runtime.plan a) (report a) (Runtime.error a)
       "Analyzing signals and extracting problem patterns..." (session a)
       (profile a) (showAuthModal a))
    (trace s2 ++ [StageSet ANALYZING])%list.

Definition analyzed (s : state W) (researchPlan : value) (progress : string)
    (rawData : string) : completion value * state W :=
  analyzeSignals P (market (ui s)) rawData
    (analyzing (snd (researched s researchPlan progress))).

(** What the stage calls of a run returned, for a run that ended at [e]:
    the calls before the end returned the plan, the findings and the
    report the run went through, and the call at the end, if the run
    ended in a stage, threw. *)
Definition run_results (s : state W) (e : run_end) (researchPlan : value)
    (rawData : string) (finalReport : value) : Prop :=
  match e with
  | PlanningFailed => returns (fst (planned s)) = false
  | PlanUnreadable =>
      fst (planned s) = Normal researchPlan
      /\ exists err, scanning_text researchPlan = inl err
  | ResearchFailed =>
      fst (planned s) = Normal researchPlan
      /\ exists progress,
           scanning_text researchPlan = inr progress
           /\ returns (fst (researched s researchPlan progress)) = false
  | AnalysisFailed =>
      fst (planned s) = Normal researchPlan
      /\ exists progress,
           scanning_text researchPlan = inr progress
           /\ fst (researched s researchPlan progress) = Normal rawData
           /\ returns (fst (analyzed s researchPlan progress rawData)) = false
  | RunCompleted =>
      fst (planned s) = Normal researchPlan
      /\ exists progress,
           scanning_text researchPlan = inr progress
           /\ fst (researched s researchPlan progress) = Normal rawData
           /\ fst (analyzed s researchPlan progress rawData)
              = Normal finalReport
  end.

(** Events that are neither requests, nor run states, nor credit
    increments. *)
Definition silent_events (evs : list event) : Prop :=
  stages_entered evs = [] /\ requests evs = [] /\ credit_calls evs = [].

(** White space that is one byte long. *)
Definition ascii_space (c : ascii) : Prop :=
  In (nat_of_ascii c) [9; 10; 11; 12; 13; 32].

End RunVocabulary.

(** * Properties *)

(** ** The credential check *)

(** The check turns away the four credentials of [key_unusable] and no
    other. *)
Lemma key_usable_or_not (k : Js.optstr) : key_usable k \/ key_unusable k.
Proof.
  destruct k as [v|]; [|right; left; reflexivity].
  destruct (string_dec v "") as [->|H1]; [right; right; left; reflexivity|].
  destruct (string_dec v "MY_GEMINI_API_KEY") as [->|H2];
    [right; right; right; left; reflexivity|].
  destruct (string_dec v "undefined") as [->|H3];
    [right; right; right; right; reflexivity|].
  left. exists v. auto.
Qed.

Section ServiceFacts.

Context {W : Type} (P : Platform W).

(** [getAI] on a credential it turns away: one console report, then the
    missing-key error. *)
Lemma getAI_unusable (s : state W) :
  key_unusable (GEMINI_API_KEY P) ->
  getAI P s =
  (Throw (Error_ missing_key_message),
   mkState (world s) (ui s)
     (trace s ++ [ConsoleErrorDetails "Gemini Auth Check Failed:"
                    (auth_details (GEMINI_API_KEY P))])).
Proof.
  intros [H|[H|[H|H]]]; unfold getAI; rewrite H; reflexivity.
Qed.

(** [getAI] on any other credential: the client, and no event. *)
Lemma getAI_usable (s : state W) :
  key_usable (GEMINI_API_KEY P) ->
  getAI P s = (Normal {| apiKey := GEMINI_API_KEY P |}, s).
Proof.
  intros (v & Hk & H1 & H2 & H3). unfold getAI. rewrite Hk.
  apply String.eqb_neq in H1, H2, H3.
  assert (Ht : Js.truthy (Some v) = true) by (destruct v; [discriminate|reflexivity]).
  unfold Js.strict_eq. rewrite Ht, H1, H2, H3. reflexivity.
Qed.

End ServiceFacts.

Section Credential.

Context {W : Type} (P : Platform W).

(** The missing-key message holds none of the marks the planning stage
    looks for. *)
Lemma missing_key_has_no_marker :
  Js.includes missing_key_message "403" = false
  /\ Js.includes missing_key_message "401" = false
  /\ Js.includes missing_key_message "429" = false.
Proof. repeat split; vm_compute; reflexivity. Qed.

(** The planning [catch] block on an error without marks. *)
Lemma planning_failure_plain (e : thrown) (s : state W) :
  Js.opt_includes (message_of e) "403" = false ->
  Js.opt_includes (message_of e) "401" = false ->
  Js.opt_includes (message_of e) "429" = false ->
  planning_failure e s =
  (Throw (Error_ (planning_prefix ++ Js.interpolate (message_of e))),
   mkState (world s) (ui s)
     (trace s ++ [ConsoleError "Detailed Planning Error:" e])).
Proof.
  intros H3 H1 H9. unfold planning_failure, bind, emit, throw.
  rewrite H3, H1, H9. reflexivity.
Qed.

(** C1. With a credential that is absent, empty, the placeholder or the
    text "undefined", each of the three stage functions fails with the
    missing-key message behind its own stage prefix; the remote services
    are left as they were and no request to the generation backend is
    among the events of the call. *)
Theorem unusable_credential_fails_before_any_request
    (market rawResearch : string) (plan : value) (s : state W) :
  key_unusable (GEMINI_API_KEY P) ->
  (exists evs,
      generateResearchPlan P market s =
      (Throw (Error_ (planning_prefix ++ missing_key_message)),
       mkState (world s) (ui s) (trace s ++ evs))
      /\ calls_backend evs = false)
  /\ (exists evs,
      executeResearch P market plan s =
      (Throw (Error_ (execution_prefix ++ missing_key_message)),
       mkState (world s) (ui s) (trace s ++ evs))
      /\ calls_backend evs = false)
  /\ (exists evs,
      analyzeSignals P market rawResearch s =
      (Throw (Error_ (analysis_prefix ++ missing_key_message)),
       mkState (world s) (ui s) (trace s ++ evs))
      /\ calls_backend evs = false).
Proof.
  intros Hk.
  pose proof missing_key_has_no_marker as (M3 & M1 & M9).
  repeat split.
  - exists [ConsoleErrorDetails "Gemini Auth Check Failed:"
              (auth_details (GEMINI_API_KEY P));
            ConsoleError "Detailed Planning Error:" (Error_ missing_key_message)].
    split; [|reflexivity].
    unfold generateResearchPlan, try_catch, planning_attempt, bind.
    rewrite (getAI_unusable P s Hk).
    rewrite planning_failure_plain by assumption.
    cbn [world ui trace message_of Js.interpolate].
    rewrite <- app_assoc. reflexivity.
  - exists [ConsoleErrorDetails "Gemini Auth Check Failed:"
              (auth_details (GEMINI_API_KEY P));
            ConsoleError "Error in executeResearch:" (Error_ missing_key_message)].
    split; [|reflexivity].
    unfold executeResearch, try_catch, research_attempt, bind.
    rewrite (getAI_unusable P s Hk).
    unfold research_failure, bind, emit, throw.
    cbn [world ui trace message_of Js.interpolate].
    rewrite <- app_assoc. reflexivity.
  - exists [ConsoleErrorDetails "Gemini Auth Check Failed:"
              (auth_details (GEMINI_API_KEY P));
            ConsoleError "Error in analyzeSignals:" (Error_ missing_key_message)].
    split; [|reflexivity].
    unfold analyzeSignals, try_catch, analysis_attempt, bind.
    rewrite (getAI_unusable P s Hk).
    unfold analysis_failure, bind, emit, throw.
    cbn [world ui trace message_of Js.interpolate].
    rewrite <- app_assoc. reflexivity.
Qed.

End Credential.

(** ** Values that match the plan schema *)

Section PlanSchema.

Lemma conforming_strings (elements : list value) :
  forallb (conforms STRING) elements = true ->
  exists l, all_some as_string elements = Some l /\ elements = map JString l.
Proof.
  induction elements as [|x rest IH]; intros H.
  - exists []. split; reflexivity.
  - cbn [forallb] in H. apply andb_true_iff in H as [Hx Hrest].
    destruct (IH Hrest) as (l & Hl & ->).
    destruct x; try discriminate Hx.
    exists (s :: l). cbn [all_some as_string]. rewrite Hl. split; reflexivity.
Qed.

Lemma conforming_string_array (v : value) :
  conforms (ARRAY STRING) v = true ->
  exists l, as_array as_string v = Some l /\ v = JArray (map JString l).
Proof.
  destruct v; try discriminate. cbn [conforms]. intros H.
  destruct (conforming_strings _ H) as (l & Hl & ->).
  exists l. split; [exact Hl | reflexivity].
Qed.

Lemma conforming_subreddit (v : value) :
  conforms SUBREDDIT_SCHEMA v = true ->
  exists r, as_Subreddit v = Some r /\ subreddit_matches v r.
Proof.
  destruct v as [| | | |?|members]; try discriminate.
  unfold SUBREDDIT_SCHEMA. cbn [conforms forallb fst snd].
  unfold as_Subreddit, subreddit_matches, field. cbn [get].
  destruct (lookup "name" members) as [n|]; [|discriminate].
  destruct (lookup "queries" members) as [qs|]; [|discriminate].
  cbn [andb]. rewrite !andb_true_r. intros H.
  apply andb_true_iff in H as [Hn Hq].
  destruct n; try discriminate Hn.
  destruct (conforming_string_array _ Hq) as (l & Hl & ->).
  rewrite Hl. eexists. split; [reflexivity|]. split; reflexivity.
Qed.

Lemma conforming_subreddits (elements : list value) :
  forallb (conforms SUBREDDIT_SCHEMA) elements = true ->
  exists l, all_some as_Subreddit elements = Some l
            /\ Forall2 subreddit_matches elements l.
Proof.
  induction elements as [|x rest IH]; intros H.
  - exists []. split; [reflexivity | constructor].
  - cbn [forallb] in H. apply andb_true_iff in H as [Hx Hrest].
    destruct (IH Hrest) as (l & Hl & Hall).
    destruct (conforming_subreddit _ Hx) as (r & Hr & Hm).
    exists (r :: l). cbn [all_some]. rewrite Hr, Hl.
    split; [reflexivity | constructor; assumption].
Qed.

(** A value that matches the plan schema reads as a [ResearchPlan], and
    the five fields of that plan are the five members of the value. *)
Lemma conforming_plan (v : value) :
  conforms RESEARCH_PLAN_SCHEMA v = true ->
  exists p, as_ResearchPlan v = Some p /\ plan_matches v p.
Proof.
  destruct v as [| | | |?|members]; try discriminate.
  unfold RESEARCH_PLAN_SCHEMA. fold SUBREDDIT_SCHEMA.
  cbn [conforms forallb fst snd].
  unfold as_ResearchPlan, plan_matches, field. cbn [get].
  destruct (lookup "subreddits" members) as [a|]; [|discriminate].
  destruct (lookup "softwareCategories" members) as [b|]; [|discriminate].
  destruct (lookup "competitorApps" members) as [c|]; [|discriminate].
  destruct (lookup "searchStrings" members) as [d|]; [|discriminate].
  destruct (lookup "nicheForums" members) as [e|]; [|discriminate].
  cbn [andb]. rewrite !andb_true_r. intros H.
  apply andb_true_iff in H as [Ha H].
  apply andb_true_iff in H as [Hb H].
  apply andb_true_iff in H as [Hc H].
  apply andb_true_iff in H as [Hd He].
  destruct a as [| | | |subs|]; try discriminate Ha.
  change (forallb (conforms SUBREDDIT_SCHEMA) subs = true) in Ha.
  destruct (conforming_subreddits _ Ha) as (la & Hla & Hall).
  destruct (conforming_string_array _ Hb) as (lb & Hlb & ->).
  destruct (conforming_string_array _ Hc) as (lc & Hlc & ->).
  destruct (conforming_string_array _ Hd) as (ld & Hld & ->).
  destruct (conforming_string_array _ He) as (le & Hle & ->).
  cbn [as_array] in *. rewrite Hla, Hlb, Hlc, Hld, Hle.
  eexists. split; [reflexivity|]. cbn.
  split; [exists subs; split; [reflexivity | exact Hall]|].
  repeat split; reflexivity.
Qed.

End PlanSchema.

(** ** The stages against a backend that answers *)

Section Stages.

Context {W : Type} (P : Platform W).

Local Open Scope string_scope.

(** The credential check followed by a request that is answered. *)
Lemma call_answered {B : Type} params s r w'
    (k : GenerateContentResponse -> M W B) :
  key_usable (GEMINI_API_KEY P) ->
  backend_answers P params s r w' ->
  (ai <- getAI P ;; response <- models_generateContent P ai params ;;
   k response)%js s
  = k r (requested P params s w').
Proof.
  intros Hk Hb. unfold bind. rewrite (getAI_usable P s Hk).
  unfold models_generateContent, remote. fold (client P).
  unfold backend_answers in Hb. rewrite Hb. reflexivity.
Qed.

(** The credential check followed by a request that is rejected. *)
Lemma call_rejected {B : Type} params s e w'
    (k : GenerateContentResponse -> M W B) :
  key_usable (GEMINI_API_KEY P) ->
  backend_rejects P params s e w' ->
  (ai <- getAI P ;; response <- models_generateContent P ai params ;;
   k response)%js s
  = (Throw e, requested P params s w').
Proof.
  intros Hk Hb. unfold bind. rewrite (getAI_usable P s Hk).
  unfold models_generateContent, remote. fold (client P).
  unfold backend_rejects in Hb. rewrite Hb. reflexivity.
Qed.

Lemma falsy_text (t : Js.optstr) :
  t = None \/ t = Some "" -> Js.truthy t = false.
Proof. intros [->| ->]; reflexivity. Qed.

Lemma truthy_text (t : string) : t <> "" -> Js.truthy (Some t) = true.
Proof. destruct t; [congruence | reflexivity]. Qed.

(** C3. Whatever the market and the plan, when the search-augmented
    request is answered with no text or with the empty text,
    [executeResearch] returns the sentinel findings text and does not
    throw. *)
Theorem empty_findings_give_the_sentinel
    (market : string) (plan : value) (s : state W) (t : Js.optstr) (w' : W) :
  key_usable (GEMINI_API_KEY P) ->
  backend_answers P (research_params P market plan) s {| text := t |} w' ->
  t = None \/ t = Some "" ->
  executeResearch P market plan s
  = (Normal "No research data found.",
     requested P (research_params P market plan) s w').
Proof.
  intros Hk Hb Ht.
  unfold executeResearch, try_catch, research_attempt. cbv zeta.
  rewrite (call_answered (research_params P market plan) s _ w' _ Hk Hb).
  destruct Ht as [-> | ->]; reflexivity.
Qed.

(** The three [catch] blocks, on any error. *)
Lemma planning_failure_reports (e : thrown) (s : state W) :
  exists msg,
    planning_failure e s
    = (Throw (Error_ msg), logged "Detailed Planning Error:" e s)
    /\ planning_message (message_of e) msg.
Proof.
  unfold planning_failure, bind, emit, throw, planning_message, unmarked,
    credential_mark, rate_mark, logged.
  destruct (Js.opt_includes (message_of e) "403") eqn:E3;
    destruct (Js.opt_includes (message_of e) "401") eqn:E1;
    destruct (Js.opt_includes (message_of e) "429") eqn:E9;
    cbn [orb]; eexists; (split; [reflexivity|]);
    repeat split; intros; try reflexivity; try discriminate;
    try (destruct H; discriminate).
Qed.

Lemma research_failure_reports (e : thrown) (s : state W) :
  research_failure e s
  = (Throw (Error_ (execution_prefix ++ Js.interpolate (message_of e))),
     logged "Error in executeResearch:" e s).
Proof. reflexivity. Qed.

Lemma analysis_failure_reports (e : thrown) (s : state W) :
  analysis_failure e s
  = (Throw (Error_ (analysis_prefix ++ Js.interpolate (message_of e))),
     logged "Error in analyzeSignals:" e s).
Proof. reflexivity. Qed.

Lemma empty_response_has_no_marker :
  unmarked (Some empty_response_message).
Proof. split; vm_compute; reflexivity. Qed.

(** C4. When its structured request is answered with no text or with the
    empty text, the planning stage fails with its empty-response error
    behind its own stage prefix, and so does the analysis stage; neither
    returns a value.  Each stage on its own: nothing is asked of the
    request of the other stage. *)
Theorem empty_structured_response_fails
    (market rawResearch : string) (s : state W) (t : Js.optstr) (w' : W) :
  key_usable (GEMINI_API_KEY P) ->
  t = None \/ t = Some "" ->
  (backend_answers P (planning_params market) s {| text := t |} w' ->
   generateResearchPlan P market s
   = (Throw (Error_ (planning_prefix ++ empty_response_message)),
      logged "Detailed Planning Error:" (Error_ empty_response_message)
        (requested P (planning_params market) s w')))
  /\ (backend_answers P (analysis_params market rawResearch) s
        {| text := t |} w' ->
      analyzeSignals P market rawResearch s
      = (Throw (Error_ (analysis_prefix ++ no_analysis_message)),
         logged "Error in analyzeSignals:" (Error_ no_analysis_message)
           (requested P (analysis_params market rawResearch) s w'))).
Proof.
  intros Hk Ht. split; intros Hb.
  - unfold generateResearchPlan, try_catch, planning_attempt.
    rewrite (call_answered (planning_params market) s _ w' _ Hk Hb).
    cbn [text]. rewrite (falsy_text t Ht). cbn [negb]. unfold throw at 1.
    destruct (planning_failure_reports (Error_ empty_response_message)
                (requested P (planning_params market) s w'))
      as (msg & Hrun & _ & _ & Hplain).
    rewrite Hrun, (Hplain empty_response_has_no_marker). reflexivity.
  - unfold analyzeSignals, try_catch, analysis_attempt.
    rewrite (call_answered (analysis_params market rawResearch) s _ w' _ Hk Hb).
    cbn [text]. rewrite (falsy_text t Ht). reflexivity.
Qed.

(** C5. When the structured planning request is answered with a text
    that parses to a value matching [RESEARCH_PLAN_SCHEMA],
    [generateResearchPlan] returns that parsed value itself; read at type
    [ResearchPlan], its five fields are the five members of the parsed
    structure. *)
Theorem plan_is_the_parsed_text
    (market text : string) (v : value) (s : state W) (w' : W) :
  key_usable (GEMINI_API_KEY P) ->
  (forall v0, JSON_parse P "" <> inl v0) ->
  backend_answers P (planning_params market) s {| text := Some text |} w' ->
  JSON_parse P text = inl v ->
  conforms RESEARCH_PLAN_SCHEMA v = true ->
  generateResearchPlan P market s
  = (Normal v, requested P (planning_params market) s w')
  /\ exists p, as_ResearchPlan v = Some p /\ plan_matches v p.
Proof.
  intros Hk Hempty Hb Hparse Hconf. split; [|apply conforming_plan, Hconf].
  assert (Hne : text <> "").
  { intros ->. exact (Hempty v Hparse). }
  unfold generateResearchPlan, try_catch, planning_attempt.
  rewrite (call_answered (planning_params market) s _ w' _ Hk Hb).
  cbn [Runtime.text]. rewrite (truthy_text text Hne). cbn [negb Js.interpolate].
  unfold parse_json. rewrite Hparse. reflexivity.
Qed.

(** What becomes of a parse failure.  When a structured request is
    answered with a non-empty text that the engine cannot parse, neither
    stage lets the [SyntaxError] escape: each throws an [Error] of its
    own.  The analysis stage reports its prefix followed by the parser's
    message.  The planning stage applies its search for marks to the
    parser's message as to any other.  Each stage on its own. *)
Theorem malformed_structured_response_is_reported
    (market rawResearch text m : string) (s : state W) (w' : W) :
  key_usable (GEMINI_API_KEY P) ->
  text <> "" ->
  JSON_parse P text = inr m ->
  (backend_answers P (analysis_params market rawResearch) s
     {| text := Some text |} w' ->
   analyzeSignals P market rawResearch s
   = (Throw (Error_ (analysis_prefix ++ m)),
      logged "Error in analyzeSignals:" (SyntaxError_ m)
        (requested P (analysis_params market rawResearch) s w')))
  /\ (backend_answers P (planning_params market) s {| text := Some text |} w' ->
      exists msg,
        generateResearchPlan P market s
        = (Throw (Error_ msg),
           logged "Detailed Planning Error:" (SyntaxError_ m)
             (requested P (planning_params market) s w'))
        /\ planning_message (Some m) msg).
Proof.
  intros Hk Hne Hparse. split; intros Hb.
  - unfold analyzeSignals, try_catch, analysis_attempt.
    rewrite (call_answered (analysis_params market rawResearch) s _ w' _ Hk Hb).
    cbn [Runtime.text]. rewrite (truthy_text text Hne). cbn [negb Js.interpolate].
    unfold parse_json. rewrite Hparse. reflexivity.
  - unfold generateResearchPlan, try_catch, planning_attempt.
    rewrite (call_answered (planning_params market) s _ w' _ Hk Hb).
    cbn [Runtime.text]. rewrite (truthy_text text Hne). cbn [negb Js.interpolate].
    unfold parse_json. rewrite Hparse. unfold throw at 1.
    apply (planning_failure_reports (SyntaxError_ m)).
Qed.

(** What becomes of a rejected request.  The planning stage reports it
    by its marks; the research stage and the analysis stage report their
    prefix followed by the message of the rejection, whatever it holds.
    Each stage on its own. *)
Lemma rejected_request_is_reported
    (market rawResearch : string) (plan : value) (s : state W)
    (e : thrown) (w' : W) :
  key_usable (GEMINI_API_KEY P) ->
  (backend_rejects P (planning_params market) s e w' ->
   exists msg,
     generateResearchPlan P market s
     = (Throw (Error_ msg),
        logged "Detailed Planning Error:" e
          (requested P (planning_params market) s w'))
     /\ planning_message (message_of e) msg)
  /\ (backend_rejects P (research_params P market plan) s e w' ->
      executeResearch P market plan s
      = (Throw (Error_ (execution_prefix ++ Js.interpolate (message_of e))),
         logged "Error in executeResearch:" e
           (requested P (research_params P market plan) s w')))
  /\ (backend_rejects P (analysis_params market rawResearch) s e w' ->
      analyzeSignals P market rawResearch s
      = (Throw (Error_ (analysis_prefix ++ Js.interpolate (message_of e))),
         logged "Error in analyzeSignals:" e
           (requested P (analysis_params market rawResearch) s w'))).
Proof.
  intros Hk. split; [|split]; intros Hb.
  - unfold generateResearchPlan, try_catch, planning_attempt.
    rewrite (call_rejected (planning_params market) s e w' _ Hk Hb).
    apply planning_failure_reports.
  - unfold executeResearch, try_catch, research_attempt. cbv zeta.
    rewrite (call_rejected (research_params P market plan) s e w' _ Hk Hb).
    reflexivity.
  - unfold analyzeSignals, try_catch, analysis_attempt.
    rewrite (call_rejected (analysis_params market rawResearch) s e w' _ Hk Hb).
    reflexivity.
Qed.

(** *** Failures of a stage, from the error its [try] block raised *)









End Stages.

(** ** The record of events only grows *)

Section Traces.

Context {W : Type}.

Lemma observable_appends {A} (m : M W A) : observable m -> appends m.
Proof. intros H s. destruct (H s) as (ev & evs & E). eauto. Qed.

Lemma appends_ret {A} (a : A) : appends (ret (W:=W) a).
Proof. intros s. exists []. cbn. now rewrite app_nil_r. Qed.

Lemma appends_throw {A} (e : thrown) : appends (throw (W:=W) (A:=A) e).
Proof. intros s. exists []. cbn. now rewrite app_nil_r. Qed.

Lemma observable_emit (ev : event) : observable (emit (W:=W) ev).
Proof. intros s. exists ev, []. reflexivity. Qed.

Lemma observable_remote {A} (ev : event) (call : W -> outcome A * W) :
  observable (remote ev call).
Proof.
  intros s. exists ev, []. unfold remote.
  destruct (call (world s)) as [[a|e] w']; reflexivity.
Qed.

Lemma appends_modify_ui (f : AppState -> AppState) :
  appends (modify_ui (W:=W) f).
Proof. intros s. exists []. cbn. now rewrite app_nil_r. Qed.

Lemma appends_bind {A B} (m : M W A) (k : A -> M W B) :
  appends m -> (forall a, appends (k a)) -> appends (bind m k).
Proof.
  intros Hm Hk s. unfold bind. destruct (Hm s) as (evs & E).
  destruct (m s) as [[a|e] s1]; cbn [snd] in *.
  - destruct (Hk a s1) as (evs' & E'). exists (evs ++ evs').
    rewrite E', E, app_assoc. reflexivity.
  - eauto.
Qed.

Lemma observable_bind {A B} (m : M W A) (k : A -> M W B) :
  observable m -> (forall a, appends (k a)) -> observable (bind m k).
Proof.
  intros Hm Hk s. unfold bind. destruct (Hm s) as (ev & evs & E).
  destruct (m s) as [[a|e] s1]; cbn [snd] in *.
  - destruct (Hk a s1) as (evs' & E'). exists ev, (evs ++ evs').
    rewrite E', E, <- app_assoc. reflexivity.
  - eauto.
Qed.

Lemma appends_try_catch {A} (m : M W A) (h : thrown -> M W A) :
  appends m -> (forall e, appends (h e)) -> appends (try_catch m h).
Proof.
  intros Hm Hh s. unfold try_catch. destruct (Hm s) as (evs & E).
  destruct (m s) as [[a|e] s1]; cbn [snd] in *.
  - eauto.
  - destruct (Hh e s1) as (evs' & E'). exists (evs ++ evs').
    rewrite E', E, app_assoc. reflexivity.
Qed.

Lemma observable_try_catch {A} (m : M W A) (h : thrown -> M W A) :
  observable m -> (forall e, appends (h e)) -> observable (try_catch m h).
Proof.
  intros Hm Hh s. unfold try_catch. destruct (Hm s) as (ev & evs & E).
  destruct (m s) as [[a|e] s1]; cbn [snd] in *.
  - eauto.
  - destruct (Hh e s1) as (evs' & E'). exists ev, (evs ++ evs').
    rewrite E', E, <- app_assoc. reflexivity.
Qed.

Lemma appends_detached {A} (m : M W A) : appends m -> appends (App.detached m).
Proof. intros Hm s. exact (Hm s). Qed.

Lemma appends_if {A} (b : bool) (m1 m2 : M W A) :
  appends m1 -> appends m2 -> appends (if b then m1 else m2).
Proof. destruct b; auto. Qed.

End Traces.

Create HintDb trace.

#[local] Hint Resolve appends_ret appends_throw appends_modify_ui
  appends_bind appends_try_catch appends_detached appends_if
  observable_appends observable_emit observable_remote : trace.

Section StageTraces.

Context {W : Type} (P : Platform W).

Lemma observable_getAI_then {A} (k : GoogleGenAI -> M W A) :
  (forall ai, observable (k ai)) -> observable (bind (getAI P) k).
Proof.
  intros Hk s. destruct (key_usable_or_not (GEMINI_API_KEY P)) as [Hu|Hu].
  - unfold bind. rewrite (getAI_usable P s Hu). apply Hk.
  - unfold bind. rewrite (getAI_unusable P s Hu). cbn [snd trace].
    eexists _, []. reflexivity.
Qed.

Lemma appends_parse_json (t : string) : appends (parse_json P t).
Proof. unfold parse_json. destruct (JSON_parse P t); auto with trace. Qed.

Lemma appends_planning_failure (e : thrown) :
  appends (planning_failure (W:=W) e).
Proof.
  unfold planning_failure.
  apply appends_bind; [auto with trace|]. intros _.
  repeat apply appends_if; auto with trace.
Qed.

(** Every call of a stage function leaves at least one event: the
    request to the backend, or the report of the failed credential
    check. *)
Lemma observable_generateResearchPlan (market : string) :
  observable (generateResearchPlan P market).
Proof.
  apply observable_try_catch; [|apply appends_planning_failure].
  apply observable_getAI_then. intros ai.
  apply observable_bind; [apply observable_remote|].
  intros r. apply appends_if; [auto with trace | apply appends_parse_json].
Qed.

Lemma observable_executeResearch (market : string) (plan : value) :
  observable (executeResearch P market plan).
Proof.
  apply observable_try_catch.
  - apply observable_getAI_then. intros ai. cbv zeta.
    apply observable_bind; [apply observable_remote | auto with trace].
  - intros e. unfold research_failure. auto with trace.
Qed.

Lemma observable_analyzeSignals (market rawResearch : string) :
  observable (analyzeSignals P market rawResearch).
Proof.
  apply observable_try_catch.
  - apply observable_getAI_then. intros ai.
    apply observable_bind; [apply observable_remote|].
    intros r. apply appends_if; [auto with trace | apply appends_parse_json].
  - intros e. unfold analysis_failure. auto with trace.
Qed.

End StageTraces.

(** ** The profile store *)

Section Profiles.

Context {W : Type} (P : Platform W).

(** C10. [getProfile] never throws: for every user id and every state it
    completes with a value.  When the storage call rejects, and when it
    resolves with an error of any code, that value is [null], the same
    value as for the not-found code; a profile comes back only when the
    call resolves without an error. *)
Theorem getProfile_never_throws (userId : string) (s : state W) :
  (exists r, fst (Supabase.getProfile P userId s) = Normal r)
  /\ (forall e, store_gives P userId s (Rejected e) ->
      fst (Supabase.getProfile P userId s) = Normal None)
  /\ (forall d err,
      store_gives P userId s
        (Resolved {| data := d; error_of_single := Some err |}) ->
      fst (Supabase.getProfile P userId s) = Normal None)
  /\ (forall d,
      store_gives P userId s
        (Resolved {| data := d; error_of_single := None |}) ->
      fst (Supabase.getProfile P userId s) = Normal d).
Proof.
  unfold store_gives, Supabase.getProfile, try_catch, bind, remote.
  destruct (profiles_single P userId (world s)) as [[[d [err|]]|e] w'];
    cbn [fst error_of_single data].
  - destruct (String.eqb (code err) "PGRST116"); cbn;
      (split; [eexists; reflexivity|]);
      (split; [discriminate|]); (split; [reflexivity|]); discriminate.
  - cbn. split; [eexists; reflexivity|]. split; [discriminate|].
    split; [discriminate|]. intros d' [= <-]. reflexivity.
  - cbn. split; [eexists; reflexivity|]. split; [reflexivity|].
    split; discriminate.
Qed.

Lemma appends_getProfile (userId : string) :
  appends (Supabase.getProfile P userId).
Proof.
  unfold Supabase.getProfile. apply appends_try_catch.
  - apply appends_bind; [auto with trace|]. intros r.
    destruct (error_of_single r); [|auto with trace].
    apply appends_if; auto 6 with trace.
  - intros e. auto with trace.
Qed.

Lemma appends_incrementCredits (userId : string) :
  appends (Supabase.incrementCredits P userId).
Proof.
  unfold Supabase.incrementCredits. apply appends_try_catch.
  - apply appends_bind; [auto with trace|]. intros r.
    destruct r; auto 6 with trace.
  - intros e. auto with trace.
Qed.

End Profiles.

(** ** The run handler *)

Section Runs.

Context {W : Type} (P : Platform W).

Local Open Scope string_scope.

(** The free-tier gate fires exactly on a loaded profile that is not pro
    and has used three credits or more. *)
Lemma credit_gate_iff (prof : option UserProfile) :
  App.credit_limit_reached prof = true
  <-> exists p, prof = Some p /\ is_pro p = false /\ (3 <= credits_used p)%Z.
Proof.
  unfold App.credit_limit_reached. split.
  - destruct prof as [p|]; [|discriminate]. intros H.
    apply andb_true_iff in H as [Hpro Hc].
    exists p. split; [reflexivity|]. split.
    + now apply negb_true_iff in Hpro.
    + now apply Z.leb_le.
  - intros (p & -> & Hpro & Hc). rewrite Hpro. cbn.
    now apply Z.leb_le.
Qed.

Lemma not_blank (m : string) :
  Js.trim m <> "" -> negb (Js.truthy (Some (Js.trim m))) = false.
Proof. destruct (Js.trim m); [congruence | reflexivity]. Qed.

(** C8. A signed-in caller whose loaded profile is not pro and has used
    three credits or more gets no run: the handler returns with the
    remote services and the record of events as they were, so none of the
    three stage functions was called (each call leaves an event, see
    [observable_generateResearchPlan] and its two companions) and the run
    state was not set to [PLANNING]; for a market that is not blank the
    free-credit-limit error is put in the [error] state. *)
Theorem credit_limit_rejects_the_run (s : state W) (sess : Session)
    (p : UserProfile) :
  session (ui s) = Some sess ->
  profile (ui s) = Some p ->
  is_pro p = false ->
  (3 <= credits_used p)%Z ->
  exists a',
    App.startResearch P s = (Normal tt, mkState (world s) a' (trace s))
    /\ stage a' = stage (ui s)
    /\ (Js.trim (market (ui s)) <> "" -> a' = refused (ui s)).
Proof.
  intros Hs Hp Hpro Hc.
  assert (Hgate : App.credit_limit_reached (profile (ui s)) = true).
  { apply credit_gate_iff. exists p. auto. }
  unfold App.startResearch, bind, App.captured.
  destruct (negb (Js.truthy (Some (Js.trim (market (ui s)))))) eqn:Hblank.
  - exists (ui s). split; [destruct s; reflexivity|].
    split; [reflexivity|]. intros Hm. rewrite (not_blank _ Hm) in Hblank.
    discriminate.
  - rewrite Hs, Hgate. exists (refused (ui s)).
    split; [reflexivity|]. split; reflexivity.
Qed.

Lemma appends_setStage (v : ResearchStage) : appends (App.setStage (W:=W) v).
Proof. unfold App.setStage. auto with trace. Qed.

Lemma appends_member (o : value) (k : string) : appends (App.member P o k).
Proof. destruct o; cbn; auto with trace. Qed.

Lemma appends_member_of (x : App.jsval) (k : string) :
  appends (App.member_of P x k).
Proof. destruct x; cbn; auto using appends_member with trace. Qed.

Lemma appends_report_failure (e : thrown) :
  appends (App.report_failure (W:=W) e).
Proof.
  unfold App.report_failure, App.setError.
  auto 7 using appends_setStage with trace.
Qed.

Lemma observable_pipeline (now : AppState) : observable (App.pipeline P now).
Proof.
  unfold App.pipeline.
  apply observable_bind; [apply observable_generateResearchPlan|].
  intros researchPlan.
  unfold App.setPlan, App.setProgressText, App.setReport.
  repeat (apply appends_bind;
          [first [ apply appends_setStage | apply appends_member
                 | apply appends_member_of | apply appends_modify_ui
                 | apply observable_appends, observable_executeResearch
                 | apply observable_appends, observable_analyzeSignals ]
          | intros ? ]).
  destruct (session now) as [sess|]; [|auto with trace].
  apply appends_bind; [apply appends_incrementCredits|]. intros _.
  apply appends_detached. unfold App.fetchProfile, App.setProfile.
  apply appends_bind; [apply appends_getProfile | auto with trace].
Qed.

(** C9. With a session and no loaded profile the handler makes no credit
    check: for a market that is not blank it sets the run state to
    [PLANNING] and runs the three stages, whatever credits and pro status
    the store holds.  The events of the call begin with the entry into
    [PLANNING], followed by the first event of the planning stage. *)
Theorem run_starts_without_profile (s : state W) (sess : Session) :
  Js.trim (market (ui s)) <> "" ->
  session (ui s) = Some sess ->
  profile (ui s) = None ->
  App.startResearch P s
  = try_catch (App.pipeline P (ui s)) App.report_failure (started s)
  /\ exists ev evs,
       trace (snd (App.startResearch P s))
       = (trace s ++ StageSet PLANNING :: ev :: evs)%list.
Proof.
  intros Hm Hs Hp.
  assert (E : App.startResearch P s
              = try_catch (App.pipeline P (ui s)) App.report_failure (started s)).
  { unfold App.startResearch, bind at 1, App.captured.
    rewrite (not_blank _ Hm), Hs, Hp. reflexivity. }
  split; [exact E|]. rewrite E.
  destruct (observable_try_catch _ _ (observable_pipeline (ui s))
              appends_report_failure (started s)) as (ev & evs & Ht).
  exists ev, evs. rewrite Ht. unfold started. cbn [trace].
  rewrite <- app_assoc. reflexivity.
Qed.

End Runs.

(** * Concrete runs

    The theorems above applied on the reference platform, and the runs on
    which the code and its description part ways. *)

(** The plan text of the scenario, read by the reference engine. *)
Example gym_plan_parses : Json.parse gym_plan_text = inl gym_plan.
Proof. vm_compute. reflexivity. Qed.

(** The scenario from end to end: the run completes with the plan and a
    report of exactly one pattern, field for field as the backend gave
    them. *)
Example gym_run_completes :
  let s' := snd (App.startResearch P_gym s0) in
  stage (ui s') = COMPLETED
  /\ plan (ui s') = Some gym_plan
  /\ error (ui s') = None
  /\ option_map (Json.get "patterns") (report (ui s'))
     = Some (Some (JArray
         [ JObject
             [ ("id", JString "p1");
               ("title", JString "Lost bookings");
               ("description", JString "Bookings vanish.");
               ("scores",
                JObject [ ("frequency", JNumber "4"); ("desperation", JNumber "4");
                          ("willingnessToPay", JNumber "3"); ("trend", JNumber "3") ]);
               ("classification", JString "Strong Signal");
               ("quotes",
                JArray
                  [ JObject [ ("text", JString "It lost my bookings again");
                              ("source", JString "reddit");
                              ("date", JString "2024-03-01");
                              ("url", JString "https://example.com/t/1") ] ]) ] ])).
Proof. vm_compute. repeat split; reflexivity. Qed.

(** The credentials of the example platforms pass the check. *)
Lemma reference_key_usable (k : string) backend single rpc :
  k <> "" -> k <> "MY_GEMINI_API_KEY" -> k <> "undefined" ->
  key_usable (GEMINI_API_KEY (platform (Some k) backend single rpc)).
Proof. intros. exists k. cbn. auto. Defined.

(** C1 on the placeholder credential. *)
Lemma unusable_credential_witness :
  key_unusable (GEMINI_API_KEY P_placeholder)
  /\ fst (generateResearchPlan P_placeholder "gym owners" s0)
     = Throw (Error_ "Research Planning failed: Gemini API Key is missing or empty. Please ensure you have added 'GEMINI_API_KEY' to the Secrets panel and restarted the app.")
  /\ trace (snd (executeResearch P_placeholder "gym owners" gym_plan s0))
     = [ ConsoleErrorDetails "Gemini Auth Check Failed:"
           {| hasKey := true; isPlaceholder := true; isEmpty := false;
              isUndefinedString := false |};
         ConsoleError "Error in executeResearch:" (Error_ missing_key_message) ].
Proof.
  assert (H : key_unusable (GEMINI_API_KEY P_placeholder))
    by (right; right; left; reflexivity).
  split; [exact H|].
  destruct (unusable_credential_fails_before_any_request P_placeholder
              "gym owners" gym_findings gym_plan s0 H)
    as ((evs1 & E1 & _) & (evs2 & E2 & _) & _).
  rewrite E1. split; reflexivity.
Defined.

(** The credential of the example platforms. *)
Lemma k1_usable backend single rpc :
  key_usable (GEMINI_API_KEY (platform (Some "k-1") backend single rpc)).
Proof. apply reference_key_usable; discriminate. Defined.

(** C3 on a backend that answers without text. *)
Lemma empty_findings_witness :
  executeResearch P_silent "gym owners" gym_plan s0
  = (Normal "No research data found.",
     requested P_silent (research_params P_silent "gym owners" gym_plan) s0 tt).
Proof.
  apply (empty_findings_give_the_sentinel P_silent "gym owners" gym_plan s0
           None tt).
  - apply k1_usable.
  - reflexivity.
  - left. reflexivity.
Defined.

(** C4 on a backend that leaves only the planning request without text,
    and on one that leaves every request without text. *)
Lemma empty_structured_response_witness :
  fst (generateResearchPlan P_no_plan "gym owners" s0)
  = Throw (Error_ "Research Planning failed: The model returned an empty response. This can happen if the prompt was blocked or the model is unavailable.")
  /\ fst (analyzeSignals P_silent "gym owners" gym_findings s0)
     = Throw (Error_ "Signal Analysis failed: No analysis received from Gemini.").
Proof.
  destruct (empty_structured_response_fails P_no_plan "gym owners"
              gym_findings s0 None tt) as [E1 _].
  - apply k1_usable.
  - left. reflexivity.
  - destruct (empty_structured_response_fails P_silent "gym owners"
                gym_findings s0 None tt) as [_ E3].
    + apply k1_usable.
    + left. reflexivity.
    + rewrite (E1 eq_refl), (E3 eq_refl). split; reflexivity.
Defined.

(** C5 on the plan of the scenario. *)
Lemma plan_is_the_parsed_text_witness :
  generateResearchPlan P_gym "gym owners" s0
  = (Normal gym_plan,
     requested P_gym (planning_params "gym owners") s0 tt)
  /\ exists p, as_ResearchPlan gym_plan = Some p /\ plan_matches gym_plan p.
Proof.
  apply (plan_is_the_parsed_text P_gym "gym owners" gym_plan_text gym_plan
           s0 tt).
  - apply k1_usable.
  - intros v0. vm_compute. discriminate.
  - reflexivity.
  - vm_compute. reflexivity.
  - vm_compute. reflexivity.
Defined.

(** A parse failure whose message holds no mark, in both stages. *)
Lemma malformed_structured_response_witness :
  fst (analyzeSignals P_cut "gym owners" gym_findings s0)
  = Throw (Error_ "Signal Analysis failed: Unexpected end of JSON input")
  /\ exists msg,
       fst (generateResearchPlan P_cut "gym owners" s0) = Throw (Error_ msg)
       /\ planning_message (Some "Unexpected end of JSON input") msg.
Proof.
  destruct (malformed_structured_response_is_reported P_cut "gym owners"
              gym_findings (dquoted "{'subreddits': [")
              "Unexpected end of JSON input" s0 tt)
    as (E3 & E1).
  - apply k1_usable.
  - vm_compute. discriminate.
  - vm_compute. reflexivity.
  - destruct (E1 eq_refl) as (msg & E1' & Hm).
    rewrite (E3 eq_refl). split; [reflexivity|]. exists msg. rewrite E1'.
    split; [reflexivity | exact Hm].
Defined.

(** C6 on a structured answer of the four characters x403.  The engine's
    [SyntaxError] quotes them; the planning stage finds 403 in that
    message and reports an invalid credential, which is neither the
    planning prefix nor the parser's message. *)
Lemma parse_failure_reported_as_invalid_credential :
  (exists m,
      JSON_parse P_x403 "x403" = inr m
      /\ Js.includes m "403" = true
      /\ fst (generateResearchPlan P_x403 "gym owners" s0)
         <> Throw (Error_ (planning_prefix ++ m)))
  /\ fst (generateResearchPlan P_x403 "gym owners" s0)
     = Throw (Error_ "Invalid API Key. Please check your GEMINI_API_KEY in the Secrets panel.")
  /\ String.prefix planning_prefix
       "Invalid API Key. Please check your GEMINI_API_KEY in the Secrets panel."
     = false.
Proof.
  split; [|split; vm_compute; reflexivity].
  eexists. split; [vm_compute; reflexivity|].
  split; [vm_compute; reflexivity|].
  vm_compute. discriminate.
Qed.

(** C2 at a 403 from the backend: the planning stage reports the
    invalid-credential message; the research stage and the analysis stage
    report their prefix followed by the backend's message, not the
    invalid-credential message. *)
Lemma later_stages_keep_the_backend_message :
  fst (generateResearchPlan P_403 "gym owners" s0)
  = Throw (Error_ "Invalid API Key. Please check your GEMINI_API_KEY in the Secrets panel.")
  /\ fst (executeResearch P_403 "gym owners" gym_plan s0)
     = Throw (Error_ "Research Execution failed: 403 Forbidden")
  /\ fst (analyzeSignals P_403 "gym owners" gym_findings s0)
     = Throw (Error_ "Signal Analysis failed: 403 Forbidden")
  /\ Js.includes "403 Forbidden" "403" = true
  /\ "Research Execution failed: 403 Forbidden"%string <> invalid_key_message
  /\ "Signal Analysis failed: 403 Forbidden"%string <> invalid_key_message.
Proof.
  repeat split; try (vm_compute; reflexivity); discriminate.
Qed.



(** C8 on a free profile with three credits used. *)
Lemma credit_limit_witness :
  App.startResearch P_gym s_spent
  = (Normal tt,
     mkState tt
       (mkApp "gym owners" IDLE None None
              (Some "Free credit limit reached. Please upgrade to Pro.") ""
              (Some alice) (Some (free_profile 3)) false)
       []).
Proof.
  destruct (credit_limit_rejects_the_run P_gym s_spent alice (free_profile 3))
    as (a' & E & _ & Ha).
  - reflexivity.
  - reflexivity.
  - reflexivity.
  - cbn. lia.
  - rewrite E, Ha; [reflexivity|]. vm_compute. discriminate.
Defined.

(** C9 on a session without a loaded profile. *)
Lemma run_starts_witness :
  exists ev evs,
    trace (snd (App.startResearch P_gym s0))
    = [] ++ StageSet PLANNING :: ev :: evs.
Proof.
  destruct (run_starts_without_profile P_gym s0 alice) as [_ H].
  - vm_compute. discriminate.
  - reflexivity.
  - reflexivity.
  - exact H.
Defined.

(** C10 on a store that is unreachable, a store that refuses, and a
    store without the row. *)
Lemma getProfile_witness :
  fst (Supabase.getProfile P_offline "u-1" s0) = Normal None
  /\ fst (Supabase.getProfile P_denied "u-1" s0) = Normal None
  /\ fst (Supabase.getProfile P_gym "u-1" s0) = Normal None.
Proof.
  destruct (getProfile_never_throws P_offline "u-1" s0) as (_ & Hrej & _).
  destruct (getProfile_never_throws P_denied "u-1" s0) as (_ & _ & Herr & _).
  destruct (getProfile_never_throws P_gym "u-1" s0) as (_ & _ & Hnf & _).
  split; [apply (Hrej (Rejection (Some "Failed to fetch"))); reflexivity|].
  split; [eapply Herr; reflexivity | eapply Hnf; reflexivity].
Defined.

(** * Further properties *)

(** ** What each call adds to the record of events *)

Section Footprints.

Context {W : Type} (P : Platform W).

Lemma bind_run {A B : Type} (m : M W A) (k : A -> M W B) (s : state W) :
  bind m k s
  = match m s with
    | (Normal a, s') => k a s'
    | (Throw e, s') => (Throw e, s')
    end.
Proof. reflexivity. Qed.

Ltac footprint_done :=
  eexists _, _, _; split;
  [ unfold logged, requested; cbn [world ui trace];
    rewrite <- ?app_assoc; reflexivity
  | repeat split; cbn; auto ].

(** The planning stage leaves the component state alone; its events are
    console reports and at most its one request. *)
Lemma planning_footprint (market : string) (s : state W) :
  exists c w' evs,
    generateResearchPlan P market s
    = (c, mkState w' (ui s) (trace s ++ evs))
    /\ stage_events (planning_params market) (returns c) evs.
Proof.
  unfold generateResearchPlan, try_catch, planning_attempt.
  destruct (key_usable_or_not (GEMINI_API_KEY P)) as [Hk|Hk].
  - destruct (generateContent P (client P) (planning_params market) (world s))
      as [[r|e] w'] eqn:E.
    + rewrite (call_answered P (planning_params market) s r w' _ Hk E).
      destruct (Js.truthy (text r)); cbn [negb].
      * unfold parse_json. destruct (JSON_parse P _) as [v|m].
        -- footprint_done.
        -- unfold throw at 1.
           destruct (planning_failure_reports (SyntaxError_ m)
                       (requested P (planning_params market) s w'))
             as (msg & -> & _).
           footprint_done.
      * unfold throw at 1.
        destruct (planning_failure_reports (Error_ empty_response_message)
                    (requested P (planning_params market) s w'))
          as (msg & -> & _).
        footprint_done.
    + rewrite (call_rejected P (planning_params market) s e w' _ Hk E).
      destruct (planning_failure_reports e
                  (requested P (planning_params market) s w'))
        as (msg & -> & _).
      footprint_done.
  - rewrite bind_run, (getAI_unusable P s Hk).
    match goal with
    | |- context [planning_failure ?e ?s1] =>
        destruct (planning_failure_reports e s1) as (msg & -> & _)
    end.
    footprint_done.
Qed.

Lemma research_footprint (market : string) (plan : value) (s : state W) :
  exists c w' evs,
    executeResearch P market plan s
    = (c, mkState w' (ui s) (trace s ++ evs))
    /\ stage_events (research_params P market plan) (returns c) evs.
Proof.
  unfold executeResearch, try_catch, research_attempt. cbv zeta.
  destruct (key_usable_or_not (GEMINI_API_KEY P)) as [Hk|Hk].
  - destruct (generateContent P (client P) (research_params P market plan)
                (world s)) as [[r|e] w'] eqn:E.
    + rewrite (call_answered P (research_params P market plan) s r w' _ Hk E).
      footprint_done.
    + rewrite (call_rejected P (research_params P market plan) s e w' _ Hk E).
      rewrite research_failure_reports. footprint_done.
  - rewrite bind_run, (getAI_unusable P s Hk).
    rewrite research_failure_reports. footprint_done.
Qed.

Lemma analysis_footprint (market rawResearch : string) (s : state W) :
  exists c w' evs,
    analyzeSignals P market rawResearch s
    = (c, mkState w' (ui s) (trace s ++ evs))
    /\ stage_events (analysis_params market rawResearch) (returns c) evs.
Proof.
  unfold analyzeSignals, try_catch, analysis_attempt.
  destruct (key_usable_or_not (GEMINI_API_KEY P)) as [Hk|Hk].
  - destruct (generateContent P (client P)
                (analysis_params market rawResearch) (world s))
      as [[r|e] w'] eqn:E.
    + rewrite (call_answered P (analysis_params market rawResearch) s r w' _ Hk E).
      destruct (Js.truthy (text r)); cbn [negb].
      * unfold parse_json. destruct (JSON_parse P _) as [v|m].
        -- footprint_done.
        -- unfold throw at 1. rewrite analysis_failure_reports.
           footprint_done.
      * unfold throw at 1. rewrite analysis_failure_reports. footprint_done.
    + rewrite (call_rejected P (analysis_params market rawResearch) s e w' _ Hk E).
      rewrite analysis_failure_reports. footprint_done.
  - rewrite bind_run, (getAI_unusable P s Hk).
    rewrite analysis_failure_reports. footprint_done.
Qed.

End Footprints.

Section StoreFootprints.

Context {W : Type} (P : Platform W).

(** [incrementCredits] never throws and leaves the component state
    alone; it asks the store once. *)
Lemma incrementCredits_footprint (userId : string) (s : state W) :
  exists w' evs,
    Supabase.incrementCredits P userId s
    = (Normal tt,
       mkState w' (ui s) (trace s ++ RpcIncrementCredits userId :: evs))
    /\ silent_events evs.
Proof.
  unfold Supabase.incrementCredits, try_catch, bind, remote.
  destruct (rpc_increment_credits P userId (world s)) as [[[err|]|e] w'];
    cbn; eexists _, _; (split; [rewrite <- ?app_assoc; reflexivity|]);
    repeat split.
Qed.

(** [getProfile] never throws and leaves the component state alone. *)
Lemma getProfile_footprint (userId : string) (s : state W) :
  exists r w' evs,
    Supabase.getProfile P userId s
    = (Normal r, mkState w' (ui s) (trace s ++ evs))
    /\ silent_events evs.
Proof.
  unfold Supabase.getProfile, try_catch, bind, remote.
  destruct (profiles_single P userId (world s)) as [[[d [err|]]|e] w'];
    cbn [error_of_single data].
  - destruct (String.eqb (code err) "PGRST116"); cbn;
      eexists _, _, _; (split; [rewrite <- ?app_assoc; reflexivity|]);
      repeat split.
  - cbn. eexists _, _, _. split; [reflexivity|]. repeat split.
  - cbn. eexists _, _, _. split; [rewrite <- ?app_assoc; reflexivity|].
    repeat split.
Qed.

End StoreFootprints.

Section RunShape.

Context {W : Type} (P : Platform W).

Local Open Scope string_scope.

Lemma stages_entered_app (a b : list event) :
  stages_entered (a ++ b) = (stages_entered a ++ stages_entered b)%list.
Proof. apply flat_map_app. Qed.

Lemma requests_app (a b : list event) :
  requests (a ++ b) = (requests a ++ requests b)%list.
Proof. apply flat_map_app. Qed.

Lemma credit_calls_app (a b : list event) :
  credit_calls (a ++ b) = (credit_calls a ++ credit_calls b)%list.
Proof. apply flat_map_app. Qed.

Lemma or_else_not_empty (m : Js.optstr) (fallback : string) :
  fallback <> "" -> Js.or_else m fallback <> "".
Proof. destruct m as [[|c m]|]; cbn; [auto | discriminate | auto]. Qed.

Lemma member_run (o : value) (k : string) (s : state W) :
  App.member P o k s
  = (match read_member P o k with
     | inl e => Throw e
     | inr x => Normal x
     end, s).
Proof. destruct o; reflexivity. Qed.

Lemma member_of_run (x : App.jsval) (k : string) (s : state W) :
  App.member_of P x k s
  = (match read_member_of P x k with
     | inl e => Throw e
     | inr y => Normal y
     end, s).
Proof. destruct x; cbn [App.member_of read_member_of]; [reflexivity..|apply member_run]. Qed.

(** The four property reads of the progress text, as one step. *)
Lemma reads_run {B : Type} (researchPlan : value)
    (k : App.jsval -> App.jsval -> M W B) (s : state W) :
  (subs <- App.member P researchPlan "subreddits" ;;
   n_subs <- App.member_of P subs "length" ;;
   cats <- App.member P researchPlan "softwareCategories" ;;
   n_cats <- App.member_of P cats "length" ;;
   k n_subs n_cats)%js s
  = match read_length P researchPlan "subreddits" with
    | inl e => (Throw e, s)
    | inr n_subs =>
        match read_length P researchPlan "softwareCategories" with
        | inl e => (Throw e, s)
        | inr n_cats => k n_subs n_cats s
        end
    end.
Proof.
  unfold read_length.
  rewrite bind_run, member_run.
  destruct (read_member P researchPlan "subreddits") as [e|subs];
    [reflexivity|].
  rewrite bind_run, member_of_run.
  destruct (read_member_of P subs "length") as [e|n_subs]; [reflexivity|].
  rewrite bind_run, member_run.
  destruct (read_member P researchPlan "softwareCategories") as [e|cats];
    [reflexivity|].
  rewrite bind_run, member_of_run.
  destruct (read_member_of P cats "length") as [e|n_cats]; reflexivity.
Qed.

(** A run that got past the guards is the [try] block from the state in
    which the first stage is entered. *)
Lemma run_begins_pipeline (s : state W) (sess : Session) :
  run_begins s sess ->
  App.startResearch P s
  = try_catch (App.pipeline P (ui s)) App.report_failure (started s).
Proof.
  intros (Hm & Hs & Hg).
  unfold App.startResearch. rewrite bind_run. unfold App.captured.
  rewrite (not_blank _ Hm), Hs, Hg. reflexivity.
Qed.

Lemma report_failure_run (e : thrown) (s : state W) :
  App.report_failure e s
  = (Normal tt,
     mkState (world s)
       (mkApp (market (ui s)) ERROR (plan (ui s)) (report (ui s))
          (Some (Js.or_else (message_of e) App.unexpected_error_message))
          (progressText (ui s)) (session (ui s)) (profile (ui s))
          (showAuthModal (ui s)))
       (trace s ++ [ConsoleError "Research Error Details:" e; StageSet ERROR])).
Proof.
  unfold App.report_failure, App.setError, App.setStage, bind, emit, modify_ui.
  cbn [world ui trace market stage plan report error progressText session
       profile showAuthModal].
  rewrite <- app_assoc. reflexivity.
Qed.

Ltac project :=
  rewrite ?stages_entered_app, ?requests_app, ?credit_calls_app.

Lemma setPlan_run (v : option value) (s : state W) :
  App.setPlan v s
  = (Normal tt,
     mkState (world s)
       (mkApp (market (ui s)) (stage (ui s)) v (report (ui s)) (error (ui s))
          (progressText (ui s)) (session (ui s)) (profile (ui s))
          (showAuthModal (ui s)))
       (trace s)).
Proof. reflexivity. Qed.

Lemma setReport_run (v : option value) (s : state W) :
  App.setReport v s
  = (Normal tt,
     mkState (world s)
       (mkApp (market (ui s)) (stage (ui s)) (plan (ui s)) v (error (ui s))
          (progressText (ui s)) (session (ui s)) (profile (ui s))
          (showAuthModal (ui s)))
       (trace s)).
Proof. reflexivity. Qed.

Lemma setProgressText_run (v : string) (s : state W) :
  App.setProgressText v s
  = (Normal tt,
     mkState (world s)
       (mkApp (market (ui s)) (stage (ui s)) (plan (ui s)) (report (ui s))
          (error (ui s)) v (session (ui s)) (profile (ui s))
          (showAuthModal (ui s)))
       (trace s)).
Proof. reflexivity. Qed.

Lemma setProfile_run (v : option UserProfile) (s : state W) :
  App.setProfile v s
  = (Normal tt,
     mkState (world s)
       (mkApp (market (ui s)) (stage (ui s)) (plan (ui s)) (report (ui s))
          (error (ui s)) (progressText (ui s)) (session (ui s)) v
          (showAuthModal (ui s)))
       (trace s)).
Proof. reflexivity. Qed.

Lemma setStage_run (v : ResearchStage) (s : state W) :
  App.setStage v s
  = (Normal tt,
     mkState (world s)
       (mkApp (market (ui s)) v (plan (ui s)) (report (ui s)) (error (ui s))
          (progressText (ui s)) (session (ui s)) (profile (ui s))
          (showAuthModal (ui s)))
       (trace s ++ [StageSet v])).
Proof. reflexivity. Qed.

Ltac norm :=
  cbv beta iota;
  cbn [fst snd world ui trace market stage Runtime.plan report Runtime.error
       progressText session profile showAuthModal started].

(** The state a stage call is made in, up to computation. *)
Ltac stage_result E :=
  match type of E with
  | ?call = _ =>
      match goal with
      | |- fst _ = ?r => change (fst call = r)
      | |- returns (fst _) = ?r => change (returns (fst call) = r)
      end
  end; rewrite E; reflexivity.

Lemma run_has_results (s : state W) (sess : Session) :
  run_begins s sess ->
  exists e new researchPlan rawData finalReport k,
    fst (App.startResearch P s) = Normal tt
    /\ run_shape P s (snd (App.startResearch P s)) sess e new researchPlan
         rawData k
    /\ run_results P s e researchPlan rawData finalReport
    /\ (e = RunCompleted ->
        report (ui (snd (App.startResearch P s))) = Some finalReport).
Proof.
  intros Hb. rewrite (run_begins_pipeline s sess Hb).
  destruct Hb as (Hm & Hs & Hg).
  unfold try_catch, App.pipeline.
  rewrite bind_run.
  destruct (planning_footprint P (market (ui s)) (started s))
    as (c1 & w1 & evs1 & E1 & (S1 & C1 & R1)).
  rewrite E1.
  destruct c1 as [researchPlan|e1].
  2:{ rewrite report_failure_run. cbn [fst snd world ui trace started].
      exists PlanningFailed,
        ([StageSet PLANNING] ++ evs1
         ++ [ConsoleError "Research Error Details:" e1; StageSet ERROR])%list,
        JNull, "", JNull, (List.length (requests evs1)).
      split; [reflexivity|].
      split; [|split; [|discriminate];
               unfold run_results, planned; rewrite E1; reflexivity].
      unfold run_shape. cbn [ui trace].
      split; [rewrite <- !app_assoc; reflexivity|].
      split; [project; rewrite S1; reflexivity|].
      split; [project; destruct R1 as [R1|[_ R1]]; rewrite R1; reflexivity|].
      split; [destruct R1 as [R1|[_ R1]]; rewrite R1; cbn; lia|].
      split; [project; rewrite C1; reflexivity|].
      split; [reflexivity|]. split; [reflexivity|].
      eexists. split; [|reflexivity].
      apply or_else_not_empty. discriminate. }
  assert (R1' : requests evs1 = [planning_params (market (ui s))])
    by (destruct R1 as [R1|[R1 _]]; [exact R1 | discriminate R1]).
  clear R1.
  assert (Hplanned : fst (planned P s) = Normal researchPlan)
    by (unfold planned; rewrite E1; reflexivity).
  rewrite bind_run, setPlan_run. norm.
  rewrite bind_run, setStage_run. norm.
  rewrite reads_run.
  assert (Hunreadable : forall e st,
    scanning_text P researchPlan = inl e ->
    st = mkState w1
           (mkApp (market (ui s)) RESEARCHING (Some researchPlan) None None
              "Planning your research strategy..." (session (ui s))
              (profile (ui s)) (showAuthModal (ui s)))
           (((trace s ++ [StageSet PLANNING]) ++ evs1)
            ++ [StageSet RESEARCHING]) ->
    exists e0 new researchPlan0 rawData finalReport k,
      fst (App.report_failure e st) = Normal tt
      /\ run_shape P s (snd (App.report_failure e st)) sess e0 new
           researchPlan0 rawData k
      /\ run_results P s e0 researchPlan0 rawData finalReport
      /\ (e0 = RunCompleted ->
          report (ui (snd (App.report_failure e st))) = Some finalReport)).
  { intros e st Hscan ->. rewrite report_failure_run. norm.
    exists PlanUnreadable,
      ([StageSet PLANNING] ++ evs1 ++ [StageSet RESEARCHING]
       ++ [ConsoleError "Research Error Details:" e; StageSet ERROR])%list,
      researchPlan, "", JNull, 1.
    split; [reflexivity|].
    split; [|split; [|discriminate];
             split; [exact Hplanned | exists e; exact Hscan]].
    unfold run_shape. norm.
    split; [rewrite <- !app_assoc; reflexivity|].
    split; [project; rewrite S1; reflexivity|].
    split; [project; rewrite R1'; reflexivity|].
    split; [reflexivity|].
    split; [project; rewrite C1; reflexivity|].
    split; [reflexivity|]. split; [reflexivity|].
    eexists. split; [|reflexivity].
    apply or_else_not_empty. discriminate. }
  destruct (read_length P researchPlan "subreddits") as [e|n_subs] eqn:L1;
    [apply Hunreadable;
     [unfold scanning_text; rewrite L1; reflexivity | reflexivity]|].
  destruct (read_length P researchPlan "softwareCategories")
    as [e|n_cats] eqn:L2;
    [apply Hunreadable;
     [unfold scanning_text; rewrite L1, L2; reflexivity | reflexivity]|].
  clear Hunreadable.
  assert (Hscan : scanning_text P researchPlan
                  = inr ("Scanning " ++ App.to_text n_subs
                         ++ " subreddits and " ++ App.to_text n_cats
                         ++ " software categories..."))
    by (unfold scanning_text; rewrite L1, L2; reflexivity).
  rewrite bind_run, setProgressText_run. norm.
  rewrite bind_run.
  match goal with
  | |- context [executeResearch P ?m ?pl ?st] =>
      destruct (research_footprint P m pl st)
        as (c2 & w2 & evs2 & E2 & (S2 & C2 & R2))
  end.
  rewrite E2. norm.
  destruct c2 as [rawData|e2].
  2:{ rewrite report_failure_run. norm.
      exists ResearchFailed,
        ([StageSet PLANNING] ++ evs1 ++ [StageSet RESEARCHING] ++ evs2
         ++ [ConsoleError "Research Error Details:" e2; StageSet ERROR])%list,
        researchPlan, "", JNull, (1 + List.length (requests evs2)).
      split; [reflexivity|].
      split; [|split; [|discriminate];
               split; [exact Hplanned|];
               eexists; split; [exact Hscan|];
               unfold researched, planned; rewrite E1; stage_result E2].
      unfold run_shape. norm.
      split; [rewrite <- !app_assoc; reflexivity|].
      split; [project; rewrite S1, S2; reflexivity|].
      split; [project; rewrite R1'; destruct R2 as [R2|[_ R2]]; rewrite R2;
              reflexivity|].
      split; [destruct R2 as [R2|[_ R2]]; rewrite R2; cbn; lia|].
      split; [project; rewrite C1, C2; reflexivity|].
      split; [reflexivity|]. split; [reflexivity|].
      eexists. split; [|reflexivity].
      apply or_else_not_empty. discriminate. }
  assert (R2' : requests evs2
                = [research_params P (market (ui s)) researchPlan])
    by (destruct R2 as [R2|[R2 _]]; [exact R2 | discriminate R2]).
  clear R2.
  assert (Hresearched :
            researched P s researchPlan
              ("Scanning " ++ App.to_text n_subs ++ " subreddits and "
               ++ App.to_text n_cats ++ " software categories...")
            = (Normal rawData,
               snd (researched P s researchPlan
                      ("Scanning " ++ App.to_text n_subs
                       ++ " subreddits and " ++ App.to_text n_cats
                       ++ " software categories...")))).
  { unfold researched, planned. rewrite E1.
    match type of E2 with
    | ?call = _ =>
        match goal with
        | |- _ = (_, snd _) => change (call = (Normal rawData, snd call))
        end
    end.
    rewrite E2. reflexivity. }
  rewrite bind_run, setStage_run. norm.
  rewrite bind_run, setProgressText_run. norm.
  rewrite bind_run.
  match goal with
  | |- context [analyzeSignals P ?m ?raw ?st] =>
      destruct (analysis_footprint P m raw st)
        as (c3 & w3 & evs3 & E3 & (S3 & C3 & R3))
  end.
  rewrite E3. norm.
  assert (Hanalyzed :
            analyzed P s researchPlan
              ("Scanning " ++ App.to_text n_subs ++ " subreddits and "
               ++ App.to_text n_cats ++ " software categories...") rawData
            = (c3, snd (analyzed P s researchPlan
                          ("Scanning " ++ App.to_text n_subs
                           ++ " subreddits and " ++ App.to_text n_cats
                           ++ " software categories...") rawData))).
  { unfold analyzed, researched, planned. rewrite E1.
    match type of E2 with
    | ?call = _ => change (snd (executeResearch _ _ _ _)) with (snd call)
    end.
    rewrite E2.
    match type of E3 with
    | ?call = _ =>
        match goal with
        | |- _ = (_, snd _) => change (call = (c3, snd call))
        end
    end.
    rewrite E3. reflexivity. }
  destruct c3 as [finalReport|e3].
  2:{ rewrite report_failure_run. norm.
      exists AnalysisFailed,
        ([StageSet PLANNING] ++ evs1 ++ [StageSet RESEARCHING] ++ evs2
         ++ [StageSet ANALYZING] ++ evs3
         ++ [ConsoleError "Research Error Details:" e3; StageSet ERROR])%list,
        researchPlan, rawData, JNull, (2 + List.length (requests evs3)).
      split; [reflexivity|].
      split; [|split; [|discriminate];
               split; [exact Hplanned|];
               eexists; split; [exact Hscan|];
               rewrite Hresearched, Hanalyzed; split; reflexivity].
      unfold run_shape. norm.
      split; [rewrite <- !app_assoc; reflexivity|].
      split; [project; rewrite S1, S2, S3; reflexivity|].
      split; [project; rewrite R1', R2'; destruct R3 as [R3|[_ R3]];
              rewrite R3; reflexivity|].
      split; [destruct R3 as [R3|[_ R3]]; rewrite R3; cbn; lia|].
      split; [project; rewrite C1, C2, C3; reflexivity|].
      split; [reflexivity|]. split; [reflexivity|].
      eexists. split; [|reflexivity].
      apply or_else_not_empty. discriminate. }
  assert (R3' : requests evs3 = [analysis_params (market (ui s)) rawData])
    by (destruct R3 as [R3|[R3 _]]; [exact R3 | discriminate R3]).
  clear R3.
  rewrite bind_run, setReport_run. norm.
  rewrite bind_run, setStage_run. norm.
  rewrite Hs. rewrite bind_run.
  match goal with
  | |- context [Supabase.incrementCredits P ?u ?st] =>
      destruct (incrementCredits_footprint P u st)
        as (w4 & evs4 & -> & (S4 & R4 & C4))
  end.
  norm. unfold App.detached, App.fetchProfile. rewrite bind_run.
  match goal with
  | |- context [Supabase.getProfile P ?u ?st] =>
      destruct (getProfile_footprint P u st)
        as (r5 & w5 & evs5 & -> & (S5 & R5 & C5))
  end.
  norm. rewrite setProfile_run. norm.
  exists RunCompleted,
    ([StageSet PLANNING] ++ evs1 ++ [StageSet RESEARCHING] ++ evs2
     ++ [StageSet ANALYZING] ++ evs3 ++ [StageSet COMPLETED]
     ++ [RpcIncrementCredits (user_id sess)] ++ evs4 ++ evs5)%list,
    researchPlan, rawData, finalReport, 3.
  split; [reflexivity|].
  split; [|split; [|reflexivity];
           split; [exact Hplanned|];
           eexists; split; [exact Hscan|];
           rewrite Hresearched, Hanalyzed; split; reflexivity].
  unfold run_shape. norm.
  split; [cbn [app]; rewrite <- !app_assoc; reflexivity|].
  split; [project; rewrite S1, S2, S3, S4, S5; reflexivity|].
  split; [project; rewrite R1', R2', R3', R4, R5; reflexivity|].
  split; [reflexivity|].
  split; [project; rewrite C1, C2, C3, C4, C5; reflexivity|].
  split; [reflexivity|]. split; [reflexivity|]. split; [reflexivity|].
  eexists. reflexivity.
Qed.

Lemma run_has_shape (s : state W) (sess : Session) :
  run_begins s sess ->
  exists e new researchPlan rawData k,
    fst (App.startResearch P s) = Normal tt
    /\ run_shape P s (snd (App.startResearch P s)) sess e new researchPlan
         rawData k.
Proof.
  intros Hb.
  destruct (run_has_results s sess Hb)
    as (e & new & researchPlan & rawData & finalReport & k & Hr & Hshape & _).
  exists e, new, researchPlan, rawData, k. split; assumption.
Qed.

End RunShape.

(** ** Runs from beginning to end *)

Section WholeRuns.

Context {W : Type} (P : Platform W).

Local Open Scope string_scope.

(** X1. A run that gets past the guards ends in one of two ways, and the
    handler returns normally in both.  Either the run state is [ERROR],
    the report in the state is null and a non-empty error text is set.
    Or the run state is [COMPLETED] and no error text is set; then the
    three stage calls of the run all returned (the research call and the
    analysis call from the state the handler had reached, with its
    progress text), the plan in the state is the value the planning call
    returned, which is not null, and the report in the state is the value
    the analysis call returned, whatever that value is.  It can be null: on an analysis answer that
    is the text null the run ends [COMPLETED] with a null report. *)
Theorem run_ends_completed_or_failed (s : state W) (sess : Session) :
  run_begins s sess ->
  let a' := ui (snd (App.startResearch P s)) in
  fst (App.startResearch P s) = Normal tt
  /\ ((stage a' = COMPLETED /\ error a' = None
       /\ exists researchPlan progress rawData finalReport,
            fst (planned P s) = Normal researchPlan
            /\ fst (researched P s researchPlan progress) = Normal rawData
            /\ fst (analyzed P s researchPlan progress rawData)
               = Normal finalReport
            /\ researchPlan <> JNull
            /\ Runtime.plan a' = Some researchPlan
            /\ report a' = Some finalReport)
      \/ (stage a' = ERROR /\ report a' = None
          /\ exists msg, msg <> "" /\ error a' = Some msg)).
Proof.
  intros Hb. cbv zeta.
  destruct (run_has_results P s sess Hb)
    as (e & new & researchPlan & rawData & finalReport & k & Hr
        & (_ & _ & _ & _ & _ & Hui) & Hres & Hrep).
  split; [exact Hr|].
  destruct e; try (right; exact Hui).
  left. destruct Hui as (H1 & H2 & H3 & _).
  destruct Hres as (Hp & progress & Hscan & Hre & Han).
  split; [exact H1|]. split; [exact H2|].
  exists researchPlan, progress, rawData, finalReport.
  split; [exact Hp|]. split; [exact Hre|]. split; [exact Han|].
  split; [intros ->; discriminate Hscan|].
  split; [exact H3 | apply Hrep; reflexivity].
Qed.

(** X2. The run states a run goes through are, in order, [PLANNING],
    [RESEARCHING], [ANALYZING], [COMPLETED], cut short by [ERROR] at the
    first failure: no state is entered twice, none is skipped, and the
    last one entered is the one the component is left in. *)
Theorem run_states_are_linear (s : state W) (sess : Session) :
  run_begins s sess ->
  exists new,
    trace (snd (App.startResearch P s)) = (trace s ++ new)%list
    /\ In (stages_entered new)
         [ [PLANNING; ERROR];
           [PLANNING; RESEARCHING; ERROR];
           [PLANNING; RESEARCHING; ANALYZING; ERROR];
           [PLANNING; RESEARCHING; ANALYZING; COMPLETED] ]
    /\ last (stages_entered new) IDLE
       = stage (ui (snd (App.startResearch P s))).
Proof.
  intros Hb.
  destruct (run_has_shape P s sess Hb)
    as (e & new & researchPlan & rawData & k & _ & Ht & Hst & _ & _ & _ & Hui).
  exists new. split; [exact Ht|]. rewrite Hst.
  destruct e; cbn [stages_of In last];
    (split; [tauto|]);
    try (destruct Hui as (-> & _); reflexivity).
Qed.

(** X3. The store is asked to count a credit exactly when the run ends
    [COMPLETED], and then once, for the user of the session; a run that
    ends in [ERROR] asks for none. *)
Theorem credit_counted_only_on_completion (s : state W) (sess : Session) :
  run_begins s sess ->
  exists new,
    trace (snd (App.startResearch P s)) = (trace s ++ new)%list
    /\ credit_calls new
       = if ResearchStage_eqb (stage (ui (snd (App.startResearch P s))))
              COMPLETED
         then [user_id sess] else [].
Proof.
  intros Hb.
  destruct (run_has_shape P s sess Hb)
    as (e & new & researchPlan & rawData & k & _ & Ht & _ & _ & _ & Hc & Hui).
  exists new. split; [exact Ht|]. rewrite Hc.
  destruct e; destruct Hui as (-> & _); reflexivity.
Qed.

(** X4. A run makes at most three requests to the backend, one per stage
    and in the order planning, research, analysis, and repeats none.  The
    research request is built from the plan that the planning call of
    the run returned, and the analysis request from the findings that
    the research call of the run returned, from the state the handler
    had reached.  A run that ends [COMPLETED]
    made all three. *)
Theorem run_requests_in_order (s : state W) (sess : Session) :
  run_begins s sess ->
  let m := market (ui s) in
  exists new k,
    trace (snd (App.startResearch P s)) = (trace s ++ new)%list
    /\ k <= 3
    /\ (stage (ui (snd (App.startResearch P s))) = COMPLETED -> k = 3)
    /\ (k <= 1 -> requests new = firstn k [planning_params m])
    /\ (2 <= k ->
        exists researchPlan progress,
          fst (planned P s) = Normal researchPlan
          /\ (k = 2 ->
              requests new
              = [planning_params m; research_params P m researchPlan])
          /\ (k = 3 ->
              exists rawData,
                fst (researched P s researchPlan progress) = Normal rawData
                /\ requests new
                   = [planning_params m; research_params P m researchPlan;
                      analysis_params m rawData])).
Proof.
  intros Hb. cbv zeta.
  destruct (run_has_results P s sess Hb)
    as (e & new & researchPlan & rawData & finalReport & k & _
        & (Ht & _ & Hq & Hk & _ & Hui) & Hres & _).
  exists new, k. split; [exact Ht|].
  split; [destruct e; cbn in Hk; lia|].
  split; [destruct e; cbn in Hk; destruct Hui as (Hst & _); rewrite Hst;
          try discriminate; auto|].
  split.
  - intros Hle. destruct k as [|[|k]]; [| |lia]; rewrite Hq; reflexivity.
  - intros Hge. destruct e; cbn in Hk; try lia.
    + destruct Hres as (Hp & progress & Hscan & _).
      exists researchPlan, progress.
      split; [exact Hp|].
      split; intros ->; [rewrite Hq; reflexivity | lia].
    + destruct Hres as (Hp & progress & Hscan & Hre & _).
      exists researchPlan, progress.
      split; [exact Hp|].
      split; intros ->; [rewrite Hq; reflexivity|].
      exists rawData. split; [exact Hre | rewrite Hq; reflexivity].
    + destruct Hres as (Hp & progress & Hscan & Hre & _).
      exists researchPlan, progress.
      split; [exact Hp|].
      split; intros ->; [discriminate Hk|].
      exists rawData. split; [exact Hre | rewrite Hq; reflexivity].
Qed.

End WholeRuns.

(** ** The guards of the run handler *)

Section Guards.

Context {W : Type} (P : Platform W).

Local Open Scope string_scope.

(** One leading white-space byte is what [trim] removes first. *)
Lemma strip_one_space (c : ascii) (l : list ascii) :
  ascii_space c -> Js.strip_one Js.white_space (c :: l) = Some l.
Proof.
  unfold ascii_space. cbn [In]. intros H.
  assert (E : c = ascii_of_nat (nat_of_ascii c))
    by (symmetry; apply ascii_nat_embedding).
  rewrite E.
  destruct H as [<-|[<-|[<-|[<-|[<-|[<-|[]]]]]]]; vm_compute; reflexivity.
Qed.

Lemma trim_left_spaces (l : list ascii) (fuel : nat) :
  Forall ascii_space l -> List.length l <= fuel ->
  Js.trim_left Js.white_space fuel l = [].
Proof.
  revert fuel. induction l as [|c l IH]; intros fuel Hall Hlen.
  - destruct fuel; reflexivity.
  - destruct fuel as [|fuel]; [cbn in Hlen; lia|].
    inversion Hall as [|? ? Hc Hl]; subst.
    cbn [Js.trim_left]. rewrite (strip_one_space c l Hc).
    apply IH; [assumption | cbn in Hlen; lia].
Qed.

(** A text of spaces, tabs and line breaks trims to the empty text. *)
Lemma trim_of_spaces (m : string) :
  Forall ascii_space (list_ascii_of_string m) -> Js.trim m = "".
Proof.
  intros H. unfold Js.trim, Js.trimStart.
  rewrite (trim_left_spaces _ _ H (le_n _)). reflexivity.
Qed.

(** X5. A market made only of spaces, tabs and line breaks (the empty
    market included) makes the handler return at once: the state is left
    exactly as it was, whoever is signed in; not even the sign-in dialog
    is opened. *)
Theorem blank_market_does_nothing (s : state W) :
  Forall ascii_space (list_ascii_of_string (market (ui s))) ->
  App.startResearch P s = (Normal tt, s).
Proof.
  intros H. unfold App.startResearch. rewrite bind_run. unfold App.captured.
  rewrite (trim_of_spaces _ H). reflexivity.
Qed.

(** X6. Without a session a market that is not blank opens the sign-in
    dialog and does nothing else: no stage is entered, nothing is asked
    of the backend or the store, and the rest of the component state is
    kept, whatever profile it holds. *)
Theorem no_session_opens_the_dialog (s : state W) :
  Js.trim (market (ui s)) <> "" ->
  session (ui s) = None ->
  App.startResearch P s
  = (Normal tt,
     mkState (world s)
       (mkApp (market (ui s)) (stage (ui s)) (Runtime.plan (ui s))
          (report (ui s)) (error (ui s)) (progressText (ui s)) None
          (profile (ui s)) true)
       (trace s)).
Proof.
  intros Hm Hs. unfold App.startResearch. rewrite bind_run.
  unfold App.captured. rewrite (not_blank _ Hm), Hs.
  unfold App.setShowAuthModal, modify_ui. rewrite Hs. reflexivity.
Qed.

(** X7. The run handler never throws: from every state, with every
    platform, it returns normally. *)
Theorem startResearch_never_throws (s : state W) :
  fst (App.startResearch P s) = Normal tt.
Proof.
  destruct (string_dec (Js.trim (market (ui s))) "") as [Hm|Hm].
  - unfold App.startResearch. rewrite bind_run. unfold App.captured.
    rewrite Hm. reflexivity.
  - destruct (session (ui s)) as [sess|] eqn:Hs.
    + destruct (App.credit_limit_reached (profile (ui s))) eqn:Hg.
      * unfold App.startResearch. rewrite bind_run. unfold App.captured.
        rewrite (not_blank _ Hm), Hs, Hg. reflexivity.
      * destruct (run_has_shape P s sess (conj Hm (conj Hs Hg)))
          as (e & new & researchPlan & rawData & k & Hr & _).
        exact Hr.
    + unfold App.startResearch. rewrite bind_run. unfold App.captured.
      rewrite (not_blank _ Hm), Hs. reflexivity.
Qed.

End Guards.

(** ** The stages, further *)

Ltac ui_norm :=
  cbv beta iota;
  cbn [fst snd world ui trace market stage Runtime.plan report Runtime.error
       progressText session profile showAuthModal started requested logged].

Section StagesFurther.

Context {W : Type} (P : Platform W).

Local Open Scope string_scope.

(** X8. When the backend rejects the planning request with a message
    that holds 429 and neither 401 nor 403, the planning stage reports
    the rate-limit message; a message that holds 429 together with 401 or
    403 is reported as an invalid credential. *)
Theorem rate_limit_is_reported_by_planning
    (market : string) (s : state W) (e : thrown) (w' : W) :
  key_usable (GEMINI_API_KEY P) ->
  backend_rejects P (planning_params market) s e w' ->
  rate_mark (message_of e) = true ->
  fst (generateResearchPlan P market s)
  = Throw (Error_ (if credential_mark (message_of e)
                   then invalid_key_message else rate_limit_message)).
Proof.
  intros Hk Hb Hr.
  unfold generateResearchPlan, try_catch, planning_attempt.
  rewrite (call_rejected P (planning_params market) s e w' _ Hk Hb).
  destruct (planning_failure_reports e
              (requested P (planning_params market) s w'))
    as (msg & -> & Hc & Hrate & _).
  cbn [fst]. destruct (credential_mark (message_of e)).
  - rewrite (Hc eq_refl). reflexivity.
  - rewrite (Hrate eq_refl Hr). reflexivity.
Qed.

Lemma planning_returns_parsed
    (market text : string) (v : value) (s : state W) (w' : W) :
  key_usable (GEMINI_API_KEY P) ->
  backend_answers P (planning_params market) s {| text := Some text |} w' ->
  text <> "" ->
  JSON_parse P text = inl v ->
  generateResearchPlan P market s
  = (Normal v, requested P (planning_params market) s w').
Proof.
  intros Hk Hb Hne Hparse.
  unfold generateResearchPlan, try_catch, planning_attempt.
  rewrite (call_answered P (planning_params market) s _ w' _ Hk Hb).
  cbn [Runtime.text]. rewrite (truthy_text text Hne).
  cbn [negb Js.interpolate]. unfold parse_json. rewrite Hparse. reflexivity.
Qed.

Lemma analysis_returns_parsed
    (market rawResearch text : string) (v : value) (s : state W) (w' : W) :
  key_usable (GEMINI_API_KEY P) ->
  backend_answers P (analysis_params market rawResearch) s
    {| text := Some text |} w' ->
  text <> "" ->
  JSON_parse P text = inl v ->
  analyzeSignals P market rawResearch s
  = (Normal v, requested P (analysis_params market rawResearch) s w').
Proof.
  intros Hk Hb Hne Hparse.
  unfold analyzeSignals, try_catch, analysis_attempt.
  rewrite (call_answered P (analysis_params market rawResearch) s _ w' _ Hk Hb).
  cbn [Runtime.text]. rewrite (truthy_text text Hne).
  cbn [negb Js.interpolate]. unfold parse_json. rewrite Hparse. reflexivity.
Qed.

(** X9. Each of the two structured stages returns whatever its answer
    parses to: for every non-empty text that the engine parses, the
    parsed value is returned as it is and nothing is logged, whether or
    not the value matches the schema that was asked for.  Each stage on
    its own: nothing is asked of the request of the other stage. *)
Theorem structured_stages_return_any_parsed_value
    (market rawResearch text : string) (v : value) (s : state W) (w' : W) :
  key_usable (GEMINI_API_KEY P) ->
  text <> "" ->
  JSON_parse P text = inl v ->
  (backend_answers P (planning_params market) s {| text := Some text |} w' ->
   generateResearchPlan P market s
   = (Normal v, requested P (planning_params market) s w'))
  /\ (backend_answers P (analysis_params market rawResearch) s
        {| text := Some text |} w' ->
      analyzeSignals P market rawResearch s
      = (Normal v, requested P (analysis_params market rawResearch) s w')).
Proof.
  intros Hk Hne Hparse. split; intros Hb.
  - apply (planning_returns_parsed market text v s w'); assumption.
  - apply (analysis_returns_parsed market rawResearch text v s w');
      assumption.
Qed.

(** X10. When the search-augmented request is answered with a text that
    is not empty, [executeResearch] returns that text unchanged and
    logs nothing. *)
Theorem findings_are_the_answer
    (market findings : string) (plan : value) (s : state W) (w' : W) :
  key_usable (GEMINI_API_KEY P) ->
  findings <> "" ->
  backend_answers P (research_params P market plan) s
    {| text := Some findings |} w' ->
  executeResearch P market plan s
  = (Normal findings, requested P (research_params P market plan) s w').
Proof.
  intros Hk Hne Hb.
  unfold executeResearch, try_catch, research_attempt. cbv zeta.
  rewrite (call_answered P (research_params P market plan) s _ w' _ Hk Hb).
  cbn [Runtime.text]. destruct findings; [congruence | reflexivity].
Qed.

End StagesFurther.

(** ** Runs that fail before the second request *)

Section FailedRuns.

Context {W : Type} (P : Platform W).

Local Open Scope string_scope.

Lemma planning_without_key (market : string) (s : state W) :
  key_unusable (GEMINI_API_KEY P) ->
  generateResearchPlan P market s
  = (Throw (Error_ (planning_prefix ++ missing_key_message)),
     mkState (world s) (ui s)
       (trace s
        ++ [ ConsoleErrorDetails "Gemini Auth Check Failed:"
               (auth_details (GEMINI_API_KEY P));
             ConsoleError "Detailed Planning Error:"
               (Error_ missing_key_message) ])).
Proof.
  intros Hk. pose proof missing_key_has_no_marker as (M3 & M1 & M9).
  unfold generateResearchPlan, try_catch, planning_attempt.
  rewrite bind_run, (getAI_unusable P s Hk).
  rewrite planning_failure_plain by assumption.
  cbn [world ui trace message_of Js.interpolate].
  rewrite <- app_assoc. reflexivity.
Qed.

(** X11. With a credential the check turns away, a run that gets past
    the guards ends in [ERROR] at once: the error text is the missing-key
    message behind the planning prefix, the backend and the store are
    never asked, and no credit is counted. *)
Theorem run_without_key_fails_at_planning (s : state W) (sess : Session) :
  run_begins s sess ->
  key_unusable (GEMINI_API_KEY P) ->
  App.startResearch P s
  = (Normal tt,
     mkState (world s)
       (mkApp (market (ui s)) ERROR None None
          (Some (planning_prefix ++ missing_key_message))
          "Planning your research strategy..." (session (ui s))
          (profile (ui s)) (showAuthModal (ui s)))
       (trace s
        ++ [ StageSet PLANNING;
             ConsoleErrorDetails "Gemini Auth Check Failed:"
               (auth_details (GEMINI_API_KEY P));
             ConsoleError "Detailed Planning Error:"
               (Error_ missing_key_message);
             ConsoleError "Research Error Details:"
               (Error_ (planning_prefix ++ missing_key_message));
             StageSet ERROR ])).
Proof.
  intros Hb Hk. rewrite (run_begins_pipeline P s sess Hb).
  unfold try_catch, App.pipeline. rewrite bind_run.
  rewrite (planning_without_key (market (ui s)) (started s) Hk).
  rewrite report_failure_run. ui_norm.
  rewrite <- !app_assoc. reflexivity.
Qed.

(** Reading [subreddits.length] off a value without that member throws:
    on [null] at the first read, otherwise at the second. *)
Lemma read_length_missing (v : value) :
  Json.get "subreddits" v = None ->
  read_length P v "subreddits"
  = inl (TypeError_
           (match v with
            | JNull => Runtime.cannot_read P true "subreddits"
            | _ => Runtime.cannot_read P false "length"
            end)).
Proof.
  unfold read_length. destruct v; cbn; try reflexivity.
  intros ->. reflexivity.
Qed.

(** X12. A planning answer that parses to a value without a
    [subreddits] member is accepted by the planning stage and ends the
    run while the progress text is built: the run state is [ERROR], the
    error text is the engine's [TypeError] message, the plan stays in the
    state, the backend was asked once and no credit is counted. *)
Theorem plan_without_subreddits_ends_the_run
    (s : state W) (sess : Session) (text : string) (v : value) (w1 : W) :
  run_begins s sess ->
  key_usable (GEMINI_API_KEY P) ->
  backend_answers P (planning_params (market (ui s))) (started s)
    {| text := Some text |} w1 ->
  text <> "" ->
  JSON_parse P text = inl v ->
  Json.get "subreddits" v = None ->
  let e := TypeError_
             (match v with
              | JNull => Runtime.cannot_read P true "subreddits"
              | _ => Runtime.cannot_read P false "length"
              end) in
  App.startResearch P s
  = (Normal tt,
     mkState w1
       (mkApp (market (ui s)) ERROR (Some v) None
          (Some (Js.or_else (message_of e) App.unexpected_error_message))
          "Planning your research strategy..." (session (ui s))
          (profile (ui s)) (showAuthModal (ui s)))
       (trace s
        ++ [ StageSet PLANNING;
             GenerateContent (client P) (planning_params (market (ui s)));
             StageSet RESEARCHING;
             ConsoleError "Research Error Details:" e;
             StageSet ERROR ])).
Proof.
  intros Hb Hk Hans Hne Hparse Hget. cbv zeta.
  rewrite (run_begins_pipeline P s sess Hb).
  unfold try_catch, App.pipeline. rewrite bind_run.
  rewrite (planning_returns_parsed P (market (ui s)) text v (started s) w1
             Hk Hans Hne Hparse).
  ui_norm.
  rewrite bind_run, setPlan_run. ui_norm.
  rewrite bind_run, setStage_run. ui_norm.
  rewrite reads_run, (read_length_missing v Hget).
  rewrite report_failure_run. ui_norm.
  rewrite <- !app_assoc. reflexivity.
Qed.

Lemma research_rejected
    (market : string) (plan : value) (s : state W) (e : thrown) (w' : W) :
  key_usable (GEMINI_API_KEY P) ->
  backend_rejects P (research_params P market plan) s e w' ->
  executeResearch P market plan s
  = (Throw (Error_ (execution_prefix ++ Js.interpolate (message_of e))),
     logged "Error in executeResearch:" e
       (requested P (research_params P market plan) s w')).
Proof.
  intros Hk Hb. unfold executeResearch, try_catch, research_attempt.
  cbv zeta.
  rewrite (call_rejected P (research_params P market plan) s e w' _ Hk Hb).
  reflexivity.
Qed.

(** On a value that matches the plan schema the two length reads give
    the numbers of subreddits and of software categories. *)
Lemma read_lengths_of_conforming (v : value) :
  conforms RESEARCH_PLAN_SCHEMA v = true ->
  exists p,
    as_ResearchPlan v = Some p
    /\ read_length P v "subreddits"
       = inr (App.Number_ (List.length (subreddits p)))
    /\ read_length P v "softwareCategories"
       = inr (App.Number_ (List.length (softwareCategories p))).
Proof.
  intros Hc. destruct (conforming_plan v Hc) as (p & Hp & Hm).
  exists p. split; [exact Hp|].
  destruct Hm as ((subs & Hsubs & Hall) & Hcats & _).
  destruct v as [| | | |?|members]; try discriminate Hsubs.
  cbn [Json.get] in Hsubs, Hcats.
  unfold read_length, read_member. rewrite Hsubs, Hcats.
  cbn [read_member_of read_member String.eqb Ascii.eqb Bool.eqb].
  rewrite (Forall2_length Hall), length_map. split; reflexivity.
Qed.

(** X13. When the plan matches the schema and the backend then rejects
    the research request, the run ends in [ERROR] with the research
    prefix before the backend's message; the progress text left on the
    state counts the subreddits and the software categories of the plan;
    two requests were made and no credit is counted. *)
Theorem research_failure_after_a_good_plan
    (s : state W) (sess : Session) (text : string) (v : value) (e : thrown)
    (w1 w2 : W) :
  run_begins s sess ->
  key_usable (GEMINI_API_KEY P) ->
  backend_answers P (planning_params (market (ui s))) (started s)
    {| text := Some text |} w1 ->
  text <> "" ->
  JSON_parse P text = inl v ->
  conforms RESEARCH_PLAN_SCHEMA v = true ->
  generateContent P (client P) (research_params P (market (ui s)) v) w1
  = (Rejected e, w2) ->
  exists p,
    as_ResearchPlan v = Some p
    /\ App.startResearch P s
       = (Normal tt,
          mkState w2
            (mkApp (market (ui s)) ERROR (Some v) None
               (Some (execution_prefix ++ Js.interpolate (message_of e)))
               ("Scanning " ++ Js.decimal (List.length (subreddits p))
                ++ " subreddits and "
                ++ Js.decimal (List.length (softwareCategories p))
                ++ " software categories...")
               (session (ui s)) (profile (ui s)) (showAuthModal (ui s)))
            (trace s
             ++ [ StageSet PLANNING;
                  GenerateContent (client P)
                    (planning_params (market (ui s)));
                  StageSet RESEARCHING;
                  GenerateContent (client P)
                    (research_params P (market (ui s)) v);
                  ConsoleError "Error in executeResearch:" e;
                  ConsoleError "Research Error Details:"
                    (Error_ (execution_prefix
                             ++ Js.interpolate (message_of e)));
                  StageSet ERROR ])).
Proof.
  intros Hb Hk Hans Hne Hparse Hconf Hrej.
  destruct (read_lengths_of_conforming v Hconf) as (p & Hp & Hn1 & Hn2).
  exists p. split; [exact Hp|].
  rewrite (run_begins_pipeline P s sess Hb).
  unfold try_catch, App.pipeline. rewrite bind_run.
  rewrite (planning_returns_parsed P (market (ui s)) text v (started s) w1
             Hk Hans Hne Hparse).
  ui_norm.
  rewrite bind_run, setPlan_run. ui_norm.
  rewrite bind_run, setStage_run. ui_norm.
  rewrite reads_run, Hn1, Hn2.
  rewrite bind_run, setProgressText_run. ui_norm.
  rewrite bind_run.
  match goal with
  | |- context [executeResearch P ?m ?pl ?st] =>
      rewrite (research_rejected m pl st e w2 Hk Hrej)
  end.
  rewrite report_failure_run. ui_norm.
  rewrite <- !app_assoc. reflexivity.
Qed.

End FailedRuns.

(** ** The store and the session *)

Section StoreAndSession.

Context {W : Type} (P : Platform W).

Local Open Scope string_scope.

(** X14. [incrementCredits] never throws, whatever the store does: it
    asks the store once for the user it was given, returns normally and
    leaves the component state as it was; a failure of the store shows
    only on the console. *)
Theorem incrementCredits_never_throws (userId : string) (s : state W) :
  exists s' evs,
    Supabase.incrementCredits P userId s = (Normal tt, s')
    /\ ui s' = ui s
    /\ trace s' = (trace s ++ RpcIncrementCredits userId :: evs)%list
    /\ credit_calls evs = [] /\ requests evs = []
    /\ stages_entered evs = [].
Proof.
  destruct (incrementCredits_footprint P userId s)
    as (w' & evs & E & (Hs & Hr & Hc)).
  eexists _, evs. split; [exact E|]. cbn [ui trace]. auto.
Qed.

Lemma getProfile_of_failing_store (userId : string) (s : state W) :
  (exists e, store_gives P userId s (Rejected e))
  \/ (exists d err,
        store_gives P userId s
          (Resolved {| data := d; error_of_single := Some err |})) ->
  exists w' evs,
    Supabase.getProfile P userId s
    = (Normal None, mkState w' (ui s) (trace s ++ evs)).
Proof.
  unfold store_gives, Supabase.getProfile, try_catch, bind, remote.
  destruct (profiles_single P userId (world s)) as [r w'].
  cbn [fst]. intros [(e & ->)|(d & err & ->)]; cbn [error_of_single].
  - cbn. eexists _, _. rewrite <- app_assoc. reflexivity.
  - destruct (String.eqb (code err) "PGRST116"); cbn; eexists _, _;
      rewrite <- ?app_assoc; reflexivity.
Qed.

(** X15. When the profile cannot be loaded at sign-in (the store rejects
    the call or answers with an error of any code), both session
    callbacks leave the session set and the profile [null], whatever
    profile was loaded before; a market that is not blank then starts a
    run without any credit check. *)
Theorem profile_load_failure_lifts_the_gate (s : state W) (sess : Session) :
  (exists e, store_gives P (user_id sess) s (Rejected e))
  \/ (exists d err,
        store_gives P (user_id sess) s
          (Resolved {| data := d; error_of_single := Some err |})) ->
  SessionEffect.sessionLoaded P (Some sess) s
  = SessionEffect.authStateChanged P (Some sess) s
  /\ let s1 := snd (SessionEffect.authStateChanged P (Some sess) s) in
     session (ui s1) = Some sess
     /\ profile (ui s1) = None
     /\ (Js.trim (market (ui s)) <> "" ->
         App.startResearch P s1
         = try_catch (App.pipeline P (ui s1)) App.report_failure
             (started s1)).
Proof.
  intros Hfail. split; [reflexivity|]. cbv zeta.
  assert (E : exists w' evs,
    SessionEffect.authStateChanged P (Some sess) s
    = (Normal tt,
       mkState w'
         (mkApp (market (ui s)) (stage (ui s)) (Runtime.plan (ui s))
            (report (ui s)) (error (ui s)) (progressText (ui s)) (Some sess)
            None (showAuthModal (ui s)))
         (trace s ++ evs))).
  { unfold SessionEffect.authStateChanged, SessionEffect.setSession.
    rewrite bind_run. unfold modify_ui. ui_norm.
    unfold App.detached, App.fetchProfile. rewrite bind_run.
    match goal with
    | |- context [Supabase.getProfile P ?u ?st] =>
        destruct (getProfile_of_failing_store u st Hfail) as (w' & evs & ->)
    end.
    ui_norm. rewrite setProfile_run. ui_norm. eexists _, _. reflexivity. }
  destruct E as (w' & evs & E). rewrite E. cbn [snd].
  match goal with
  | |- context [App.startResearch P ?st] => set (s1 := st)
  end.
  split; [reflexivity|]. split; [reflexivity|].
  intros Hm. apply (run_begins_pipeline P s1 sess).
  split; [exact Hm|]. split; reflexivity.
Qed.

(** X16. At sign-out the callback drops the session and the loaded
    profile without asking the store; a market that is not blank then
    only opens the sign-in dialog. *)
Theorem sign_out_drops_the_profile (s : state W) :
  let a := ui s in
  let signed_out (dialog : bool) :=
    mkState (world s)
      (mkApp (market a) (stage a) (Runtime.plan a) (report a) (error a)
         (progressText a) None None dialog)
      (trace s) in
  SessionEffect.authStateChanged P None s
  = (Normal tt, signed_out (showAuthModal a))
  /\ (Js.trim (market a) <> "" ->
      App.startResearch P (signed_out (showAuthModal a))
      = (Normal tt, signed_out true)).
Proof.
  cbv zeta. split; [reflexivity|].
  intros Hm. unfold App.startResearch. rewrite bind_run.
  unfold App.captured. ui_norm. rewrite (not_blank _ Hm). reflexivity.
Qed.

End StoreAndSession.

(** ** What is on screen, and the configuration *)

Section Screen.

Context {W : Type} (P : Platform W).

Local Open Scope string_scope.

(** X17. The credits badge and the free-tier gate agree: a pro profile
    reads Unlimited and is never refused; a free profile reads the
    number [3 - credits_used] followed by left, and is refused exactly
    when that number is zero or less.  Past the limit the badge shows a
    negative number. *)
Theorem credits_badge_agrees_with_the_gate (p : UserProfile) :
  (is_pro p = true ->
   View.creditsLabel p = "Unlimited"
   /\ App.credit_limit_reached (Some p) = false)
  /\ (is_pro p = false ->
      View.creditsLabel p = View.number_text (3 - credits_used p) ++ " left"
      /\ (App.credit_limit_reached (Some p) = true
          <-> (3 - credits_used p <= 0)%Z)
      /\ ((3 < credits_used p)%Z ->
          String.prefix "-" (View.creditsLabel p) = true)).
Proof.
  unfold View.creditsLabel, App.credit_limit_reached. split; intros ->.
  - split; reflexivity.
  - split; [reflexivity|]. cbn [negb andb]. split.
    + rewrite Z.leb_le. lia.
    + intros H. unfold View.number_text.
      assert (E : (3 - credits_used p <? 0)%Z = true) by (apply Z.ltb_lt; lia).
      rewrite E. cbn [append prefix]. destruct (ascii_dec "-" "-"); [|congruence].
      destruct (_ ++ " left"); reflexivity.
Qed.

Lemma conforming_report_is_an_object (v : value) :
  conforms SIGNAL_REPORT_SCHEMA v = true -> exists members, v = JObject members.
Proof. destruct v; try discriminate. eauto. Qed.

(** X18. The conditions of the main area, on the state a run leaves.
    The branch of the progress display is never taken.  After a run that
    ended in [ERROR] the branch of the input form is taken, the condition
    of its error line holds with the error text, which is not empty, and
    the condition of the report section is false.  After a run that ended
    [COMPLETED] the branch taken is [null], so neither the input form nor
    the error line is evaluated, and the condition of the report section
    is the truthiness of the report: it holds for every report that
    matches the schema, and it is false for a report that is null, false,
    zero or the empty text, in which case nothing of the main area is on
    screen.  What the markup behind a condition that holds does with the
    report is not part of this. *)
Theorem screen_after_a_run (s : state W) (sess : Session)
    (denotes_zero : string -> bool) :
  run_begins s sess ->
  let a' := ui (snd (App.startResearch P s)) in
  (stage a' = ERROR
   /\ View.main_branch a' = View.Hero
   /\ View.report_condition denotes_zero a' = false
   /\ exists msg, msg <> "" /\ View.error_line a' = Some msg)
  \/ (stage a' = COMPLETED
      /\ View.main_branch a' = View.NoPanel
      /\ View.error_line a' = None
      /\ exists finalReport,
           report a' = Some finalReport
           /\ View.report_condition denotes_zero a'
              = View.truthy_value denotes_zero finalReport
           /\ (conforms SIGNAL_REPORT_SCHEMA finalReport = true ->
               View.report_condition denotes_zero a' = true)).
Proof.
  intros Hb. cbv zeta.
  destruct (run_has_shape P s sess Hb)
    as (e & new & researchPlan & rawData & k & _ & _ & _ & _ & _ & _ & Hui).
  assert (Hfailed : left_failed (ui (snd (App.startResearch P s))) ->
    stage (ui (snd (App.startResearch P s))) = ERROR
    /\ View.main_branch (ui (snd (App.startResearch P s))) = View.Hero
    /\ View.report_condition denotes_zero (ui (snd (App.startResearch P s)))
       = false
    /\ exists msg, msg <> ""
         /\ View.error_line (ui (snd (App.startResearch P s))) = Some msg).
  { intros (Hst & Hrep & msg & Hne & Herr).
    unfold View.error_line, View.report_condition, View.main_branch.
    rewrite Hst, Herr. cbn. split; [reflexivity|].
    split; [reflexivity|]. split; [reflexivity|].
    exists msg. split; [exact Hne|]. destruct msg; [congruence|reflexivity]. }
  destruct e; try (left; apply Hfailed; exact Hui).
  right. destruct Hui as (Hst & Herr & _ & finalReport & Hrep).
  unfold View.error_line, View.report_condition, View.main_branch.
  rewrite Hst, Herr, Hrep. cbn. split; [reflexivity|].
  split; [reflexivity|]. split; [reflexivity|].
  exists finalReport. split; [reflexivity|]. split; [reflexivity|].
  intros Hc. destruct (conforming_report_is_an_object _ Hc) as (ms & ->).
  reflexivity.
Qed.

(** X19. The storage client is never created with an empty address or
    key.  When the warning is not printed the client gets exactly the
    configured address and key, and the address is not the placeholder;
    whenever the placeholder address is used, or the key is missing or
    empty, the warning is printed. *)
Theorem storage_client_fallback_is_announced (url anonKey : Js.optstr) :
  Config.client_url url <> "" /\ Config.client_key anonKey <> ""
  /\ (Config.warns url anonKey = false ->
      url = Some (Config.client_url url)
      /\ anonKey = Some (Config.client_key anonKey)
      /\ Config.client_url url <> Config.placeholder_url)
  /\ (Config.client_url url = Config.placeholder_url
      \/ Js.truthy anonKey = false ->
      Config.warns url anonKey = true).
Proof.
  unfold Config.client_url, Config.client_key, Config.warns.
  split; [apply or_else_not_empty; discriminate|].
  split; [apply or_else_not_empty; discriminate|].
  destruct url as [[|c u]|], anonKey as [[|d k]|];
    cbn [Js.truthy Js.or_else negb orb Js.strict_eq];
    (split; [try discriminate | try (intros _; reflexivity)]).
  - intros H. split; [reflexivity|]. split; [reflexivity|].
    intros E. rewrite E, String.eqb_refl in H. discriminate H.
  - intros [E|E]; [|discriminate E]. rewrite E. apply String.eqb_refl.
Qed.

(** X20. The configuration check of the component and the credential
    check of the stages disagree on two keys.  When the component counts
    itself configured, [getAI] still throws the missing-key error exactly
    for the placeholder key and for the text undefined, and hands out
    the client for every other key. *)
Theorem configured_yet_refused (s : state W) (url anonKey : Js.optstr) :
  Config.isConfigured (Config.configStatus (GEMINI_API_KEY P) url anonKey)
  = true ->
  let odd := GEMINI_API_KEY P = Some "MY_GEMINI_API_KEY"
             \/ GEMINI_API_KEY P = Some "undefined" in
  (odd -> fst (getAI P s) = Throw (Error_ missing_key_message))
  /\ (~ odd -> getAI P s = (Normal (client P), s)).
Proof.
  unfold Config.isConfigured, Config.configStatus. cbn [Config.gemini].
  intros H. apply andb_true_iff in H as [H _].
  apply andb_true_iff in H as [H _]. cbv zeta. split.
  - intros Hodd. rewrite getAI_unusable; [reflexivity|].
    unfold key_unusable. tauto.
  - intros Hodd. apply getAI_usable.
    destruct (GEMINI_API_KEY P) as [v|]; [|discriminate H].
    exists v. split; [reflexivity|].
    split; [intros ->; discriminate H|].
    split; intros ->; apply Hodd; auto.
Qed.

(** X21. The build never leaves the key absent: whatever [loadEnv]
    returned, the bundle holds a string in place of the key.  It holds
    what [loadEnv] returned when that is not empty.  When neither
    [loadEnv] nor the process environment gives a value that is not
    empty it holds the empty text; the component then does not count
    itself configured and the credential check fails.  When [loadEnv]
    returned the placeholder the bundle holds the placeholder, which
    passes the component's check of the key and fails the credential
    check. *)
Theorem build_resolves_the_key (from_loadEnv from_process url anonKey : Js.optstr) :
  GEMINI_API_KEY P = Config.defined from_loadEnv from_process ->
  (exists v, GEMINI_API_KEY P = Some v)
  /\ (Js.truthy from_loadEnv = true -> GEMINI_API_KEY P = from_loadEnv)
  /\ (Js.truthy from_loadEnv = false -> Js.truthy from_process = false ->
      GEMINI_API_KEY P = Some ""
      /\ key_unusable (GEMINI_API_KEY P)
      /\ Config.isConfigured
           (Config.configStatus (GEMINI_API_KEY P) url anonKey) = false)
  /\ (from_loadEnv = Some "MY_GEMINI_API_KEY" ->
      GEMINI_API_KEY P = Some "MY_GEMINI_API_KEY"
      /\ key_unusable (GEMINI_API_KEY P)
      /\ Config.gemini (Config.configStatus (GEMINI_API_KEY P) url anonKey)
         = true).
Proof.
  intros ->. unfold Config.defined, Config.resolve.
  split; [eauto|].
  destruct from_loadEnv as [[|c a]|], from_process as [[|d b]|];
    cbn [Js.truthy Js.or_else];
    repeat split; try discriminate; try reflexivity;
    unfold key_unusable; auto;
    try (intros [= -> ->]; auto).
Qed.

End Screen.

(** * Further concrete runs *)

(** The visitor of the scenario gets past the three guards. *)
Lemma s0_begins : run_begins s0 alice.
Proof. split; [vm_compute; discriminate|]. split; reflexivity. Defined.

(** X1 on a run whose analysis answer is the text null, and on a run
    that the backend refuses: the first ends with the report the analysis
    call returned, which is null. *)
Lemma run_ends_witness :
  report (ui (snd (App.startResearch P_null_report s0))) = Some JNull
  /\ fst (App.startResearch P_403 s0) = Normal tt.
Proof.
  pose proof (run_ends_completed_or_failed P_null_report s0 alice s0_begins)
    as H1.
  pose proof (run_ends_completed_or_failed P_403 s0 alice s0_begins) as H2.
  cbv zeta in H1, H2. destruct H1 as [_ H1]. destruct H2 as [H2 _].
  split; [|exact H2].
  destruct H1 as [(_ & _ & researchPlan & progress & rawData & finalReport
                   & Hp & Hre & Han & _ & _ & Hrep)|(Hst & _)];
    [|vm_compute in Hst; discriminate Hst].
  assert (E1 : researchPlan = gym_plan)
    by (vm_compute in Hp; injection Hp as <-; reflexivity).
  subst researchPlan.
  assert (E3 : rawData = gym_findings)
    by (vm_compute in Hre; injection Hre as <-; reflexivity).
  subst rawData.
  assert (E4 : finalReport = JNull)
    by (vm_compute in Han; injection Han as <-; reflexivity).
  subst finalReport. exact Hrep.
Defined.

(** X2 on the scenario. *)
Lemma run_states_witness :
  exists new,
    trace (snd (App.startResearch P_gym s0)) = [] ++ new
    /\ In (stages_entered new)
         [ [PLANNING; ERROR];
           [PLANNING; RESEARCHING; ERROR];
           [PLANNING; RESEARCHING; ANALYZING; ERROR];
           [PLANNING; RESEARCHING; ANALYZING; COMPLETED] ]
    /\ last (stages_entered new) IDLE
       = stage (ui (snd (App.startResearch P_gym s0))).
Proof.
  exact (run_states_are_linear P_gym s0 alice s0_begins).
Defined.

(** X3 on a backend that refuses every request. *)
Lemma credit_counted_witness :
  exists new,
    trace (snd (App.startResearch P_403 s0)) = [] ++ new
    /\ credit_calls new
       = if ResearchStage_eqb (stage (ui (snd (App.startResearch P_403 s0))))
              COMPLETED
         then [user_id alice] else [].
Proof.
  exact (credit_counted_only_on_completion P_403 s0 alice s0_begins).
Defined.

(** X4 on the scenario: the three requests, the second built from the
    plan of the scenario and the third from its findings. *)
Lemma run_requests_witness :
  requests (trace (snd (App.startResearch P_gym s0)))
  = [ planning_params "gym owners";
      research_params P_gym "gym owners" gym_plan;
      analysis_params "gym owners" gym_findings ].
Proof.
  pose proof (run_requests_in_order P_gym s0 alice s0_begins) as H.
  cbv zeta in H. destruct H as (new & k & Ht & _ & Hc & _ & H2).
  assert (Hk : k = 3) by (apply Hc; vm_compute; reflexivity).
  subst k.
  destruct H2 as (researchPlan & progress & Hp & _ & H3); [lia|].
  assert (E1 : researchPlan = gym_plan)
    by (vm_compute in Hp; injection Hp as <-; reflexivity).
  subst researchPlan.
  destruct (H3 eq_refl) as (rawData & Hre & Hq).
  assert (E3 : rawData = gym_findings)
    by (vm_compute in Hre; injection Hre as <-; reflexivity).
  subst rawData. rewrite Ht. exact Hq.
Defined.

(** X5 on a market of two spaces and a line break. *)
Lemma blank_market_witness :
  App.startResearch P_gym s_blank = (Normal tt, s_blank).
Proof.
  apply (blank_market_does_nothing P_gym s_blank).
  repeat constructor; unfold ascii_space; vm_compute; tauto.
Defined.

(** X6 on a visitor who is not signed in. *)
Lemma no_session_witness :
  App.startResearch P_gym s_signed_out
  = (Normal tt,
     mkState tt (mkApp "gym owners" IDLE None None None "" None None true) []).
Proof.
  apply (no_session_opens_the_dialog P_gym s_signed_out).
  - vm_compute. discriminate.
  - reflexivity.
Defined.

(** X8 on a backend that answers the planning request with a 429. *)
Lemma rate_limit_witness :
  fst (generateResearchPlan P_refusing "gym owners" s0)
  = Throw (Error_ "Rate limit exceeded. Please wait a moment before trying again.").
Proof.
  apply (rate_limit_is_reported_by_planning P_refusing "gym owners" s0
           (Rejection (Some "429 Too Many Requests")) tt).
  - apply k1_usable.
  - reflexivity.
  - vm_compute. reflexivity.
Defined.

(** X9 on the plan of the scenario, with the two other requests answered
    otherwise, and on an analysis answer that is an empty array. *)
Lemma any_parsed_value_witness :
  generateResearchPlan P_gym "gym owners" s0
  = (Normal gym_plan, requested P_gym (planning_params "gym owners") s0 tt)
  /\ analyzeSignals P_untyped "gym owners" gym_findings s0
     = (Normal (JArray []),
        requested P_untyped (analysis_params "gym owners" gym_findings) s0 tt).
Proof.
  destruct (structured_stages_return_any_parsed_value P_gym "gym owners"
              gym_findings gym_plan_text gym_plan s0 tt) as [E1 _].
  - apply k1_usable.
  - discriminate.
  - vm_compute. reflexivity.
  - destruct (structured_stages_return_any_parsed_value P_untyped
                "gym owners" gym_findings "[]" (JArray []) s0 tt) as [_ E3].
    + apply k1_usable.
    + discriminate.
    + vm_compute. reflexivity.
    + split; [apply E1 | apply E3]; reflexivity.
Defined.

(** X10 on the findings of the scenario. *)
Lemma findings_witness :
  executeResearch P_gym "gym owners" gym_plan s0
  = (Normal gym_findings,
     requested P_gym (research_params P_gym "gym owners" gym_plan) s0 tt).
Proof.
  apply (findings_are_the_answer P_gym "gym owners" gym_findings gym_plan s0
           tt).
  - apply k1_usable.
  - discriminate.
  - reflexivity.
Defined.

(** X11 on the placeholder credential. *)
Lemma run_without_key_witness :
  stage (ui (snd (App.startResearch P_placeholder s0))) = ERROR
  /\ requests (trace (snd (App.startResearch P_placeholder s0))) = [].
Proof.
  rewrite (run_without_key_fails_at_planning P_placeholder s0 alice
             s0_begins).
  - split; reflexivity.
  - right. right. left. reflexivity.
Defined.

(** X12 on an answer that is an empty object. *)
Lemma plan_without_subreddits_witness :
  error (ui (snd (App.startResearch P_empty_object s0)))
  = Some "Cannot read properties of undefined (reading 'length')"
  /\ Runtime.plan (ui (snd (App.startResearch P_empty_object s0)))
     = Some (JObject []).
Proof.
  rewrite (plan_without_subreddits_ends_the_run P_empty_object s0 alice "{}"
             (JObject []) tt s0_begins).
  - split; reflexivity.
  - apply k1_usable.
  - reflexivity.
  - discriminate.
  - vm_compute. reflexivity.
  - reflexivity.
Defined.

(** X13 on the plan of the scenario and a research request that is
    refused. *)
Lemma research_failure_witness :
  exists p,
    as_ResearchPlan gym_plan = Some p
    /\ progressText (ui (snd (App.startResearch P_research_down s0)))
       = ("Scanning " ++ Js.decimal (List.length (subreddits p))
          ++ " subreddits and "
          ++ Js.decimal (List.length (softwareCategories p))
          ++ " software categories...")%string
    /\ error (ui (snd (App.startResearch P_research_down s0)))
       = Some "Research Execution failed: fetch failed".
Proof.
  destruct (research_failure_after_a_good_plan P_research_down s0 alice
              gym_plan_text gym_plan (Rejection (Some "fetch failed")) tt tt)
    as (p & Hp & E).
  - apply s0_begins.
  - apply k1_usable.
  - reflexivity.
  - vm_compute. discriminate.
  - vm_compute. reflexivity.
  - vm_compute. reflexivity.
  - reflexivity.
  - exists p. split; [exact Hp|]. rewrite E. split; reflexivity.
Defined.

(** X15 on a store that cannot be reached, for a visitor whose loaded
    profile is past the limit. *)
Lemma profile_load_failure_witness :
  profile (ui s_over) = Some (free_profile 5)
  /\ profile (ui (snd (SessionEffect.authStateChanged P_offline (Some alice)
                         s_over))) = None.
Proof.
  split; [reflexivity|].
  destruct (profile_load_failure_lifts_the_gate P_offline s_over alice)
    as (_ & _ & H & _).
  - left. eexists. reflexivity.
  - exact H.
Defined.

(** X16 on the visitor of the scenario. *)
Lemma sign_out_witness :
  App.startResearch P_gym
    (mkState tt (mkApp "gym owners" IDLE None None None "" None None false) [])
  = (Normal tt,
     mkState tt (mkApp "gym owners" IDLE None None None "" None None true) []).
Proof.
  destruct (sign_out_drops_the_profile P_gym s_over) as [_ H].
  apply H. vm_compute. discriminate.
Defined.

(** X17 on a free profile two credits past the limit. *)
Lemma credits_badge_witness :
  View.creditsLabel (free_profile 5) = "-2 left"
  /\ App.credit_limit_reached (Some (free_profile 5)) = true.
Proof.
  destruct (credits_badge_agrees_with_the_gate (free_profile 5)) as [_ H].
  destruct (H eq_refl) as (E & Hgate & _).
  split; [rewrite E; reflexivity|]. apply Hgate. cbn. lia.
Defined.

(** X18 on the scenario, with a literal denoting zero when it is 0: the
    branch of the progress display is not taken. *)
Lemma screen_witness :
  View.main_branch (ui (snd (App.startResearch P_gym s0))) <> View.Loading.
Proof.
  pose proof (screen_after_a_run P_gym s0 alice (String.eqb "0")
                s0_begins) as H.
  cbv zeta in H.
  destruct H as [(_ & H & _)|(_ & H & _)]; rewrite H; discriminate.
Defined.

(** X19 on a configured address and key, and on none. *)
Lemma storage_client_witness :
  Config.client_url (Some "https://abc.supabase.co") = "https://abc.supabase.co"
  /\ Config.warns None None = true.
Proof.
  destruct (storage_client_fallback_is_announced
              (Some "https://abc.supabase.co") (Some "anon-1"))
    as (_ & _ & H & _).
  destruct (storage_client_fallback_is_announced None None)
    as (_ & _ & _ & H').
  split.
  - destruct (H eq_refl) as (E & _). congruence.
  - apply H'. left. reflexivity.
Defined.

(** X20 on the placeholder key with both storage settings present. *)
Lemma configured_yet_refused_witness :
  Config.isConfigured
    (Config.configStatus (GEMINI_API_KEY P_placeholder) (Some "u") (Some "k"))
  = true
  /\ fst (getAI P_placeholder s0) = Throw (Error_ missing_key_message).
Proof.
  split; [reflexivity|].
  destruct (configured_yet_refused P_placeholder s0 (Some "u") (Some "k")
              eq_refl) as [H _].
  apply H. left. reflexivity.
Defined.

(** X21 on a bundle built from an environment file that still holds the
    placeholder. *)
Lemma build_resolves_witness :
  GEMINI_API_KEY P_built = Some "MY_GEMINI_API_KEY"
  /\ key_unusable (GEMINI_API_KEY P_built).
Proof.
  destruct (build_resolves_the_key P_built (Some "MY_GEMINI_API_KEY")
              None None None eq_refl) as (_ & _ & _ & H).
  destruct (H eq_refl) as (E & Hk & _). split; assumption.
Defined.

(** A run whose report parses to [null]: the run is [COMPLETED], the
    credit is counted, and neither a branch of the main area nor the
    condition of the report section selects any markup. *)
Example null_report_leaves_an_empty_screen :
  let s' := snd (App.startResearch P_null_report s0) in
  stage (ui s') = COMPLETED
  /\ report (ui s') = Some JNull
  /\ credit_calls (trace s') = ["u-1"]
  /\ View.main_branch (ui s') = View.NoPanel
  /\ View.report_condition (String.eqb "0") (ui s') = false.
Proof. vm_compute. repeat split; reflexivity. Qed.

(** * The sign-in dialog *)

Section Dialog.

Import AuthDialog.

Context {W : Type} (A : AuthClient W).

Ltac dialog_norm :=
  cbn [world ui trace fst snd authMode authEmail authPassword authFirstName
       authLastName authLoading market stage Runtime.plan report Runtime.error
       progressText session profile showAuthModal signUp_error user].

Ltac run_dialog :=
  unfold handleAuth, try_finally, try_catch, bind, captured_fields,
    setAuthLoading, App.setError, App.setShowAuthModal, modify_ui,
    world_call, window_alert, throw, ret, after_auth, settled, dialog_state;
  dialog_norm.

(** X22. What the sign-in handler leaves, case by case.  A sign-in that
    the service accepts closes the dialog and leaves no error text.  A
    sign-up that the service accepts with a user shows the confirmation
    notice and closes the dialog; accepted without a user it changes
    nothing.  An error answered by the service, or a rejected call, puts
    the message of the error in the error text and leaves the dialog as
    it was.  In every case the handler returns normally and the fields
    are no longer loading. *)
Theorem handleAuth_outcomes (s : state (AuthFields * W)) :
  let f := fst (world s) in
  let w := snd (world s) in
  let keep := showAuthModal (ui s) in
  (authMode f = signin ->
   (forall w1,
       signInWithPassword A (signIn_credentials f) w = (Resolved None, w1) ->
       handleAuth A s = (Normal tt, after_auth s w1 None false))
   /\ (forall err w1,
       signInWithPassword A (signIn_credentials f) w
       = (Resolved (Some err), w1) ->
       handleAuth A s
       = (Normal tt, after_auth s w1 (Some (auth_message err)) keep))
   /\ (forall e w1,
       signInWithPassword A (signIn_credentials f) w = (Rejected e, w1) ->
       handleAuth A s = (Normal tt, after_auth s w1 (message_of e) keep)))
  /\ (authMode f = signup ->
      (forall u w1,
          signUp A (signUp_credentials f) w
          = (Resolved {| user := Some u; signUp_error := None |}, w1) ->
          handleAuth A s
          = (Normal tt,
             after_auth s (alert A confirmation_notice w1) None false))
      /\ (forall w1,
          signUp A (signUp_credentials f) w
          = (Resolved {| user := None; signUp_error := None |}, w1) ->
          handleAuth A s = (Normal tt, after_auth s w1 None keep))
      /\ (forall u err w1,
          signUp A (signUp_credentials f) w
          = (Resolved {| user := u; signUp_error := Some err |}, w1) ->
          handleAuth A s
          = (Normal tt, after_auth s w1 (Some (auth_message err)) keep))
      /\ (forall e w1,
          signUp A (signUp_credentials f) w = (Rejected e, w1) ->
          handleAuth A s = (Normal tt, after_auth s w1 (message_of e) keep))).
Proof.
  cbv zeta. unfold signIn_credentials, signUp_credentials.
  split; intros Hmode; repeat split; intros; run_dialog; rewrite Hmode;
    dialog_norm;
    match goal with
    | H : _ = (_, _) |- _ => rewrite H
    end; dialog_norm; rewrite ?Hmode; reflexivity.
Qed.

(** X23. Whenever the call to the identity service resolves, or rejects
    with an error object, the sign-in handler does not throw and does not
    stay loading; it touches nothing but the error text and the dialog,
    and it closes the dialog only when it leaves no error text.  A call
    that rejects with [null] or [undefined] is outside this: such a
    value is not among the thrown values, and on it the [catch] block
    itself throws while it reads [err.message]. *)
Theorem handleAuth_always_settles (s : state (AuthFields * W)) :
  exists w' err open,
    handleAuth A s = (Normal tt, after_auth s w' err open)
    /\ (open = false \/ open = showAuthModal (ui s))
    /\ (err <> None -> open = showAuthModal (ui s)).
Proof.
  run_dialog. destruct (authMode (fst (world s))) eqn:Hmode; dialog_norm.
  - destruct (signInWithPassword A _ _) as [[[err|]|e] w1]; dialog_norm;
      eexists w1, _, _; (split; [reflexivity|]); split; auto;
      intros H; congruence.
  - destruct (signUp A _ _) as [[[u [err|]]|e] w1]; dialog_norm;
      [ | destruct u | ]; dialog_norm;
      eexists _, _, _; (split; [reflexivity|]); split; auto;
      intros H; congruence.
Qed.

End Dialog.

(** X22 on a wrong password. *)
Lemma handleAuth_outcomes_witness :
  AuthDialog.handleAuth one_account s_dialog
  = (Normal tt,
     after_auth s_dialog [] (Some "Invalid login credentials") true).
Proof.
  destruct (handleAuth_outcomes one_account s_dialog) as [H _].
  destruct (H eq_refl) as (_ & Herr & _).
  apply (Herr {| AuthDialog.auth_message := "Invalid login credentials" |} []).
  reflexivity.
Defined.
